(** * Flight delays and cancellations: the normalisation pipeline of airflights.py

    A shallow embedding of the data-preparation part of [airflights.py]
    (lines 25-163): the time reconstruction [hhmm_to_datetime], the flight
    and weather normalisers, the date-level merge and the derived columns.

    Conventions of the embedding.
    - A pandas [Series] is a list; its index is the position in the list
      (the frames come from [read_csv], whose index is 0, 1, 2, ...).
    - Text is a Rocq [string]; the character with code [n] stands for the
      Unicode code point [n], so the embedding covers the code points
      below 256.
    - A timestamp ([datetime64[ns]]) is the integer count of nanoseconds
      since the epoch, [None] is [NaT].  A timestamp that pandas builds
      has to fit 64 bits: where the script adds to a timestamp or makes
      one of a date, the embedding raises as pandas does when the result
      leaves the range.  Datetime columns carry no time zone.
    - A floating-point entry is [NaN], an infinity, the negative zero, or
      a finite value held as an exact rational (the zero among these is
      the positive one).
    - An exception that leaves the script is a [Raise] result. *)

From Stdlib Require Import ZArith QArith List String Ascii Bool Lia DecimalString.
Import ListNotations.
Open Scope Z_scope.

(** ** Exceptions *)

Inductive exn : Type :=
| AttributeError
| KeyError (key : string)
| TypeError
| IntCastingNaNError.

Inductive result (A : Type) : Type :=
| Ok (a : A)
| Raise (e : exn).
Arguments Ok {A} a.
Arguments Raise {A} e.

Definition bind {A B : Type} (r : result A) (k : A -> result B) : result B :=
  match r with
  | Ok a => k a
  | Raise e => Raise e
  end.

Notation "x <- r ;; k" := (bind r (fun x => k))
  (at level 61, r at next level, right associativity).

(** ** Text primitives (Python [str] methods used by the script) *)

Module Text.

Definition code (c : ascii) : N := N_of_ascii c.

(** The characters ['0'] .. ['9']: the ones [int()] accepts as digits. *)
Definition is_decimal_char (c : ascii) : bool :=
  ((48 <=? code c) && (code c <=? 57))%N.

(** [str.isdigit] also accepts the superscript digits U+00B2, U+00B3 and
    U+00B9, which are the only other digit characters below 256. *)
Definition is_digit_char (c : ascii) : bool :=
  is_decimal_char c
  || (code c =? 178)%N || (code c =? 179)%N || (code c =? 185)%N.

Fixpoint all_chars (p : ascii -> bool) (s : string) : bool :=
  match s with
  | EmptyString => true
  | String c s' => p c && all_chars p s'
  end.

Definition nonempty (s : string) : bool :=
  match s with EmptyString => false | String _ _ => true end.

(** [s.isdigit()] *)
Definition isdigit (s : string) : bool := nonempty s && all_chars is_digit_char s.

(** [s.isdecimal()]: every character is one of ['0'] .. ['9']. *)
Definition isdecimal (s : string) : bool := nonempty s && all_chars is_decimal_char s.

Definition digit_value (c : ascii) : Z := Z.of_N (code c) - 48.

Fixpoint digits_value (acc : Z) (s : string) : option Z :=
  match s with
  | EmptyString => Some acc
  | String c s' =>
      if is_decimal_char c then digits_value (10 * acc + digit_value c) s'
      else None
  end.

(** [int(s)] on a text that passed [isdigit]: the value of the decimal
    digits, [None] (a [ValueError]) when a character is not one. *)
Definition to_int (s : string) : option Z :=
  match s with
  | EmptyString => None
  | String _ _ => digits_value 0 s
  end.

(** [str(z)] for an integer. *)
Definition of_int (z : Z) : string := NilZero.string_of_int (Z.to_int z).

(** [s[i:j]] for [0 <= i <= j]. *)
Definition slice (i j : nat) (s : string) : string := substring i (j - i) s.

Fixpoint zeros (n : nat) : string :=
  match n with
  | O => EmptyString
  | S n' => String "0" (zeros n')
  end.

(** [s.zfill(width)]: pad on the left with ['0'], after a leading sign. *)
Definition zfill (width : nat) (s : string) : string :=
  let pad := zeros (width - String.length s) in
  match s with
  | String c s' =>
      if (Ascii.eqb c "+" || Ascii.eqb c "-")%bool
      then String c (pad ++ s')%string
      else (pad ++ s)%string
  | EmptyString => pad
  end.

Fixpoint skip_zeros (r : list ascii) : list ascii :=
  match r with
  | c :: r' => if Ascii.eqb c "0" then skip_zeros r' else r
  | [] => []
  end.

(** On the reversed text: a match of [\.0+] that ends where the text ends;
    the result is what is left in front of the match. *)
Definition cut_dot_zeros (r : list ascii) : option (list ascii) :=
  match r with
  | c :: r' =>
      if Ascii.eqb c "0" then
        match skip_zeros r' with
        | d :: rest => if Ascii.eqb d "." then Some rest else None
        | [] => None
        end
      else None
  | [] => None
  end.

Definition newline : ascii := ascii_of_nat 10.

(** [re.sub(r'\.0+$', '', s)]; [$] matches at the end of the text and
    also just before a newline that ends the text. *)
Definition strip_dot_zeros (s : string) : string :=
  let r := rev (list_ascii_of_string s) in
  match cut_dot_zeros r with
  | Some rest => string_of_list_ascii (rev rest)
  | None =>
      match r with
      | c :: r' =>
          if Ascii.eqb c newline then
            match cut_dot_zeros r' with
            | Some rest => string_of_list_ascii (rev (newline :: rest))
            | None => s
            end
          else s
      | [] => s
      end
  end.

(** [needle in hay] *)
Fixpoint contains (needle hay : string) : bool :=
  prefix needle hay ||
  match hay with
  | EmptyString => false
  | String _ hay' => contains needle hay'
  end.

End Text.

(** ** Numbers, cells and columns *)

Inductive fnum : Type :=
| NaN
| PInf
| NInf
| NZero
| Fin (q : Q).

(** A cell is one entry of a column: a Python scalar. *)
Inductive cell : Type :=
| XInt (z : Z)
| XFloat (x : fnum)
| XBool (b : bool)
| XStr (s : string)
| XTime (t : option Z).

(** A column with its dtype: [int64], [float64], [bool],
    [datetime64[ns]] and [object]. *)
Inductive column : Type :=
| CInt (l : list Z)
| CFloat (l : list fnum)
| CBool (l : list bool)
| CTime (l : list (option Z))
| CObj (l : list cell).

Definition cells (c : column) : list cell :=
  match c with
  | CInt l => map XInt l
  | CFloat l => map XFloat l
  | CBool l => map XBool l
  | CTime l => map XTime l
  | CObj l => l
  end.

Definition col_len (c : column) : nat := List.length (cells c).

Definition NaT : option Z := None.

(** ** Library functions of pandas and Python taken as parameters

    The script leaves these conversions to pandas; the embedding takes
    them as they are, without looking inside. *)

Class Pandas : Type := {
  (** [repr] of a finite float that is not a whole number below 1e16 *)
  float_repr : Q -> string;
  (** [str] of a timestamp *)
  time_repr : Z -> string;
  (** [pd.to_numeric(.., errors="coerce")] on one text: [NaN] when it is
      not a number *)
  parse_number : string -> fnum;
  (** [pd.to_datetime(.., errors="coerce")] on one entry that is not yet a
      timestamp: [NaT] when it is not a date *)
  parse_datetime : cell -> option Z;
  (** [pd.to_datetime] assembling a date from year, month and day *)
  assemble_date : cell -> cell -> cell -> option Z;
  (** [.dt.to_period("M")] on one timestamp: the month it falls in *)
  period_month : Z -> Z;
  (** the cast to [int64] of a finite float whose integer part does not
      fit 64 bits, which numpy leaves to the platform *)
  cast_out_of_range : Q -> Z
}.

Section Pipeline.

Context {lib : Pandas}.

(** The range of [int64]; its least value stands for [NaT] in a
    datetime column, so timestamps start one above it. *)
Definition int64_min : Z := - 2 ^ 63.
Definition int64_max : Z := 2 ^ 63 - 1.

Definition in_int64 (z : Z) : bool := (int64_min <=? z) && (z <=? int64_max).

(** [pd.Timestamp.min] and [pd.Timestamp.max] in nanoseconds. *)
Definition ts_min : Z := int64_min + 1.
Definition ts_max : Z := int64_max.

Definition in_ts_range (t : Z) : bool := (ts_min <=? t) && (t <=? ts_max).

Definition is_whole (q : Q) : bool := (Zpos (Qden (Qred q)) =? 1).

(** [str(x)] for a float: whole numbers below 1e16 print with [.0]. *)
Definition float_str (x : fnum) : string :=
  match x with
  | NaN => "nan"
  | PInf => "inf"
  | NInf => "-inf"
  | NZero => "-0.0"
  | Fin q =>
      let n := Qnum (Qred q) in
      if is_whole q && (Z.abs n <? 10 ^ 16)
      then (Text.of_int n ++ ".0")%string
      else float_repr q
  end.

(** [.astype(str)] on one entry. *)
Definition astype_str (c : cell) : string :=
  match c with
  | XInt z => Text.of_int z
  | XFloat x => float_str x
  | XBool true => "True"
  | XBool false => "False"
  | XStr s => s
  | XTime (Some t) => time_repr t
  | XTime None => "NaT"
  end.

(** ** Time reconstruction: [hhmm_to_datetime] (lines 25-44) *)

Definition ns_minute : Z := 60 * 10 ^ 9.
Definition ns_hour : Z := 3600 * 10 ^ 9.
Definition ns_day : Z := 86400 * 10 ^ 9.

(** [pd.to_datetime(t.date())]: the midnight that starts the day of [t]. *)
Definition dt_date (t : Z) : Z := ns_day * (t / ns_day).

(** Line 33: text form, trailing [.0] removed, padded to four characters. *)
Definition padded (c : cell) : string :=
  Text.zfill 4 (Text.strip_dot_zeros (astype_str c)).

(** [xs[mask]]: the entries at the positions where the mask is true. *)
Fixpoint select {A : Type} (mask : list bool) (xs : list A) : list A :=
  match mask, xs with
  | b :: mask', x :: xs' => if b then x :: select mask' xs' else select mask' xs'
  | _, _ => []
  end.

(** [out.loc[mask] = vals]: the values go to the positions where the mask
    is true, in order. *)
Fixpoint assign {A : Type} (mask : list bool) (out vals : list A) : list A :=
  match mask, out with
  | b :: mask', o :: out' =>
      if b then
        match vals with
        | v :: vals' => v :: assign mask' out' vals'
        | [] => o :: assign mask' out' []
        end
      else o :: assign mask' out' vals
  | _, _ => out
  end.

(** [.astype(int)] on a list of texts; [None] when one conversion raises. *)
Fixpoint astype_int (l : list string) : option (list Z) :=
  match l with
  | [] => Some []
  | s :: l' =>
      match Text.to_int s, astype_int l' with
      | Some z, Some zs => Some (z :: zs)
      | _, _ => None
      end
  end.

(** Line 39 on one selected row: date + hours + minutes; [NaT] stays.
    [pd.to_datetime] refuses a midnight before [Timestamp.min], and each
    of the two additions raises when its sum leaves the range; [None]
    stands for the exception. *)
Definition stamp (d : option Z) (h m : Z) : option (option Z) :=
  match d with
  | None => Some NaT
  | Some t =>
      let t0 := dt_date t in
      let t1 := t0 + h * ns_hour in
      let t2 := t1 + m * ns_minute in
      if in_ts_range t0 && in_ts_range t1 && in_ts_range t2
      then Some (Some t2) else None
  end.

(** Line 39 on the selected rows. *)
Fixpoint add_offsets (ds : list (option Z)) (hh mm : list Z)
    : option (list (option Z)) :=
  match ds, hh, mm with
  | d :: ds', h :: hh', m :: mm' =>
      match stamp d h m, add_offsets ds' hh' mm' with
      | Some x, Some r => Some (x :: r)
      | _, _ => None
      end
  | _, _, _ => Some []
  end.

(** The body of the [try] (lines 37-40); [None] when it raises.  The
    [.dt] accessor exists on a datetime column only, and a boolean mask
    shorter than the series it indexes cannot be aligned. *)
Definition try_block (date_series : column) (s : list string)
    (mask_valid : list bool) (out : list (option Z)) : option (list (option Z)) :=
  match astype_int (map (Text.slice 0 2) (select mask_valid s)),
        astype_int (map (Text.slice 2 4) (select mask_valid s)) with
  | Some hh, Some mm =>
      match date_series with
      | CTime dates =>
          if (List.length mask_valid <? List.length dates)%nat then None
          else
            match add_offsets (select mask_valid dates) hh mm with
            | Some out_valid => Some (assign mask_valid out out_valid)
            | None => None
            end
      | _ => None
      end
  | _, _ => None
  end.

(** [date_series.index], which a missing series does not have. *)
Definition index_of (date_series : option column) : result nat :=
  match date_series with
  | Some d => Ok (col_len d)
  | None => Raise AttributeError
  end.

Definition hhmm_to_datetime (date_series time_series : option column)
    : result (list (option Z)) :=
  match time_series, date_series with
  | Some ts, Some ds =>
      let s := map padded (cells ts) in
      let mask_valid := map Text.isdigit s in
      let out := repeat NaT (col_len ds) in
      match try_block ds s mask_valid out with
      | Some out' => Ok out'
      | None => Ok (repeat NaT (col_len ds))
      end
  | _, _ =>
      n <- index_of date_series ;;
      Ok (repeat NaT n)
  end.

(** ** Data frames

    A frame is the list of its columns in order, each under its name.  The
    names are the upper-cased ones of lines 53-54. *)

Definition frame : Type := list (string * column).

(** [name in fl.columns] and [fl[name]] *)
Fixpoint get (fl : frame) (name : string) : option column :=
  match fl with
  | [] => None
  | (n, c) :: fl' => if String.eqb n name then Some c else get fl' name
  end.

Definition has (fl : frame) (name : string) : bool :=
  match get fl name with Some _ => true | None => false end.

Definition getitem (fl : frame) (name : string) : result column :=
  match get fl name with
  | Some c => Ok c
  | None => Raise (KeyError name)
  end.

(** [fl[name] = c]: an existing column is replaced where it stands, a new
    one goes to the end. *)
Fixpoint set (fl : frame) (name : string) (c : column) : frame :=
  match fl with
  | [] => [(name, c)]
  | (n, c') :: fl' =>
      if String.eqb n name then (n, c) :: fl' else (n, c') :: set fl' name c
  end.

Definition columns (fl : frame) : list string := map fst fl.

(** [len(fl)] *)
Definition len (fl : frame) : nat :=
  match fl with
  | [] => O
  | (_, c) :: _ => col_len c
  end.

(** [fl.rename(columns={old: new})] *)
Definition rename (fl : frame) (old new : string) : frame :=
  map (fun nc => (if String.eqb (fst nc) old then new else fst nc, snd nc)) fl.

(** ** Flight normaliser (lines 59-115) *)

(** [pd.to_datetime(col, errors="coerce")].  The result carries no time
    zone: the embedding covers the entries that pandas reads as local
    timestamps, not texts with a UTC offset. *)
Definition to_datetime (c : column) : column :=
  match c with
  | CTime l => CTime l
  | _ => CTime (map parse_datetime (cells c))
  end.

Fixpoint assemble (y m d : list cell) : list (option Z) :=
  match y, m, d with
  | y1 :: y', m1 :: m', d1 :: d' => assemble_date y1 m1 d1 :: assemble y' m' d'
  | _, _, _ => []
  end.

(** Lines 62-65, and lines 123-126 with ["DATE"] as the name. *)
Definition derive_date (name : string) (fl : frame) : frame :=
  match get fl "YEAR", get fl "MONTH", get fl "DAY", get fl name with
  | Some y, Some m, Some d, None =>
      set fl name (CTime (assemble (cells y) (cells m) (cells d)))
  | _, _, _, Some c => set fl name (to_datetime c)
  | _, _, _, None => fl
  end.

(** Lines 67-71. *)
Definition convert_time_hour (fl : frame) : frame :=
  match get fl "TIME_HOUR" with
  | Some c => set fl "TIME_HOUR" (to_datetime c)
  | None => fl
  end.

Definition time_map : list (string * string) :=
  [("CRS_DEP_TIME", "SCHED_DEP_DATETIME"); ("DEP_TIME", "ACTUAL_DEP_DATETIME");
   ("CRS_ARR_TIME", "SCHED_ARR_DATETIME"); ("ARR_TIME", "ACTUAL_ARR_DATETIME")]%string.

(** Lines 80-82. *)
Fixpoint add_datetimes (tm : list (string * string)) (fl : frame) : result frame :=
  match tm with
  | [] => Ok fl
  | (tcol, outcol) :: tm' =>
      if has fl tcol && has fl "FL_DATE" then
        out <- hhmm_to_datetime (get fl "FL_DATE") (get fl tcol) ;;
        add_datetimes tm' (set fl outcol (CTime out))
      else add_datetimes tm' fl
  end.

Definition of_bool (b : bool) : Z := if b then 1 else 0.

(** The value [int64] holds for [NaT]. *)
Definition iNaT : Z := - 2 ^ 63.

(** [pd.to_numeric(.., errors="coerce")] on one entry of an object column. *)
Definition to_numeric_cell (c : cell) : fnum :=
  match c with
  | XInt z => Fin (inject_Z z)
  | XFloat x => x
  | XBool b => Fin (inject_Z (of_bool b))
  | XStr s => parse_number s
  | XTime _ => NaN
  end.

(** [pd.to_numeric(col, errors="coerce")]: numeric and boolean columns are
    returned as they are, timestamps as their nanosecond counts, texts are
    parsed. *)
Definition to_numeric (c : column) : column :=
  match c with
  | CObj l => CFloat (map to_numeric_cell l)
  | CTime l => CInt (map (fun t => match t with Some n => n | None => iNaT end) l)
  | _ => c
  end.

(** [(a - s).total_seconds() / 60] on one row. *)
Definition minutes_between (a s : option Z) : fnum :=
  match a, s with
  | Some ta, Some ts => Fin (Qred (inject_Z (ta - ts) / inject_Z (10 ^ 9) / 60))
  | _, _ => NaN
  end.

Fixpoint map2 {A B C : Type} (f : A -> B -> C) (l1 : list A) (l2 : list B) : list C :=
  match l1, l2 with
  | a :: l1', b :: l2' => f a b :: map2 f l1' l2'
  | _, _ => []
  end.

(** Line 89: the difference of two columns read through [.dt]; only
    datetime columns subtract to a duration. *)
Definition delay_from_datetimes (actual sched : column) : result column :=
  match actual, sched with
  | CTime la, CTime ls => Ok (CFloat (map2 minutes_between la ls))
  | (CInt _ | CFloat _), (CInt _ | CFloat _) => Raise AttributeError
  | _, _ => Raise TypeError
  end.

(** Lines 85-91. *)
Definition DEP_DELAY_MIN (fl : frame) : result column :=
  match get fl "DEP_DELAY" with
  | Some c => Ok (to_numeric c)
  | None =>
      match get fl "ACTUAL_DEP_DATETIME", get fl "SCHED_DEP_DATETIME" with
      | Some a, Some s => delay_from_datetimes a s
      | _, _ => Ok (CFloat (repeat NaN (len fl)))
      end
  end.

(** *** Cancellation flag (lines 93-105) *)

(** Lines 94-98: the first column whose name contains [CANCEL]. *)
Fixpoint find_cancel (names : list string) : option string :=
  match names with
  | [] => None
  | c :: names' => if Text.contains "CANCEL" c then Some c else find_cancel names'
  end.

(** Rounding towards zero, as the cast of a float to an integer does for
    the values that fit the integer type. *)
Definition truncate (q : Q) : Z := Z.quot (Qnum q) (Zpos (Qden q)).

(** [.fillna(0).astype(int)] on one float: the cast refuses infinities,
    and rounds towards zero what fits [int64]. *)
Definition float_to_int (x : fnum) : result Z :=
  match x with
  | NaN | NZero => Ok 0
  | Fin q =>
      if in_int64 (truncate q) then Ok (truncate q) else Ok (cast_out_of_range q)
  | PInf | NInf => Raise IntCastingNaNError
  end.

Fixpoint traverse {A B : Type} (f : A -> result B) (l : list A) : result (list B) :=
  match l with
  | [] => Ok []
  | a :: l' => b <- f a ;; bs <- traverse f l' ;; Ok (b :: bs)
  end.

(** [.fillna(0).astype(int)] on the outcome of [to_numeric], which is an
    integer, float or boolean column; the other two cases go through
    [to_numeric] once more. *)
Definition fillna0_astype_int (c : column) : result (list Z) :=
  match c with
  | CInt l => Ok l
  | CFloat l => traverse float_to_int l
  | CBool l => Ok (map of_bool l)
  | CTime l => Ok (map (fun t => match t with Some n => n | None => iNaT end) l)
  | CObj l => traverse (fun x => float_to_int (to_numeric_cell x)) l
  end.

Definition isna_cell (c : cell) : bool :=
  match c with
  | XFloat NaN => true
  | XTime None => true
  | _ => false
  end.

(** [col.isna()] *)
Definition isna (c : column) : list bool := map isna_cell (cells c).

(** Lines 103-104: the column when it exists, else a series of [NaT] as
    long as the frame. *)
Definition actual_or_missing (fl : frame) (name : string) : column :=
  match get fl name with
  | Some c => c
  | None => CTime (repeat NaT (len fl))
  end.

Definition CANCELLED_FLAG (fl : frame) : result (list Z) :=
  match find_cancel (columns fl) with
  | Some cancel_col =>
      c <- getitem fl cancel_col ;;
      fillna0_astype_int (to_numeric c)
  | None =>
      let act_dep := actual_or_missing fl "ACTUAL_DEP_DATETIME" in
      let act_arr := actual_or_missing fl "ACTUAL_ARR_DATETIME" in
      Ok (map of_bool (map2 andb (isna act_dep) (isna act_arr)))
  end.

(** Lines 108-111. *)
Definition canonical_airline (fl : frame) : frame :=
  if has fl "CARRIER" && negb (has fl "AIRLINE") then rename fl "CARRIER" "AIRLINE"
  else if has fl "OP_CARRIER" && negb (has fl "AIRLINE") then rename fl "OP_CARRIER" "AIRLINE"
  else fl.

Definition useful : list string :=
  ["FL_DATE"; "AIRLINE"; "TAIL_NUM"; "FL_NUM"; "ORIGIN"; "DEST"; "DEP_DELAY_MIN";
   "ARR_DELAY"; "DISTANCE"; "CANCELLED_FLAG"; "SCHED_DEP_DATETIME";
   "ACTUAL_DEP_DATETIME"]%string.

(** [fl[names]] for names that are all columns of [fl]. *)
Fixpoint project (fl : frame) (names : list string) : frame :=
  match names with
  | [] => []
  | n :: names' =>
      match get fl n with
      | Some c => (n, c) :: project fl names'
      | None => project fl names'
      end
  end.

(** Lines 59-115. *)
Definition prepare_flights (flights_raw : frame) : result frame :=
  let fl := convert_time_hour (derive_date "FL_DATE" flights_raw) in
  fl <- add_datetimes time_map fl ;;
  delay <- DEP_DELAY_MIN fl ;;
  let fl := set fl "DEP_DELAY_MIN" delay in
  flag <- CANCELLED_FLAG fl ;;
  let fl := set fl "CANCELLED_FLAG" (CInt flag) in
  let fl := canonical_airline fl in
  Ok (project fl (filter (has fl) useful)).

(** ** Weather normaliser (lines 121-141) *)

Definition is_numeric (c : column) : bool :=
  match c with
  | CInt _ | CFloat _ => true
  | _ => false
  end.

(** Line 134: [select_dtypes(include=[np.number])] *)
Definition numeric_weather_cols (wx : frame) : list string :=
  map fst (filter (fun nc => is_numeric (snd nc)) wx).

(** The entries of a numeric column as floats. *)
Definition values (c : column) : list fnum :=
  match c with
  | CInt l => map (fun z => Fin (inject_Z z)) l
  | CFloat l => l
  | _ => []
  end.

Definition column_values (wx : frame) (name : string) : list fnum :=
  match get wx name with
  | Some c => values c
  | None => []
  end.

(** Float addition and division by a count. *)
Definition xadd (x y : fnum) : fnum :=
  match x, y with
  | NaN, _ | _, NaN => NaN
  | PInf, NInf | NInf, PInf => NaN
  | PInf, _ | _, PInf => PInf
  | NInf, _ | _, NInf => NInf
  | NZero, z | z, NZero => z
  | Fin a, Fin b => Fin (a + b)
  end.

Definition xdiv (x : fnum) (n : nat) : fnum :=
  match x with
  | Fin q => Fin (Qred (q / inject_Z (Z.of_nat n)))
  | _ => x
  end.

(** The running sum and count of one group; a [NaN] is not counted. *)
Definition observe (v : fnum) (a : fnum * nat) : fnum * nat :=
  match v with
  | NaN => a
  | _ => (xadd (fst a) v, S (snd a))
  end.

Definition no_obs : fnum * nat := (Fin 0, O).

(** The groups are kept in the order of their dates. *)
Fixpoint upsert (k : Z) (v : fnum) (g : list (Z * (fnum * nat))) : list (Z * (fnum * nat)) :=
  match g with
  | [] => [(k, observe v no_obs)]
  | (k', a) :: g' =>
      if k <? k' then (k, observe v no_obs) :: g
      else if k =? k' then (k', observe v a) :: g'
      else (k', a) :: upsert k v g'
  end.

(** [groupby("DATE")]: the rows without a date belong to no group. *)
Definition group_step (g : list (Z * (fnum * nat))) (row : option Z * fnum) :=
  match fst row with
  | Some k => upsert k (snd row) g
  | None => g
  end.

Definition group_sums (dates : list (option Z)) (vals : list fnum) :=
  fold_left group_step (combine dates vals) [].

Definition mean_of (a : fnum * nat) : fnum :=
  match snd a with
  | O => NaN
  | S _ => xdiv (fst a) (snd a)
  end.

(** [groupby("DATE")[col].mean()] *)
Definition group_mean (dates : list (option Z)) (vals : list fnum) : list (Z * fnum) :=
  map (fun ka => (fst ka, mean_of (snd ka))) (group_sums dates vals).

Definition group_keys (dates : list (option Z)) : list Z :=
  map fst (group_sums dates (map (fun _ => NaN) dates)).

(** Line 136: the date column of [reset_index()] and one mean per group
    for every numeric column. *)
Definition aggregate (wx : frame) (dates : list (option Z)) (numeric : list string) : frame :=
  ("DATE"%string, CTime (map Some (group_keys dates)))
  :: map (fun n => (n, CFloat (map snd (group_mean dates (column_values wx n))))) numeric.

(** Lines 134-141.  The date column is a datetime column whenever it
    exists (lines 123-126). *)
Definition weather_aggregate (wx : frame) : frame :=
  match numeric_weather_cols wx, get wx "DATE" with
  | _ :: _, Some (CTime dates) => aggregate wx dates (numeric_weather_cols wx)
  | _, _ => wx
  end.

(** Lines 121-141. *)
Definition prepare_weather (weather_raw : frame) : frame :=
  let wx := derive_date "DATE" weather_raw in
  let wx := if has wx "STATION" && negb (has wx "ORIGIN")
            then rename wx "STATION" "ORIGIN" else wx in
  weather_aggregate wx.

(** ** Merger (lines 146-152) *)

(** Equal dates match, and so do two missing dates. *)
Definition key_eqb (a b : option Z) : bool :=
  match a, b with
  | Some x, Some y => x =? y
  | None, None => true
  | _, _ => false
  end.

(** The positions [j + i] such that entry [i] of [rk] matches [k]. *)
Fixpoint positions (k : option Z) (rk : list (option Z)) (j : nat) : list nat :=
  match rk with
  | [] => []
  | k' :: rk' => if key_eqb k k' then j :: positions k rk' (S j) else positions k rk' (S j)
  end.

(** The rows of a left join: every left row with each of its matches, or
    once with none. *)
Definition join_row (rk : list (option Z)) (ik : nat * option Z) : list (nat * option nat) :=
  match positions (snd ik) rk O with
  | [] => [(fst ik, None)]
  | js => map (fun j => (fst ik, Some j)) js
  end.

Definition join_rows (lk rk : list (option Z)) : list (nat * option nat) :=
  flat_map (join_row rk) (combine (seq O (List.length lk)) lk).

Definition missing : cell := XFloat NaN.

(** The rows [idx] of a column of the left frame. *)
Definition take (idx : list nat) (c : column) : column :=
  match c with
  | CInt l => CInt (map (fun i => nth i l 0) idx)
  | CFloat l => CFloat (map (fun i => nth i l NaN) idx)
  | CBool l => CBool (map (fun i => nth i l false) idx)
  | CTime l => CTime (map (fun i => nth i l NaT) idx)
  | CObj l => CObj (map (fun i => nth i l missing) idx)
  end.

Definition is_some {A : Type} (o : option A) : bool :=
  match o with Some _ => true | None => false end.

Definition at_row {A : Type} (l : list A) (d : A) (j : option nat) : A :=
  match j with
  | Some i => nth i l d
  | None => d
  end.

(** The rows [idx] of a column of the right frame; a row without a match
    holds the missing value, which integer and boolean columns make room
    for by changing dtype. *)
Definition take_opt (idx : list (option nat)) (c : column) : column :=
  match c with
  | CInt l =>
      if forallb is_some idx then CInt (map (at_row l 0) idx)
      else CFloat (map (at_row (map (fun z => Fin (inject_Z z)) l) NaN) idx)
  | CFloat l => CFloat (map (at_row l NaN) idx)
  | CBool l =>
      if forallb is_some idx then CBool (map (at_row l false) idx)
      else CObj (map (at_row (map XBool l) missing) idx)
  | CTime l => CTime (map (at_row l NaT) idx)
  | CObj l => CObj (map (at_row l missing) idx)
  end.

(** [suffixes=("", "_WX")]: a right column whose name the left frame
    also has is renamed. *)
Definition suffixed (left : list string) (n : string) : string :=
  if existsb (String.eqb n) left then (n ++ "_WX")%string else n.

Definition merge_left (fl wx : frame) (lk rk : list (option Z)) : frame :=
  let rows := join_rows lk rk in
  (map (fun nc => (fst nc, take (map fst rows) (snd nc))) fl
   ++ map (fun nc => (suffixed (columns fl) (fst nc), take_opt (map snd rows) (snd nc))) wx)%list.

(** Lines 146-152.  Both key columns are datetime columns when they exist
    (lines 62-65 and 123-126), and the embedding joins on such keys only. *)
Definition merge_step (fl_small wx_agg : frame) : result frame :=
  match get fl_small "FL_DATE", get wx_agg "DATE" with
  | Some (CTime lk), Some (CTime rk) => Ok (merge_left fl_small wx_agg lk rk)
  | Some _, Some _ => Raise TypeError
  | _, _ => Ok fl_small
  end.

(** ** Feature deriver (lines 157-163) *)

(** [.dt.to_period("M")]; the periods are held by their month numbers. *)
Definition to_period_M (c : column) : result column :=
  match c with
  | CTime l =>
      Ok (CObj (map (fun t => match t with
                              | Some n => XInt (period_month n)
                              | None => XTime None
                              end) l))
  | _ => Raise AttributeError
  end.

(** [x > 15] on a float: false for [NaN]. *)
Definition gt15 (x : fnum) : bool :=
  match x with
  | Fin q => negb (Qle_bool q 15)
  | PInf => true
  | NaN | NInf | NZero => false
  end.

(** [x > 15] on one entry of a numeric or boolean column. *)
Definition cell_gt15 (c : cell) : bool :=
  match c with
  | XInt z => 15 <? z
  | XFloat x => gt15 x
  | _ => false
  end.

(** Line 163: [(delay > 15).astype(int)] *)
Definition LONG_DELAY_FLAG (delay : column) : list Z :=
  map (fun c => of_bool (cell_gt15 c)) (cells delay).

Definition derive_features (merged : frame) : result frame :=
  let m := match get merged "FL_DATE" with
           | Some c => set merged "FL_DATE" (to_datetime c)
           | None => merged
           end in
  d <- getitem m "FL_DATE" ;;
  ym <- to_period_M d ;;
  let m := set m "YEAR_MONTH" ym in
  delay <- getitem m "DEP_DELAY_MIN" ;;
  let m := set m "DEP_DELAY_MIN" (to_numeric delay) in
  delay <- getitem m "DEP_DELAY_MIN" ;;
  Ok (set m "LONG_DELAY_FLAG" (CInt (LONG_DELAY_FLAG delay))).

(** ** The script from line 59 to line 163 *)

Definition pipeline (flights_raw weather_raw : frame) : result frame :=
  fl_small <- prepare_flights flights_raw ;;
  let wx_agg := prepare_weather weather_raw in
  merged <- merge_step fl_small wx_agg ;;
  derive_features merged.

End Pipeline.

(** ** Notions used to state the properties *)

Section Notions.

Context {lib : Pandas}.

(** The timestamp on the day of [t] at [h] hours and [m] minutes. *)
Definition at_time (t h m : Z) : Z := dt_date t + h * ns_hour + m * ns_minute.

(** A padded code leaves the [try] alone when the mask rejects it or both
    of its halves convert to integers. *)
Definition converts (s : string) : bool :=
  negb (Text.isdigit s)
  || (is_some (Text.to_int (Text.slice 0 2 s)) && is_some (Text.to_int (Text.slice 2 4 s))).

(** A row leaves the [try] alone as well when its timestamp fits: the
    mask rejects it, or it has no date, or the midnight of its date and
    the two sums lie in the range of timestamps. *)
Definition fits (d : option Z) (s : string) : bool :=
  if Text.isdigit s then
    match d, Text.to_int (Text.slice 0 2 s), Text.to_int (Text.slice 2 4 s) with
    | Some t, Some h, Some m =>
        in_ts_range (dt_date t) && in_ts_range (dt_date t + h * ns_hour)
        && in_ts_range (at_time t h m)
    | _, _, _ => true
    end
  else true.

Fixpoint all_fit (dates : list (option Z)) (s : list string) : bool :=
  match dates, s with
  | d :: dates', x :: s' => fits d x && all_fit dates' s'
  | _, _ => true
  end.

(** The [try] of lines 36-40 succeeds on a batch. *)
Definition batch_ok (dates : list (option Z)) (s : list string) : bool :=
  forallb converts s && all_fit dates s.

(** What one row of [hhmm_to_datetime] holds when the [try] succeeds. *)
Definition row_out (d : option Z) (s : string) : option Z :=
  if Text.isdigit s then
    match Text.to_int (Text.slice 0 2 s), Text.to_int (Text.slice 2 4 s) with
    | Some h, Some m => option_map (fun t => at_time t h m) d
    | _, _ => NaT
    end
  else NaT.

Definition digit_char (z : Z) : ascii := ascii_of_N (Z.to_N (48 + z)).

(** The four-character text of the decimal digits [h1 h2 m1 m2]. *)
Definition digits4 (h1 h2 m1 m2 : Z) : string :=
  String (digit_char h1) (String (digit_char h2)
    (String (digit_char m1) (String (digit_char m2) EmptyString))).

Definition is_digit (z : Z) : Prop := 0 <= z <= 9.

(** The midnight that starts the calendar date [day] days after the epoch. *)
Definition midnight (day : Z) : Z := ns_day * day.

(** The superscript two, U+00B2. *)
Definition superscript_two : string := String (ascii_of_nat 178) EmptyString.

(** [col[mask]]: the rows of a column at which the mask is true. *)
Definition keep (mask : list bool) (c : column) : column :=
  match c with
  | CInt l => CInt (select mask l)
  | CFloat l => CFloat (select mask l)
  | CBool l => CBool (select mask l)
  | CTime l => CTime (select mask l)
  | CObj l => CObj (select mask l)
  end.

(** Two code columns that differ only in rows the mask rejects. *)
Definition same_accepted_rows (ts ts' : column) : Prop :=
  Forall2 (fun c c' => c = c' \/
             (Text.isdigit (padded c) = false /\ Text.isdigit (padded c') = false))
    (cells ts) (cells ts').

(** [x > 15] as a relation on one entry of a numeric column. *)
Definition exceeds15 (c : cell) : Prop :=
  match c with
  | XInt z => 15 < z
  | XFloat (Fin q) => (15 < q)%Q
  | XFloat PInf => True
  | _ => False
  end.

(** Every column is as long as the frame. *)
Definition wf_frame (fl : frame) : bool :=
  forallb (fun nc => Nat.eqb (col_len (snd nc)) (len fl)) fl.

(** The integer a numeric entry is cast to after [fillna(0)]. *)
Definition integer_part (c : cell) : Z :=
  match c with
  | XInt z => z
  | XFloat (Fin q) => truncate q
  | XBool b => of_bool b
  | _ => 0
  end.

Definition is_infinite (c : cell) : bool :=
  match c with
  | XFloat PInf | XFloat NInf => true
  | _ => false
  end.

Definition is_nan (x : fnum) : bool :=
  match x with NaN => true | _ => false end.

(** The arithmetic mean of the values that are present: their sum over
    their number, missing when there is none. *)
Definition mean_spec (l : list fnum) : fnum :=
  let obs := filter (fun x => negb (is_nan x)) l in
  match obs with
  | [] => NaN
  | _ :: _ => xdiv (fold_left xadd obs (Fin 0)) (List.length obs)
  end.

(** The values a column holds in the rows dated [k]. *)
Definition values_on (k : Z) (dates : list (option Z)) (vals : list fnum) : list fnum :=
  map snd (filter (fun row => key_eqb (fst row) (Some k)) (combine dates vals)).

(** The groups are kept in strictly increasing order of their dates. *)
Fixpoint increasing (g : list (Z * (fnum * nat))) : Prop :=
  match g with
  | [] => True
  | (k, _) :: g' => Forall (fun ka => k < fst ka) g' /\ increasing g'
  end.

(** The running sum and count kept for the date [k]. *)
Fixpoint lookup (k : Z) (g : list (Z * (fnum * nat))) : option (fnum * nat) :=
  match g with
  | [] => None
  | (k', a) :: g' => if k =? k' then Some a else lookup k g'
  end.

Definition acc_or_none (o : option (fnum * nat)) : fnum * nat :=
  match o with Some a => a | None => no_obs end.

(** The running sum and count of the rows dated [k]. *)
Definition row_step (k : Z) (a : fnum * nat) (row : option Z * fnum) : fnum * nat :=
  if key_eqb (fst row) (Some k) then observe (snd row) a else a.

(** A datetime column. *)
Definition is_time (c : column) : Prop := exists l, c = CTime l.

(** A character other than the dot. *)
Definition no_dot (c : ascii) : bool := negb (Ascii.eqb c ".").

(** An integer entry as the float it becomes in a float column. *)
Definition as_float (c : cell) : cell :=
  match c with
  | XInt z => XFloat (Fin (inject_Z z))
  | _ => c
  end.

(** The number of weather rows whose date matches the date [k]. *)
Definition matches (k : option Z) (rk : list (option Z)) : nat :=
  List.length (filter (key_eqb k) rk).

(** The flight rows of a merged table by their positions in the flight
    table: each one once for every weather row of its date, and once
    when there is none. *)
Definition copies (lk rk : list (option Z)) : list nat :=
  flat_map (fun ik => repeat (fst ik) (Nat.max 1 (matches (snd ik) rk)))
    (combine (seq O (List.length lk)) lk).

(** A frame whose columns are all [k] long. *)
Definition all_len (k : nat) (fl : frame) : bool :=
  forallb (fun nc => Nat.eqb (col_len (snd nc)) k) fl.

(** A frame with a numeric column. *)
Definition has_numeric (fl : frame) : bool :=
  existsb (fun nc => is_numeric (snd nc)) fl.

End Notions.

(** ** Sample data *)

(** 2022-03-01, the date of the examples. *)
Definition march_first : Z := midnight 19052.

(** A flight scheduled at 23:50 that leaves at 00:10. *)
Definition late_night : frame :=
  [("FL_DATE", CTime [Some march_first]); ("CRS_DEP_TIME", CInt [2350]);
   ("DEP_TIME", CInt [10])]%string.

(** The same flight, and one whose departure code holds a superscript. *)
Definition late_and_unreadable : frame :=
  [("FL_DATE", CTime [Some march_first; Some march_first]);
   ("CRS_DEP_TIME", CInt [2350; 900]);
   ("DEP_TIME", CObj [XInt 10; XStr superscript_two])]%string.

(** Delays of exactly 15, just above 15, missing, and 16 minutes. *)
Definition delays_around_15 : frame :=
  [("FL_DATE", CTime (repeat (Some march_first) 4));
   ("DEP_DELAY_MIN", CFloat [Fin 15; Fin (150001 # 10000); NaN; Fin 16])]%string.

(** An explicit cancellation column that counts cancellations. *)
Definition cancelled_twice : frame :=
  [("DEP_DELAY", CInt [5; 20]); ("CANCELLED", CFloat [Fin 2; NaN])]%string.

(** An explicit cancellation column of mixed entries. *)
Definition cancelled_codes : frame :=
  [("CANCELLED", CObj [XInt 1; XFloat (Fin (1 # 2)); XFloat NaN; XBool false])]%string.

(** A flight table with delays and no date. *)
Definition delays_only : frame := [("DEP_DELAY", CInt [5; 20])]%string.

(** Two observations on 2022-01-01 and one on 2022-01-03. *)
Definition daily_weather : frame :=
  [("DATE", CTime [Some (midnight 18993); Some (midnight 18993); Some (midnight 18995)]);
   ("TMAX", CInt [50; 60; 70])]%string.

(** Observations at midnight and at noon of 2022-01-01. *)
Definition halfday_weather : frame :=
  [("DATE", CTime [Some (midnight 18993); Some (midnight 18993 + 12 * ns_hour)]);
   ("TMAX", CInt [50; 60])]%string.

(** A weather table of texts only, two rows on 2022-01-01. *)
Definition text_weather : frame :=
  [("DATE", CTime [Some (midnight 18993); Some (midnight 18993)]);
   ("CONDITIONS", CObj [XStr "rain"; XStr "snow"])]%string.

(** One flight on 2022-01-01. *)
Definition one_flight : frame :=
  [("FL_DATE", CTime [Some (midnight 18993)]); ("DEP_DELAY_MIN", CFloat [Fin 5])]%string.

(** Flights on 2022-01-01 and 2022-01-02. *)
Definition two_flights : frame :=
  [("FL_DATE", CTime [Some (midnight 18993); Some (midnight 18994)]);
   ("DEP_DELAY_MIN", CFloat [Fin 5; Fin 20])]%string.

(** Two flights with an explicit delay next to their time codes. *)
Definition flights_with_delay : frame :=
  [("FL_DATE", CTime [Some march_first; Some march_first]);
   ("CARRIER", CObj [XStr "AA"; XStr "UA"]);
   ("CRS_DEP_TIME", CInt [900; 1000]); ("DEP_TIME", CInt [915; 1000]);
   ("DEP_DELAY", CInt [-3; 42]); ("DISTANCE", CInt [733; 1089])]%string.

(** A weather table that tells no date. *)
Definition undated_weather : frame :=
  [("STATION", CObj [XStr "JFK"; XStr "LGA"]); ("TMAX", CInt [50; 60])]%string.

(** Two stations observed on 2022-01-01. *)
Definition station_weather : frame :=
  [("DATE", CTime [Some (midnight 18993); Some (midnight 18993)]);
   ("STATION", CObj [XStr "JFK"; XStr "LGA"]); ("TMAX", CInt [50; 60])]%string.

(** * Properties *)

(** ** Time reconstruction *)

Section TimeReconstruction.

Context {lib : Pandas}.

Lemma try_rows_convert (s : list string) :
  forallb converts s = true ->
  exists hh mm,
    astype_int (map (Text.slice 0 2) (select (map Text.isdigit s) s)) = Some hh /\
    astype_int (map (Text.slice 2 4) (select (map Text.isdigit s) s)) = Some mm /\
    forall dates, List.length dates = List.length s ->
      match add_offsets (select (map Text.isdigit s) dates) hh mm with
      | Some out_valid =>
          all_fit dates s = true /\
          assign (map Text.isdigit s) (repeat NaT (List.length dates)) out_valid
          = map2 row_out dates s
      | None => all_fit dates s = false
      end.
Proof.
  induction s as [|x s IH]; simpl; intros Hc.
  - exists [], []. split; [reflexivity|]. split; [reflexivity|].
    intros [|d dates]; simpl; [split; reflexivity | discriminate].
  - apply andb_true_iff in Hc as [Hx Hs].
    destruct (IH Hs) as (hh & mm & Hh & Hm & Hrows).
    unfold converts in Hx.
    destruct (Text.isdigit x) eqn:Hd; simpl in *.
    + destruct (Text.to_int (Text.slice 0 2 x)) as [h|] eqn:Eh; [|discriminate].
      destruct (Text.to_int (Text.slice 2 4 x)) as [m|] eqn:Em; [|discriminate].
      rewrite Hh, Hm. exists (h :: hh), (m :: mm).
      split; [reflexivity|]. split; [reflexivity|].
      intros [|d dates] Hlen; simpl in *; [discriminate|].
      specialize (Hrows dates ltac:(lia)).
      unfold fits, row_out at 1. rewrite Hd, Eh, Em.
      destruct d as [t|]; simpl.
      * unfold at_time.
        destruct (in_ts_range (dt_date t) && in_ts_range (dt_date t + h * ns_hour)
                  && in_ts_range (dt_date t + h * ns_hour + m * ns_minute)); simpl;
          [|reflexivity].
        destruct (add_offsets _ hh mm); [|exact Hrows].
        destruct Hrows as [Hfit Hrows]. split; [exact Hfit|]. simpl. f_equal. exact Hrows.
      * destruct (add_offsets _ hh mm); [|exact Hrows].
        destruct Hrows as [Hfit Hrows]. split; [exact Hfit|]. simpl. f_equal. exact Hrows.
    + exists hh, mm. split; [exact Hh|]. split; [exact Hm|].
      intros [|d dates] Hlen; simpl in *; [discriminate|].
      specialize (Hrows dates ltac:(lia)).
      unfold fits, row_out at 1. rewrite Hd. simpl.
      destruct (add_offsets _ hh mm); [|exact Hrows].
      destruct Hrows as [Hfit Hrows]. split; [exact Hfit|]. f_equal. exact Hrows.
Qed.

Lemma try_rows_fail (s : list string) :
  forallb converts s = false ->
  astype_int (map (Text.slice 0 2) (select (map Text.isdigit s) s)) = None \/
  astype_int (map (Text.slice 2 4) (select (map Text.isdigit s) s)) = None.
Proof.
  induction s as [|x s IH]; simpl; intros Hc; [discriminate|].
  apply andb_false_iff in Hc as [Hx|Hs].
  - unfold converts in Hx. apply orb_false_iff in Hx as [Hd Hx].
    apply negb_false_iff in Hd. rewrite Hd. simpl.
    apply andb_false_iff in Hx as [Hx|Hx].
    + left. destruct (Text.to_int (Text.slice 0 2 x)); [discriminate|reflexivity].
    + right. destruct (Text.to_int (Text.slice 2 4 x)); [discriminate|reflexivity].
  - destruct (Text.isdigit x); simpl; [|auto].
    destruct (IH Hs) as [H|H]; rewrite H; [left|right];
      match goal with |- match ?e with _ => _ end = _ => destruct e end; reflexivity.
Qed.

Lemma col_len_time (dates : list (option Z)) : col_len (CTime dates) = List.length dates.
Proof. unfold col_len; simpl. apply length_map. Qed.

(** The whole function on two columns of one frame: row by row when every
    row accepted by the mask converts and fits, all missing otherwise. *)
Lemma hhmm_rows (dates : list (option Z)) (ts : column) :
  List.length dates = col_len ts ->
  hhmm_to_datetime (Some (CTime dates)) (Some ts)
  = Ok (if batch_ok dates (map padded (cells ts))
        then map2 row_out dates (map padded (cells ts))
        else repeat NaT (List.length dates)).
Proof.
  intros Hlen. unfold hhmm_to_datetime, try_block, batch_ok.
  rewrite col_len_time.
  set (s := map padded (cells ts)).
  assert (Hs : List.length dates = List.length s)
    by (unfold s; rewrite length_map; exact Hlen).
  destruct (forallb converts s) eqn:Hc.
  - destruct (try_rows_convert s Hc) as (hh & mm & Hh & Hm & Hrows).
    rewrite Hh, Hm, length_map.
    replace (List.length s <? List.length dates)%nat with false
      by (symmetry; apply Nat.ltb_ge; lia).
    specialize (Hrows dates Hs).
    destruct (add_offsets _ hh mm).
    + destruct Hrows as [-> ->]. reflexivity.
    + rewrite Hrows. reflexivity.
  - destruct (try_rows_fail s Hc) as [H|H]; rewrite H; [reflexivity|].
    destruct (astype_int (map (Text.slice 0 2) _)); reflexivity.
Qed.


Lemma digit_char_spec (h : Z) :
  is_digit h ->
  Text.is_decimal_char (digit_char h) = true /\
  Text.is_digit_char (digit_char h) = true /\
  Text.digit_value (digit_char h) = h.
Proof.
  unfold is_digit. intros Hh.
  assert (H : h = 0 \/ h = 1 \/ h = 2 \/ h = 3 \/ h = 4 \/ h = 5 \/ h = 6 \/
              h = 7 \/ h = 8 \/ h = 9) by lia.
  repeat (destruct H as [H|H]; [subst h; repeat split; reflexivity|]).
  subst h; repeat split; reflexivity.
Qed.

Section Digits.

Variables h1 h2 m1 m2 : Z.
Hypothesis (D1 : is_digit h1) (D2 : is_digit h2) (D3 : is_digit m1) (D4 : is_digit m2).

Lemma digits4_isdigit : Text.isdigit (digits4 h1 h2 m1 m2) = true.
Proof.
  unfold Text.isdigit, digits4; simpl.
  destruct (digit_char_spec _ D1) as (_ & -> & _).
  destruct (digit_char_spec _ D2) as (_ & -> & _).
  destruct (digit_char_spec _ D3) as (_ & -> & _).
  destruct (digit_char_spec _ D4) as (_ & -> & _).
  reflexivity.
Qed.

Lemma digits4_hour : Text.to_int (Text.slice 0 2 (digits4 h1 h2 m1 m2)) = Some (10 * h1 + h2).
Proof.
  unfold digits4, Text.slice, Text.to_int; simpl.
  destruct (digit_char_spec _ D1) as (-> & _ & ->).
  destruct (digit_char_spec _ D2) as (-> & _ & ->).
  f_equal; lia.
Qed.

Lemma digits4_minute : Text.to_int (Text.slice 2 4 (digits4 h1 h2 m1 m2)) = Some (10 * m1 + m2).
Proof.
  unfold digits4, Text.slice, Text.to_int; simpl.
  destruct (digit_char_spec _ D3) as (-> & _ & ->).
  destruct (digit_char_spec _ D4) as (-> & _ & ->).
  f_equal; lia.
Qed.

Lemma digits4_converts : converts (digits4 h1 h2 m1 m2) = true.
Proof.
  unfold converts. rewrite digits4_isdigit, digits4_hour, digits4_minute. reflexivity.
Qed.

Lemma digits4_row (t : Z) :
  row_out (Some t) (digits4 h1 h2 m1 m2)
  = Some (at_time t (10 * h1 + h2) (10 * m1 + m2)).
Proof.
  unfold row_out. rewrite digits4_isdigit, digits4_hour, digits4_minute. reflexivity.
Qed.

End Digits.

Lemma dt_date_midnight (day : Z) : dt_date (midnight day) = midnight day.
Proof.
  unfold dt_date, midnight. f_equal.
  rewrite Z.mul_comm. apply Z.div_mul. unfold ns_day. lia.
Qed.

Lemma nth_error_map2 {A B C : Type} (f : A -> B -> C) (l1 : list A) (l2 : list B)
    (i : nat) (a : A) (b : B) :
  nth_error l1 i = Some a -> nth_error l2 i = Some b ->
  nth_error (map2 f l1 l2) i = Some (f a b).
Proof.
  revert l2 i. induction l1 as [|x l1 IH]; intros [|y l2] [|i]; simpl;
    try discriminate.
  - intros [= ->] [= ->]. reflexivity.
  - apply IH.
Qed.

Lemma digits4_fits (day h1 h2 m1 m2 : Z) :
  is_digit h1 -> is_digit h2 -> is_digit m1 -> is_digit m2 ->
  fits (Some (midnight day)) (digits4 h1 h2 m1 m2)
  = in_ts_range (midnight day)
    && in_ts_range (midnight day + (10 * h1 + h2) * ns_hour + (10 * m1 + m2) * ns_minute).
Proof.
  intros D1 D2 D3 D4. unfold fits, at_time.
  rewrite digits4_isdigit, digits4_hour, digits4_minute, dt_date_midnight by assumption.
  unfold in_ts_range, is_digit, ns_hour, ns_minute in *.
  repeat match goal with
  | |- context [?a <=? ?b] => destruct (Z.leb_spec a b)
  end; simpl; try reflexivity; lia.
Qed.

(** The days on which every code up to 99 hours and 99 minutes fits, and
    those on which every time of day does. *)
Lemma day_in_range (day h m : Z) :
  - 106751 <= day ->
  0 <= h -> 0 <= m ->
  (h <= 23 /\ m <= 59 /\ day <= 106750) \/ (h <= 99 /\ m <= 99 /\ day <= 106747) ->
  in_ts_range (midnight day) && in_ts_range (midnight day + h * ns_hour + m * ns_minute)
  = true.
Proof.
  intros Hlo Hh Hm Hhi.
  unfold in_ts_range, ts_min, ts_max, int64_min, int64_max, midnight,
    ns_day, ns_hour, ns_minute.
  rewrite !andb_true_iff, !Z.leb_le. lia.
Qed.

Lemma undecimal_half (s : string) :
  Text.isdigit s = true ->
  Text.isdecimal (Text.slice 0 4 s) = false ->
  Text.to_int (Text.slice 0 2 s) = None \/ Text.to_int (Text.slice 2 4 s) = None.
Proof.
  unfold Text.isdigit, Text.isdecimal, Text.slice, Text.to_int.
  destruct s as [|a [|b [|c [|d [|e s]]]]]; simpl;
    repeat match goal with
    | |- context [Text.is_decimal_char ?x] => destruct (Text.is_decimal_char x)
    end; simpl; intros H1 H2; auto; discriminate.
Qed.

Lemma unconvertible_row (l : list cell) (i : nat) (c : cell) :
  nth_error l i = Some c ->
  converts (padded c) = false ->
  forallb converts (map padded l) = false.
Proof.
  revert i. induction l as [|x l IH]; intros [|i]; simpl; try discriminate.
  - intros [= ->] ->. reflexivity.
  - intros Hn Hc. rewrite (IH i Hn Hc). apply andb_false_r.
Qed.

Lemma select_map {A B : Type} (f : A -> B) (mask : list bool) (xs : list A) :
  map f (select mask xs) = select mask (map f xs).
Proof.
  revert xs. induction mask as [|b mask IH]; intros [|x xs]; simpl; try reflexivity.
  destruct b; simpl; rewrite IH; reflexivity.
Qed.

Lemma nth_error_all_fit (dates : list (option Z)) (s : list string) (i : nat)
    (d : option Z) (x : string) :
  all_fit dates s = true ->
  nth_error dates i = Some d -> nth_error s i = Some x -> fits d x = true.
Proof.
  revert s i. induction dates as [|d0 dates IH]; intros [|x0 s] [|i]; simpl;
    try discriminate.
  - intros H [= ->] [= ->]. apply andb_true_iff in H. apply H.
  - intros H. apply andb_true_iff in H. apply IH, H.
Qed.

(** A row inside a batch: what it holds when the [try] succeeds, and a
    batch of missing values otherwise. *)
Lemma hhmm_batch_row (dates : list (option Z)) (ts : column) (i : nat)
    (d : option Z) (c : cell) :
  List.length dates = col_len ts ->
  nth_error dates i = Some d ->
  nth_error (cells ts) i = Some c ->
  exists out,
    hhmm_to_datetime (Some (CTime dates)) (Some ts) = Ok out /\
    (batch_ok dates (map padded (cells ts)) = true ->
     nth_error out i = Some (row_out d (padded c))) /\
    (batch_ok dates (map padded (cells ts)) = false ->
     out = repeat NaT (List.length dates)).
Proof.
  intros Hlen Hd Hc.
  rewrite hhmm_rows by exact Hlen.
  eexists; split; [reflexivity|]. split; intros ->; [|reflexivity].
  erewrite nth_error_map2; [| exact Hd | apply map_nth_error; exact Hc].
  reflexivity.
Qed.

(** A batch of one row that converts and fits. *)
Lemma single_row_batch (dates : list (option Z)) (ts : column) (i : nat)
    (d : option Z) (c : cell) :
  List.length dates = col_len ts ->
  nth_error dates i = Some d ->
  nth_error (cells ts) i = Some c ->
  List.length dates = 1%nat ->
  converts (padded c) = true ->
  fits d (padded c) = true ->
  batch_ok dates (map padded (cells ts)) = true.
Proof.
  intros Hlen Hd Hc Hone Hconv Hfit.
  unfold col_len in Hlen.
  destruct dates as [|d0 [|d' dates]]; try discriminate.
  destruct (cells ts) as [|c0 [|c1 l]]; try discriminate.
  destruct i as [|i]; [|destruct i; discriminate].
  simpl in Hd, Hc. injection Hd as ->. injection Hc as ->.
  unfold batch_ok. simpl. rewrite Hconv, Hfit. reflexivity.
Qed.

(** A row with a four-digit decimal code inside a batch. *)
Lemma hhmm_batch_digits (day h1 h2 m1 m2 : Z) (c : cell) (dates : list (option Z))
    (ts : column) (i : nat) :
  is_digit h1 -> is_digit h2 -> is_digit m1 -> is_digit m2 ->
  padded c = digits4 h1 h2 m1 m2 ->
  List.length dates = col_len ts ->
  nth_error dates i = Some (Some (midnight day)) ->
  nth_error (cells ts) i = Some c ->
  exists out,
    hhmm_to_datetime (Some (CTime dates)) (Some ts) = Ok out /\
    (batch_ok dates (map padded (cells ts)) = true ->
     nth_error out i
     = Some (Some (midnight day + (10 * h1 + h2) * ns_hour + (10 * m1 + m2) * ns_minute)))
    /\
    (batch_ok dates (map padded (cells ts)) = false ->
     out = repeat NaT (List.length dates)).
Proof.
  intros D1 D2 D3 D4 Hp Hlen Hd Hc.
  destruct (hhmm_batch_row dates ts i _ c Hlen Hd Hc) as (out & Hout & Hok & Hbad).
  exists out. split; [exact Hout|]. split; [|exact Hbad].
  intros Hb. rewrite (Hok Hb), Hp, digits4_row by assumption.
  unfold at_time. rewrite dt_date_midnight. reflexivity.
Qed.

(** A batch of one row with a four-digit decimal code that fits. *)
Lemma single_row_ok (day h1 h2 m1 m2 : Z) (c : cell) (dates : list (option Z))
    (ts : column) (i : nat) :
  is_digit h1 -> is_digit h2 -> is_digit m1 -> is_digit m2 ->
  padded c = digits4 h1 h2 m1 m2 ->
  List.length dates = col_len ts ->
  nth_error dates i = Some (Some (midnight day)) ->
  nth_error (cells ts) i = Some c ->
  List.length dates = 1%nat ->
  in_ts_range (midnight day)
  && in_ts_range (midnight day + (10 * h1 + h2) * ns_hour + (10 * m1 + m2) * ns_minute)
  = true ->
  batch_ok dates (map padded (cells ts)) = true.
Proof.
  intros D1 D2 D3 D4 Hp Hlen Hd Hc Hone Hfit.
  apply (single_row_batch dates ts i _ c Hlen Hd Hc Hone); rewrite Hp.
  - apply digits4_converts; assumption.
  - rewrite digits4_fits by assumption. exact Hfit.
Qed.

End TimeReconstruction.

Section TimeClaims.

Context {lib : Pandas}.

(** C3, as the code has it.  A row with the date [day] and a time code
    whose padded form is the four decimal digits [h1 h2 m1 m2], with hour
    [10*h1+h2 <= 23] and minute [10*m1+m2 <= 59], holds the timestamp of
    that date at that hour and minute when the [try] of lines 36-40
    succeeds on the batch, that is, when every row that the mask accepts
    converts and stays in the range of timestamps; otherwise every row of
    the batch is missing.  A batch of this one row succeeds for every date
    from 1677-09-22 to 2262-04-10. *)
Theorem hhmm_valid_code (day h1 h2 m1 m2 : Z) (c : cell)
    (dates : list (option Z)) (ts : column) (i : nat) :
  is_digit h1 -> is_digit h2 -> is_digit m1 -> is_digit m2 ->
  padded c = digits4 h1 h2 m1 m2 ->
  10 * h1 + h2 <= 23 -> 10 * m1 + m2 <= 59 ->
  List.length dates = col_len ts ->
  nth_error dates i = Some (Some (midnight day)) ->
  nth_error (cells ts) i = Some c ->
  exists out,
    hhmm_to_datetime (Some (CTime dates)) (Some ts) = Ok out /\
    (batch_ok dates (map padded (cells ts)) = true ->
     nth_error out i
     = Some (Some (midnight day + (10 * h1 + h2) * ns_hour + (10 * m1 + m2) * ns_minute)))
    /\
    (batch_ok dates (map padded (cells ts)) = false ->
     out = repeat NaT (List.length dates)) /\
    (List.length dates = 1%nat -> - 106751 <= day <= 106750 ->
     batch_ok dates (map padded (cells ts)) = true).
Proof.
  intros D1 D2 D3 D4 Hp Hh Hm Hlen Hd Hc.
  destruct (hhmm_batch_digits day h1 h2 m1 m2 c dates ts i D1 D2 D3 D4 Hp Hlen Hd Hc)
    as (out & Hout & Hok & Hbad).
  exists out. split; [exact Hout|]. split; [exact Hok|]. split; [exact Hbad|].
  intros Hone Hday.
  apply (single_row_ok day h1 h2 m1 m2 c dates ts i); try assumption.
  apply day_in_range; unfold is_digit in *; lia.
Qed.

(** C9, as the code has it.  A row whose padded code is four decimal
    digits with hour above 23 or minute above 59 still holds a timestamp
    when the [try] succeeds on the batch: the date plus that many hours
    and minutes, which lies on a later day once the hour exceeds 23.
    Otherwise every row of the batch is missing.  A batch of this one row
    succeeds for every date from 1677-09-22 to 2262-04-07. *)
Theorem hhmm_out_of_range_code (day h1 h2 m1 m2 : Z) (c : cell)
    (dates : list (option Z)) (ts : column) (i : nat) :
  is_digit h1 -> is_digit h2 -> is_digit m1 -> is_digit m2 ->
  padded c = digits4 h1 h2 m1 m2 ->
  23 < 10 * h1 + h2 \/ 59 < 10 * m1 + m2 ->
  List.length dates = col_len ts ->
  nth_error dates i = Some (Some (midnight day)) ->
  nth_error (cells ts) i = Some c ->
  let stamp := midnight day + (10 * h1 + h2) * ns_hour + (10 * m1 + m2) * ns_minute in
  exists out,
    hhmm_to_datetime (Some (CTime dates)) (Some ts) = Ok out /\
    (batch_ok dates (map padded (cells ts)) = true -> nth_error out i = Some (Some stamp)) /\
    (batch_ok dates (map padded (cells ts)) = false ->
     out = repeat NaT (List.length dates)) /\
    (List.length dates = 1%nat -> - 106751 <= day <= 106747 ->
     batch_ok dates (map padded (cells ts)) = true) /\
    (23 < 10 * h1 + h2 -> midnight (day + 1) <= stamp).
Proof.
  intros D1 D2 D3 D4 Hp _ Hlen Hd Hc stamp.
  destruct (hhmm_batch_digits day h1 h2 m1 m2 c dates ts i D1 D2 D3 D4 Hp Hlen Hd Hc)
    as (out & Hout & Hok & Hbad).
  exists out. split; [exact Hout|]. split; [exact Hok|]. split; [exact Hbad|]. split.
  - intros Hone Hday.
    apply (single_row_ok day h1 h2 m1 m2 c dates ts i); try assumption.
    apply day_in_range; unfold is_digit in *; lia.
  - intros Hh. unfold stamp, midnight, ns_day, ns_hour, ns_minute, is_digit in *. lia.
Qed.

Lemma rejected_rows_same (l l' : list cell) :
  Forall2 (fun c c' => c = c' \/
             (Text.isdigit (padded c) = false /\ Text.isdigit (padded c') = false)) l l' ->
  forall dates,
    batch_ok dates (map padded l) = batch_ok dates (map padded l') /\
    map2 row_out dates (map padded l) = map2 row_out dates (map padded l').
Proof.
  unfold batch_ok.
  induction 1 as [|c c' l l' Hc _ IH]; simpl; intros dates.
  - split; reflexivity.
  - assert (Hrow : converts (padded c) = converts (padded c') /\
                   forall d, fits d (padded c) = fits d (padded c') /\
                             row_out d (padded c) = row_out d (padded c')).
    { destruct Hc as [->|[H1 H2]]; [split; [|split]; reflexivity|].
      unfold converts, fits, row_out. rewrite H1, H2. split; [|split]; reflexivity. }
    destruct Hrow as [Hconv Hrow].
    destruct dates as [|d dates]; simpl.
    + destruct (IH []) as [IHb _]. simpl in IHb. rewrite !andb_true_r in *.
      rewrite Hconv, IHb. split; reflexivity.
    + destruct (IH dates) as [IHb IHr]. destruct (Hrow d) as [Hfit Hout].
      rewrite Hconv, Hfit, Hout, IHr.
      split; [|reflexivity].
      destruct (converts (padded c')), (fits d (padded c')); simpl;
        rewrite ?andb_false_r; try reflexivity; exact IHb.
Qed.

Lemma select_length_eq {A B : Type} (mask : list bool) (xs : list A) (ys : list B) :
  List.length xs = List.length ys ->
  List.length (select mask xs) = List.length (select mask ys).
Proof.
  revert xs ys. induction mask as [|b mask IH]; intros [|x xs] [|y ys]; simpl;
    try discriminate; try reflexivity.
  intros [= H]. destruct b; simpl; rewrite (IH xs ys H); reflexivity.
Qed.

Lemma cells_keep (mask : list bool) (c : column) :
  cells (keep mask c) = select mask (cells c).
Proof. destruct c; simpl; try apply select_map. reflexivity. Qed.

(** The rows that the mask accepts, taken alone, make the same batch. *)
Lemma accepted_rows_alone (s : list string) (dates : list (option Z)) :
  List.length dates = List.length s ->
  batch_ok (select (map Text.isdigit s) dates) (select (map Text.isdigit s) s)
  = batch_ok dates s /\
  map2 row_out (select (map Text.isdigit s) dates) (select (map Text.isdigit s) s)
  = select (map Text.isdigit s) (map2 row_out dates s) /\
  repeat NaT (List.length (select (map Text.isdigit s) dates))
  = select (map Text.isdigit s) (repeat NaT (List.length dates)).
Proof.
  unfold batch_ok. revert dates.
  induction s as [|x s IH]; intros [|d dates]; simpl; try discriminate.
  - intros _. repeat split.
  - intros [= Hlen]. destruct (IH dates Hlen) as (IHb & IHr & IHn).
    destruct (Text.isdigit x) eqn:Hx; simpl.
    + rewrite IHr, IHn. split; [|split; reflexivity].
      destruct (converts x), (fits d x); simpl; rewrite ?andb_false_r; try reflexivity;
        exact IHb.
    + unfold converts, fits, row_out. rewrite Hx. simpl.
      split; [exact IHb|]. split; [exact IHr|exact IHn].
Qed.

(** C5, as the code has it.  The call does not raise.  A row whose padded
    code [str.isdigit] rejects (a missing code, or one with a character
    that is no digit) is missing in the result, and such rows change no
    other row: the rows that the mask accepts hold what the call on them
    alone gives, and replacing the rejected rows by other rejected rows
    changes nothing.  A row that the mask accepts although its first four
    characters are not all decimal digits makes every row missing. *)
Theorem hhmm_rejected_rows (dates : list (option Z)) (ts : column) :
  List.length dates = col_len ts ->
  let accepted := map (fun c => Text.isdigit (padded c)) (cells ts) in
  exists out,
    hhmm_to_datetime (Some (CTime dates)) (Some ts) = Ok out /\
    (forall i c, nth_error (cells ts) i = Some c ->
                 Text.isdigit (padded c) = false -> nth_error out i = Some NaT) /\
    hhmm_to_datetime (Some (CTime (select accepted dates))) (Some (keep accepted ts))
    = Ok (select accepted out) /\
    (forall ts', same_accepted_rows ts ts' ->
                 hhmm_to_datetime (Some (CTime dates)) (Some ts') = Ok out) /\
    (forall i c, nth_error (cells ts) i = Some c ->
                 Text.isdigit (padded c) = true ->
                 Text.isdecimal (Text.slice 0 4 (padded c)) = false ->
                 out = repeat NaT (List.length dates)).
Proof.
  intros Hlen accepted.
  assert (Hacc : accepted = map Text.isdigit (map padded (cells ts)))
    by (unfold accepted; rewrite map_map; reflexivity).
  assert (Hs : List.length dates = List.length (map padded (cells ts)))
    by (rewrite length_map; exact Hlen).
  rewrite hhmm_rows by exact Hlen. eexists; split; [reflexivity|].
  split; [|split; [|split]].
  - intros i c Hc Hrej.
    assert (Hi : (i < List.length dates)%nat).
    { rewrite Hlen. unfold col_len. apply nth_error_Some. rewrite Hc. discriminate. }
    destruct (batch_ok dates (map padded (cells ts))).
    + destruct (nth_error dates i) as [d|] eqn:Hd;
        [| apply nth_error_None in Hd; lia].
      erewrite nth_error_map2; [| exact Hd | apply map_nth_error; exact Hc].
      unfold row_out. rewrite Hrej. reflexivity.
    + rewrite nth_error_repeat by exact Hi. reflexivity.
  - rewrite hhmm_rows
      by (unfold col_len in *; rewrite cells_keep; apply select_length_eq, Hlen).
    rewrite cells_keep, select_map, Hacc.
    destruct (accepted_rows_alone _ dates Hs) as (-> & -> & ->).
    destruct (batch_ok dates (map padded (cells ts))); reflexivity.
  - intros ts' Hsame.
    assert (Hlen' : List.length dates = col_len ts').
    { rewrite Hlen. unfold col_len. eapply Forall2_length; exact Hsame. }
    rewrite hhmm_rows by exact Hlen'.
    destruct (rejected_rows_same _ _ Hsame dates) as [-> ->]. reflexivity.
  - intros i c Hc Hd Hdec.
    assert (Hconv : forallb converts (map padded (cells ts)) = false).
    { apply (unconvertible_row _ i c Hc). unfold converts. rewrite Hd. simpl.
      destruct (undecimal_half _ Hd Hdec) as [-> | ->]; [reflexivity|].
      apply andb_false_r. }
    unfold batch_ok. rewrite Hconv. reflexivity.
Qed.

(** C8.  With the date series absent the call raises, whatever the time
    series is: the guard of line 31 reads [date_series.index] at line 32.
    With only the time series absent it returns as many missing
    timestamps as there are dates. *)
Theorem hhmm_absent_series :
  (forall ts, hhmm_to_datetime None ts = Raise AttributeError) /\
  (forall ds, hhmm_to_datetime (Some ds) None = Ok (repeat NaT (col_len ds))).
Proof.
  split.
  - intros [ts|]; reflexivity.
  - intros ds; reflexivity.
Qed.

End TimeClaims.

Lemma hhmm_valid_code_witness :
  midnight 19052 = march_first /\
  (forall lib : Pandas,
   exists out,
     hhmm_to_datetime
       (Some (CTime [Some march_first; Some march_first; Some march_first]))
       (Some (CObj [XInt 0; XInt 530; XFloat (Fin 1530)])) = Ok out /\
     nth_error out 1 = Some (Some (march_first + 5 * ns_hour + 30 * ns_minute))) /\
  (forall lib : Pandas,
   exists out,
     hhmm_to_datetime (Some (CTime [Some march_first])) (Some (CInt [0])) = Ok out /\
     nth_error out 0 = Some (Some march_first)).
Proof.
  split; [reflexivity|]. unfold march_first. split; intros lib.
  - destruct (hhmm_valid_code 19052 0 5 3 0 (XInt 530)
                [Some (midnight 19052); Some (midnight 19052); Some (midnight 19052)]
                (CObj [XInt 0; XInt 530; XFloat (Fin 1530)]) 1)
      as (out & Hout & Hok & _); unfold is_digit; try lia; try reflexivity.
    exists out. split; [exact Hout|]. apply Hok. reflexivity.
  - destruct (hhmm_valid_code 19052 0 0 0 0 (XInt 0) [Some (midnight 19052)] (CInt [0]) 0)
      as (out & Hout & Hok & _ & Hone); unfold is_digit; try lia; try reflexivity.
    exists out. split; [exact Hout|].
    replace (midnight 19052) with
      (midnight 19052 + (10 * 0 + 0) * ns_hour + (10 * 0 + 0) * ns_minute) at 2
      by (unfold midnight, ns_day, ns_hour, ns_minute; lia).
    apply Hok, Hone; [reflexivity|lia].
Defined.

(** C3 as stated fails: next to a row that the mask accepts and [int]
    does not convert, the row of code 530 is missing; and on 2262-04-11,
    the last day that has timestamps, the code 2350 gives no timestamp. *)
Lemma hhmm_valid_code_missing :
  (forall lib : Pandas,
     hhmm_to_datetime (Some (CTime [Some march_first; Some march_first]))
       (Some (CObj [XInt 530; XStr superscript_two]))
     = Ok [NaT; NaT]) /\
  (forall lib : Pandas,
     hhmm_to_datetime (Some (CTime [Some (midnight 106751)])) (Some (CInt [2350]))
     = Ok [NaT]).
Proof.
  split; intros lib; vm_compute; reflexivity.
Qed.

Lemma hhmm_out_of_range_code_witness :
  (forall lib : Pandas,
   exists out,
     hhmm_to_datetime (Some (CTime [Some march_first])) (Some (CInt [9999])) = Ok out /\
     nth_error out 0 = Some (Some (march_first + 99 * ns_hour + 99 * ns_minute))) /\
  (forall lib : Pandas,
   exists out,
     hhmm_to_datetime (Some (CTime [Some march_first; Some march_first]))
       (Some (CObj [XStr "2400"; XStr "n/a"])) = Ok out /\
     nth_error out 0 = Some (Some (midnight 19053))).
Proof.
  unfold march_first. split; intros lib.
  - destruct (hhmm_out_of_range_code 19052 9 9 9 9 (XInt 9999)
                [Some (midnight 19052)] (CInt [9999]) 0)
      as (out & Hout & Hok & _ & Hone & _); unfold is_digit; try lia; try reflexivity.
    exists out. split; [exact Hout|]. apply Hok, Hone; [reflexivity|lia].
  - destruct (hhmm_out_of_range_code 19052 2 4 0 0 (XStr "2400")
                [Some (midnight 19052); Some (midnight 19052)]
                (CObj [XStr "2400"; XStr "n/a"]) 0)
      as (out & Hout & Hok & _); unfold is_digit; try lia; try reflexivity.
    exists out. split; [exact Hout|].
    replace (midnight 19053) with
      (midnight 19052 + (10 * 2 + 4) * ns_hour + (10 * 0 + 0) * ns_minute)
      by (unfold midnight, ns_day, ns_hour, ns_minute; lia).
    apply Hok. reflexivity.
Defined.

(** C9 as stated fails: on 2262-04-08 the code 9999 would end after the
    last timestamp, and the row is missing; so is the row of code 2400
    next to a row that the mask accepts and [int] does not convert. *)
Lemma hhmm_out_of_range_code_missing :
  (forall lib : Pandas,
     hhmm_to_datetime (Some (CTime [Some (midnight 106748)])) (Some (CInt [9999]))
     = Ok [NaT]) /\
  (forall lib : Pandas,
     hhmm_to_datetime (Some (CTime [Some march_first; Some march_first]))
       (Some (CObj [XStr "2400"; XStr superscript_two]))
     = Ok [NaT; NaT]).
Proof.
  split; intros lib; vm_compute; reflexivity.
Qed.

(** C5 as stated fails: the padded code of the second row is not made of
    decimal digits, yet with it in the batch the first row is missing,
    while next to another text that is no number the first row is 05:30. *)
Lemma hhmm_superscript_row_spoils_batch :
  Text.isdecimal (Text.zfill 4 superscript_two) = false /\
  (forall lib : Pandas,
     hhmm_to_datetime (Some (CTime [Some march_first; Some march_first]))
       (Some (CObj [XStr "0530"; XStr superscript_two]))
     = Ok [NaT; NaT]) /\
  (forall lib : Pandas,
     hhmm_to_datetime (Some (CTime [Some march_first; Some march_first]))
       (Some (CObj [XStr "0530"; XStr "abcd"]))
     = Ok [Some (march_first + 5 * ns_hour + 30 * ns_minute); NaT]).
Proof.
  split; [reflexivity|]. split; intros lib; vm_compute; reflexivity.
Qed.

Lemma hhmm_rejected_rows_witness :
  Text.isdigit (Text.zfill 4 "abcd") = false /\
  forall lib : Pandas,
  exists out,
    hhmm_to_datetime (Some (CTime [Some march_first; Some march_first]))
      (Some (CObj [XStr "0530"; XStr "abcd"])) = Ok out /\
    nth_error out 1 = Some NaT /\
    hhmm_to_datetime (Some (CTime [Some march_first])) (Some (CObj [XStr "0530"]))
    = Ok (select [true; false] out) /\
    hhmm_to_datetime (Some (CTime [Some march_first; Some march_first]))
      (Some (CObj [XStr "0530"; XFloat NaN])) = Ok out.
Proof.
  split; [reflexivity|]. intros lib.
  destruct (hhmm_rejected_rows [Some march_first; Some march_first]
              (CObj [XStr "0530"; XStr "abcd"]) eq_refl)
    as (out & Hout & Hrej & Halone & Hsame & _).
  exists out. split; [exact Hout|]. split; [|split].
  - apply (Hrej 1%nat (XStr "abcd")); reflexivity.
  - exact Halone.
  - apply Hsame. unfold same_accepted_rows; simpl.
    constructor; [left; reflexivity|].
    constructor; [right; split; reflexivity|]. constructor.
Defined.

(** ** Frames *)

Lemma get_set (fl : frame) (n n' : string) (c : column) :
  get (set fl n c) n' = if String.eqb n n' then Some c else get fl n'.
Proof.
  induction fl as [|[m c'] fl IH]; simpl.
  - reflexivity.
  - destruct (String.eqb m n) eqn:Hmn; simpl.
    + apply String.eqb_eq in Hmn. subst m.
      destruct (String.eqb n n'); reflexivity.
    + rewrite IH. destruct (String.eqb m n') eqn:Hmn'; [|reflexivity].
      apply String.eqb_eq in Hmn'. subst n'. rewrite String.eqb_sym, Hmn. reflexivity.
Qed.

Lemma has_set (fl : frame) (n n' : string) (c : column) :
  has (set fl n c) n' = String.eqb n n' || has fl n'.
Proof.
  unfold has. rewrite get_set. destruct (String.eqb n n'); reflexivity.
Qed.

Section DelayClaims.

Context {lib : Pandas}.

Lemma hhmm_some_ok (ds ts : column) :
  exists out, hhmm_to_datetime (Some ds) (Some ts) = Ok out.
Proof.
  unfold hhmm_to_datetime. destruct (try_block _ _ _ _); eexists; reflexivity.
Qed.

(** The loop of lines 80-82 never raises, and it leaves alone every column
    that is not one of its outputs. *)
Lemma add_datetimes_keeps (tm : list (string * string)) (fl : frame) :
  exists fl', add_datetimes tm fl = Ok fl' /\
    forall name, existsb (String.eqb name) (map snd tm) = false ->
                 get fl' name = get fl name.
Proof.
  revert fl. induction tm as [|[tcol outcol] tm IH]; intros fl; simpl.
  - exists fl. split; [reflexivity|]. reflexivity.
  - destruct (has fl tcol && has fl "FL_DATE") eqn:Hc.
    + apply andb_true_iff in Hc as [Ht Hd]. unfold has in Ht, Hd.
      destruct (get fl tcol) as [ts|]; [|discriminate].
      destruct (get fl "FL_DATE") as [ds|]; [|discriminate].
      destruct (hhmm_some_ok ds ts) as [out ->]. simpl.
      destruct (IH (set fl outcol (CTime out))) as (fl' & -> & Hk).
      exists fl'. split; [reflexivity|].
      intros name Hn. apply orb_false_iff in Hn as [Hn1 Hn2].
      rewrite (Hk name Hn2), get_set.
      rewrite String.eqb_sym in Hn1. rewrite Hn1. reflexivity.
    + destruct (IH fl) as (fl' & -> & Hk). exists fl'. split; [reflexivity|].
      intros name Hn. apply orb_false_iff in Hn as [_ Hn2]. apply Hk, Hn2.
Qed.

Lemma add_datetimes_step (tcol outcol : string) (tm : list (string * string))
    (fl : frame) (ds ts : column) (out : list (option Z)) :
  get fl tcol = Some ts ->
  get fl "FL_DATE" = Some ds ->
  hhmm_to_datetime (Some ds) (Some ts) = Ok out ->
  add_datetimes ((tcol, outcol) :: tm) fl
  = add_datetimes tm (set fl outcol (CTime out)).
Proof.
  intros Ht Hd Hout. simpl. unfold has. rewrite Ht, Hd, Hout. reflexivity.
Qed.

Lemma Qred_inject_Z (z : Z) : Qred (inject_Z z) = inject_Z z.
Proof.
  unfold inject_Z, Qred.
  pose proof (Z.ggcd_gcd z 1) as Hg.
  pose proof (Z.ggcd_correct_divisors z 1) as Hd.
  destruct (Z.ggcd z 1) as [g [a b]]. simpl in *.
  rewrite Z.gcd_1_r in Hg. subst g. destruct Hd as [Ha Hb].
  rewrite Z.mul_1_l in Ha, Hb. subst a b. reflexivity.
Qed.

Lemma minutes_between_whole (s k : Z) :
  minutes_between (Some (s + k * ns_minute)) (Some s) = Fin (inject_Z k).
Proof.
  unfold minutes_between. f_equal.
  etransitivity; [|apply Qred_inject_Z]. apply Qred_complete.
  replace (s + k * ns_minute - s) with (k * ns_minute) by lia.
  unfold ns_minute, Qeq, Qdiv, Qmult, Qinv, inject_Z. simpl. lia.
Qed.

(** C10, as the code has it.  Without a [DEP_DELAY] column the delay of a
    row is the difference of its two times of day, both set on the row's
    own date: actual minus scheduled in minutes, whatever the date, so an
    actual code that is earlier in the day than the scheduled one gives a
    negative delay and no day is added.  This holds when the [try] of
    lines 36-40 succeeds on both code columns; when it fails on one of
    them, the delay of every such row is missing. *)
Theorem delay_is_same_day_difference (fl : frame) (dates : list (option Z))
    (sched actual : column) (i : nat) (t : Z) (cs ca : cell)
    (hs1 hs2 ms1 ms2 ha1 ha2 ma1 ma2 : Z) :
  get fl "DEP_DELAY" = None ->
  get fl "FL_DATE" = Some (CTime dates) ->
  get fl "CRS_DEP_TIME" = Some sched ->
  get fl "DEP_TIME" = Some actual ->
  List.length dates = col_len sched ->
  List.length dates = col_len actual ->
  nth_error dates i = Some (Some t) ->
  nth_error (cells sched) i = Some cs ->
  nth_error (cells actual) i = Some ca ->
  is_digit hs1 -> is_digit hs2 -> is_digit ms1 -> is_digit ms2 ->
  is_digit ha1 -> is_digit ha2 -> is_digit ma1 -> is_digit ma2 ->
  padded cs = digits4 hs1 hs2 ms1 ms2 ->
  padded ca = digits4 ha1 ha2 ma1 ma2 ->
  let sched_minutes := 60 * (10 * hs1 + hs2) + (10 * ms1 + ms2) in
  let actual_minutes := 60 * (10 * ha1 + ha2) + (10 * ma1 + ma2) in
  exists fl' delays,
    add_datetimes time_map fl = Ok fl' /\
    DEP_DELAY_MIN fl' = Ok (CFloat delays) /\
    (batch_ok dates (map padded (cells sched)) = true ->
     batch_ok dates (map padded (cells actual)) = true ->
     nth_error delays i = Some (Fin (inject_Z (actual_minutes - sched_minutes)))) /\
    (batch_ok dates (map padded (cells sched)) = false \/
     batch_ok dates (map padded (cells actual)) = false ->
     nth_error delays i = Some NaN) /\
    (actual_minutes < sched_minutes -> actual_minutes - sched_minutes < 0).
Proof.
  intros Hno Hdate Hs Ha Ls La Hd Hcs Hca S1 S2 S3 S4 A1 A2 A3 A4 Ps Pa sm am.
  unfold time_map.
  rewrite (add_datetimes_step _ _ _ fl (CTime dates) sched _ Hs Hdate
             (hhmm_rows dates sched Ls)).
  erewrite add_datetimes_step;
    [| rewrite get_set; simpl; exact Ha
     | rewrite get_set; simpl; exact Hdate
     | apply (hhmm_rows dates actual La) ].
  match goal with |- context [add_datetimes ?tm ?f] =>
    destruct (add_datetimes_keeps tm f) as (fl' & -> & Hk) end.
  exists fl'. eexists. split; [reflexivity|].
  unfold DEP_DELAY_MIN.
  rewrite !Hk by reflexivity. rewrite !get_set. simpl. rewrite Hno.
  split; [reflexivity|].
  assert (Hi : (i < List.length dates)%nat)
    by (apply nth_error_Some; rewrite Hd; discriminate).
  assert (Hrs : nth_error (map2 row_out dates (map padded (cells sched))) i
                = Some (Some (at_time t (10 * hs1 + hs2) (10 * ms1 + ms2)))).
  { erewrite nth_error_map2; [| exact Hd | apply map_nth_error; exact Hcs].
    rewrite Ps, digits4_row by assumption. reflexivity. }
  assert (Hra : nth_error (map2 row_out dates (map padded (cells actual))) i
                = Some (Some (at_time t (10 * ha1 + ha2) (10 * ma1 + ma2)))).
  { erewrite nth_error_map2; [| exact Hd | apply map_nth_error; exact Hca].
    rewrite Pa, digits4_row by assumption. reflexivity. }
  assert (Hnat : nth_error (repeat NaT (List.length dates)) i = Some NaT)
    by (apply nth_error_repeat, Hi).
  split; [|split; [|lia]].
  - intros -> ->.
    rewrite (nth_error_map2 _ _ _ _ _ _ Hra Hrs). f_equal.
    rewrite <- minutes_between_whole
      with (s := at_time t (10 * hs1 + hs2) (10 * ms1 + ms2)).
    do 2 f_equal. unfold at_time, am, sm, ns_hour, ns_minute. lia.
  - intros Hbad.
    destruct (batch_ok dates (map padded (cells sched))),
             (batch_ok dates (map padded (cells actual)));
      try (destruct Hbad; discriminate).
    + rewrite (nth_error_map2 _ _ _ _ _ _ Hnat Hrs). reflexivity.
    + rewrite (nth_error_map2 _ _ _ _ _ _ Hra Hnat). reflexivity.
    + rewrite (nth_error_map2 _ _ _ _ _ _ Hnat Hnat). reflexivity.
Qed.

End DelayClaims.

Lemma delay_is_same_day_difference_witness :
  60 * 0 + 10 - (60 * 23 + 50) = -1420 /\
  forall lib : Pandas,
  exists fl' delays,
    add_datetimes time_map late_night = Ok fl' /\
    DEP_DELAY_MIN fl' = Ok (CFloat delays) /\
    nth_error delays 0 = Some (Fin (inject_Z (- 1420))).
Proof.
  split; [reflexivity|]. intros lib.
  destruct (delay_is_same_day_difference late_night [Some march_first]
              (CInt [2350]) (CInt [10]) 0 march_first (XInt 2350) (XInt 10)
              2 3 5 0 0 0 1 0)
    as (fl' & delays & Hfl & Hdel & Hok & _);
    unfold is_digit; try lia; try reflexivity.
  exists fl', delays. split; [exact Hfl|]. split; [exact Hdel|].
  apply Hok; reflexivity.
Defined.

(** C10 as stated fails: with a row in [DEP_TIME] that the mask accepts
    and [int] does not convert, the actual timestamps are all missing,
    and the flight scheduled at 2350 that left at 0010 has no delay. *)
Lemma delay_missing_beside_superscript :
  Text.isdigit (Text.zfill 4 superscript_two) = true /\
  Text.to_int (Text.slice 2 4 (Text.zfill 4 superscript_two)) = None /\
  forall lib : Pandas,
  exists fl',
    add_datetimes time_map late_and_unreadable = Ok fl' /\
    DEP_DELAY_MIN fl' = Ok (CFloat [NaN; NaN]).
Proof.
  split; [reflexivity|]. split; [reflexivity|].
  intros lib. eexists. split; vm_compute; reflexivity.
Qed.

(** ** Long-delay flag *)

Section FeatureClaims.

Context {lib : Pandas}.

Lemma gt15_exceeds (c : cell) : cell_gt15 c = true <-> exceeds15 c.
Proof.
  destruct c as [z|[| | | |q]|b|s|t]; simpl; try (split; [discriminate|contradiction]).
  - apply Z.ltb_lt.
  - split; trivial.
  - rewrite negb_true_iff. split.
    + intros H. apply Qnot_le_lt. intros Hle. apply Qle_bool_iff in Hle. congruence.
    + intros H. destruct (Qle_bool q 15) eqn:E; [|reflexivity].
      apply Qle_bool_iff in E. exfalso. exact (Qlt_not_le _ _ H E).
Qed.

(** C6.  On a merged table with its date and delay columns the feature
    step returns, and in its result every row's long-delay flag is 0 or 1
    and is 1 exactly when the row's numeric delay is strictly above 15; a
    missing delay gives 0. *)
Theorem long_delay_flag_threshold (merged : frame) (dates : list (option Z))
    (raw : column) :
  get merged "FL_DATE" = Some (CTime dates) ->
  get merged "DEP_DELAY_MIN" = Some raw ->
  exists m',
    derive_features merged = Ok m' /\
    get m' "DEP_DELAY_MIN" = Some (to_numeric raw) /\
    get m' "LONG_DELAY_FLAG" = Some (CInt (LONG_DELAY_FLAG (to_numeric raw))) /\
    forall i c, nth_error (cells (to_numeric raw)) i = Some c ->
      exists f, nth_error (LONG_DELAY_FLAG (to_numeric raw)) i = Some f /\
                (f = 0 \/ f = 1) /\
                (f = 1 <-> exceeds15 c) /\
                (c = XFloat NaN -> f = 0).
Proof.
  intros Hd Hr. unfold derive_features. rewrite Hd. simpl to_datetime.
  unfold getitem at 1. rewrite get_set. simpl.
  unfold getitem at 1. rewrite !get_set. simpl. rewrite Hr. simpl.
  unfold getitem at 1. rewrite !get_set. simpl.
  eexists. split; [reflexivity|]. rewrite !get_set. simpl.
  split; [reflexivity|]. split; [reflexivity|].
  intros i c Hc. unfold LONG_DELAY_FLAG.
  rewrite (map_nth_error _ _ _ Hc). eexists. split; [reflexivity|].
  pose proof (gt15_exceeds c) as Hg.
  destruct (cell_gt15 c) eqn:E; simpl.
  - split; [right; reflexivity|]. split.
    + split; [intros _; apply Hg; reflexivity | reflexivity].
    + intros ->. discriminate.
  - split; [left; reflexivity|]. split.
    + split; [discriminate|]. intros H. apply Hg in H. discriminate.
    + reflexivity.
Qed.

End FeatureClaims.

Lemma long_delay_flag_threshold_witness :
  (15 < 150001 # 10000)%Q /\
  forall lib : Pandas,
  exists m',
    derive_features delays_around_15 = Ok m' /\
    get m' "DEP_DELAY_MIN" = Some (CFloat [Fin 15; Fin (150001 # 10000); NaN; Fin 16]) /\
    get m' "LONG_DELAY_FLAG" = Some (CInt [0; 1; 0; 1]).
Proof.
  split; [reflexivity|]. intros lib.
  destruct (long_delay_flag_threshold delays_around_15
              (repeat (Some march_first) 4)
              (CFloat [Fin 15; Fin (150001 # 10000); NaN; Fin 16])
              eq_refl eq_refl) as (m' & H1 & H2 & H3 & _).
  exists m'. split; [exact H1|]. split; [exact H2|exact H3].
Defined.

(** ** Cancellation flag *)

Section CancellationClaims.

Context {lib : Pandas}.

Lemma wf_frame_get (fl : frame) (n : string) (c : column) :
  wf_frame fl = true -> get fl n = Some c -> col_len c = len fl.
Proof.
  unfold wf_frame. generalize (len fl) as k. intros k Hwf.
  induction fl as [|[m c'] fl IH]; simpl in *; [discriminate|].
  apply andb_true_iff in Hwf as [Hc Hwf].
  destruct (String.eqb m n).
  - intros [= <-]. apply Nat.eqb_eq, Hc.
  - apply IH, Hwf.
Qed.

Lemma isna_length (c : column) : List.length (isna c) = col_len c.
Proof. unfold isna, col_len. apply length_map. Qed.

Lemma actual_or_missing_length (fl : frame) (n : string) :
  wf_frame fl = true -> col_len (actual_or_missing fl n) = len fl.
Proof.
  intros Hwf. unfold actual_or_missing.
  destruct (get fl n) as [c|] eqn:E.
  - eapply wf_frame_get; eassumption.
  - rewrite col_len_time. apply repeat_length.
Qed.

Lemma map2_length {A B C : Type} (f : A -> B -> C) (l1 : list A) (l2 : list B) :
  List.length l1 = List.length l2 -> List.length (map2 f l1 l2) = List.length l1.
Proof.
  revert l2. induction l1 as [|a l1 IH]; intros [|b l2]; simpl; try discriminate.
  - reflexivity.
  - intros [= H]. f_equal. apply IH, H.
Qed.

Lemma of_bool_binary (l : list bool) : Forall (fun f => f = 0 \/ f = 1) (map of_bool l).
Proof.
  induction l as [|[|] l IH]; simpl; constructor; auto.
Qed.

Lemma traverse_float_to_int (l : list fnum) :
  existsb is_infinite (map XFloat l) = false ->
  exists flags,
    traverse float_to_int l = Ok flags /\
    List.length flags = List.length l /\
    forall i x, nth_error l i = Some x ->
      in_int64 (integer_part (XFloat x)) = true ->
      nth_error flags i = Some (integer_part (XFloat x)).
Proof.
  induction l as [|x l IH]; simpl.
  - intros _. exists []. repeat split. intros [|i] y; discriminate.
  - intros H. apply orb_false_iff in H as [Hx Hl].
    destruct (IH Hl) as (flags & -> & Hlen & Hrows).
    assert (Hhead : exists f, float_to_int x = Ok f /\
              (in_int64 (integer_part (XFloat x)) = true -> f = integer_part (XFloat x))).
    { destruct x as [| | | |q]; simpl in *; try discriminate;
        try (eexists; split; [reflexivity|]; reflexivity).
      destruct (in_int64 (truncate q)); eexists; split; try reflexivity.
      discriminate. }
    destruct Hhead as (f & -> & Hf). cbn [bind].
    exists (f :: flags). split; [reflexivity|]. split; [simpl; congruence|].
    intros [|i] y; simpl.
    + intros [= <-] Hin. rewrite (Hf Hin). reflexivity.
    + apply Hrows.
Qed.

(** The cast of line 100 on a column without infinite entries. *)
Lemma fillna0_astype_int_finite (c : column) :
  existsb is_infinite (cells (to_numeric c)) = false ->
  exists flags,
    fillna0_astype_int (to_numeric c) = Ok flags /\
    List.length flags = List.length (cells (to_numeric c)) /\
    forall i x, nth_error (cells (to_numeric c)) i = Some x ->
      in_int64 (integer_part x) = true ->
      nth_error flags i = Some (integer_part x).
Proof.
  assert (Hfloat : forall l : list fnum,
            existsb is_infinite (map XFloat l) = false ->
            exists flags,
              traverse float_to_int l = Ok flags /\
              List.length flags = List.length (map XFloat l) /\
              forall i x, nth_error (map XFloat l) i = Some x ->
                in_int64 (integer_part x) = true ->
                nth_error flags i = Some (integer_part x)).
  { intros l H. destruct (traverse_float_to_int l H) as (flags & Hf & Hlen & Hrows).
    exists flags. split; [exact Hf|]. split; [rewrite length_map; exact Hlen|].
    intros i x Hx. rewrite nth_error_map in Hx.
    destruct (nth_error l i) as [y|] eqn:E; [|discriminate].
    injection Hx as <-. apply Hrows, E. }
  destruct c as [l|l|l|l|l]; simpl; intros H.
  - exists l. split; [reflexivity|]. split; [rewrite length_map; reflexivity|].
    intros i x Hx _. rewrite nth_error_map in Hx.
    destruct (nth_error l i) as [z|]; [|discriminate]. injection Hx as <-. reflexivity.
  - apply Hfloat, H.
  - exists (map of_bool l). split; [reflexivity|]. split; [rewrite !length_map; reflexivity|].
    intros i x Hx _. rewrite nth_error_map in Hx. rewrite nth_error_map.
    destruct (nth_error l i) as [b|]; [|discriminate]. injection Hx as <-. reflexivity.
  - eexists. split; [reflexivity|]. split; [rewrite !length_map; reflexivity|].
    intros i x Hx _. rewrite nth_error_map in Hx.
    destruct (nth_error _ i) as [z|]; [|discriminate]. injection Hx as <-. reflexivity.
  - apply Hfloat, H.
Qed.

Lemma find_cancel_get (fl : frame) (name : string) :
  find_cancel (columns fl) = Some name -> exists c, get fl name = Some c.
Proof.
  unfold columns. induction fl as [|[m c'] fl IH]; simpl; [discriminate|].
  destruct (Text.contains "CANCEL" m).
  - intros [= <-]. rewrite String.eqb_refl. eauto.
  - intros H. destruct (String.eqb m name); eauto.
Qed.

(** C1, as the code has it.  The flag has one integer per row and is never
    missing.  Inferred from the actual departure and arrival timestamps it
    is 0 or 1.  Taken from the first column whose name contains [CANCEL],
    free of infinite values, it is in each row the integer part of the
    column's numeric value, 0 where that value is missing, as long as
    that integer part fits [int64]. *)
Theorem cancelled_flag_values (fl : frame) :
  wf_frame fl = true ->
  (find_cancel (columns fl) = None ->
   exists flags,
     CANCELLED_FLAG fl = Ok flags /\
     List.length flags = len fl /\
     Forall (fun f => f = 0 \/ f = 1) flags)
  /\
  (forall name c,
     find_cancel (columns fl) = Some name ->
     get fl name = Some c ->
     existsb is_infinite (cells (to_numeric c)) = false ->
     exists flags,
       CANCELLED_FLAG fl = Ok flags /\
       List.length flags = len fl /\
       forall i x, nth_error (cells (to_numeric c)) i = Some x ->
         in_int64 (integer_part x) = true ->
         nth_error flags i = Some (integer_part x)).
Proof.
  intros Hwf. split.
  - intros Hnone. unfold CANCELLED_FLAG. rewrite Hnone.
    eexists. split; [reflexivity|]. split.
    + rewrite length_map, map2_length; rewrite !isna_length,
        !actual_or_missing_length by exact Hwf; reflexivity.
    + apply of_bool_binary.
  - intros name c Hfind Hget Hfin. unfold CANCELLED_FLAG, getitem.
    rewrite Hfind, Hget. cbn [bind].
    destruct (fillna0_astype_int_finite c Hfin) as (flags & Hf & Hlen & Hrows).
    exists flags. split; [exact Hf|]. split; [|exact Hrows].
    rewrite Hlen, <- (wf_frame_get fl name c Hwf Hget).
    unfold col_len. destruct c; simpl; rewrite !length_map; reflexivity.
Qed.

End CancellationClaims.

(** C1 as stated fails: an explicit cancellation column holding 2 gives the
    flag 2, which is neither 0 nor 1. *)
Lemma cancelled_flag_two :
  2 <> 0 /\ 2 <> 1 /\
  forall lib : Pandas, CANCELLED_FLAG cancelled_twice = Ok [2; 0].
Proof.
  split; [lia|]. split; [lia|]. intros lib. reflexivity.
Qed.

Lemma cancelled_flag_values_witness :
  (forall lib : Pandas,
     CANCELLED_FLAG late_night = Ok [0] \/ CANCELLED_FLAG late_night = Ok [1]) /\
  (forall lib : Pandas,
     CANCELLED_FLAG cancelled_codes = Ok [1; 0; 0; 0]).
Proof.
  split; intros lib.
  - destruct (cancelled_flag_values late_night eq_refl) as [H _].
    destruct (H eq_refl) as (flags & Hf & Hlen & Hbin).
    rewrite Hf. destruct flags as [|f [|]]; try discriminate.
    inversion Hbin as [|? ? [->| ->] _]; [left|right]; reflexivity.
  - destruct (cancelled_flag_values cancelled_codes eq_refl) as [_ H].
    destruct (H "CANCELLED"%string
                (CObj [XInt 1; XFloat (Fin (1 # 2)); XFloat NaN; XBool false])
                eq_refl eq_refl eq_refl) as (flags & -> & Hlen & Hrows).
    destruct flags as [|f0 [|f1 [|f2 [|f3 [|]]]]]; try discriminate.
    pose proof (Hrows 0%nat _ eq_refl eq_refl) as H0.
    pose proof (Hrows 1%nat _ eq_refl eq_refl) as H1.
    pose proof (Hrows 2%nat _ eq_refl eq_refl) as H2.
    pose proof (Hrows 3%nat _ eq_refl eq_refl) as H3.
    simpl in H0, H1, H2, H3.
    injection H0 as ->. injection H1 as ->. injection H2 as ->. injection H3 as ->.
    reflexivity.
Defined.

(** ** The run without a flight date *)

Section PipelineClaims.

Context {lib : Pandas}.

Lemma add_datetimes_without_date (tm : list (string * string)) (fl : frame) :
  get fl "FL_DATE" = None -> add_datetimes tm fl = Ok fl.
Proof.
  intros Hd. induction tm as [|[tcol outcol] tm IH]; simpl; [reflexivity|].
  unfold has at 2. rewrite Hd, andb_false_r. exact IH.
Qed.

Lemma get_rename_none (fl : frame) (old new n : string) :
  get fl n = None -> String.eqb new n = false -> get (rename fl old new) n = None.
Proof.
  intros Hg Hn. induction fl as [|[m c] fl IH]; simpl in *; [reflexivity|].
  destruct (String.eqb m n) eqn:Hm; [discriminate|].
  destruct (String.eqb m old); [rewrite Hn | rewrite Hm]; apply IH, Hg.
Qed.

Lemma get_project_none (fl : frame) (names : list string) (n : string) :
  get fl n = None -> get (project fl names) n = None.
Proof.
  intros Hg. induction names as [|m names IH]; simpl; [reflexivity|].
  destruct (get fl m) eqn:Hm; [|exact IH].
  simpl. destruct (String.eqb m n) eqn:E; [|exact IH].
  apply String.eqb_eq in E. congruence.
Qed.

Lemma canonical_airline_none (fl : frame) (n : string) :
  get fl n = None -> String.eqb "AIRLINE" n = false ->
  get (canonical_airline fl) n = None.
Proof.
  intros Hg Hn. unfold canonical_airline.
  destruct (has fl "CARRIER" && negb (has fl "AIRLINE"));
    [apply get_rename_none; assumption|].
  destruct (has fl "OP_CARRIER" && negb (has fl "AIRLINE"));
    [apply get_rename_none; assumption | exact Hg].
Qed.

Lemma Ok_inj {A : Type} (a b : A) : Ok a = Ok b -> a = b.
Proof. intros [= ->]. reflexivity. Qed.

Lemma Raise_not_Ok {A : Type} (e : exn) (a : A) : Raise e = Ok a -> False.
Proof. discriminate. Qed.

(** The steps a prepared flight table went through. *)
Lemma prepare_flights_inv (flights_raw fl_small : frame) :
  prepare_flights flights_raw = Ok fl_small ->
  exists fl delay flag,
    add_datetimes time_map (convert_time_hour (derive_date "FL_DATE" flights_raw)) = Ok fl /\
    DEP_DELAY_MIN fl = Ok delay /\
    CANCELLED_FLAG (set fl "DEP_DELAY_MIN" delay) = Ok flag /\
    fl_small
    = project
        (canonical_airline (set (set fl "DEP_DELAY_MIN" delay) "CANCELLED_FLAG" (CInt flag)))
        (filter
           (has (canonical_airline
                   (set (set fl "DEP_DELAY_MIN" delay) "CANCELLED_FLAG" (CInt flag))))
           useful).
Proof.
  unfold prepare_flights.
  destruct (add_datetimes time_map _) as [fl|e] eqn:Hfl; cbn [bind];
    [|intros H; exfalso; exact (Raise_not_Ok _ _ H)].
  destruct (DEP_DELAY_MIN fl) as [delay|e] eqn:Hd; cbn [bind];
    [|intros H; exfalso; exact (Raise_not_Ok _ _ H)].
  destruct (CANCELLED_FLAG _) as [flag|e] eqn:Hc; cbn [bind];
    [|intros H; exfalso; exact (Raise_not_Ok _ _ H)].
  intros H. apply Ok_inj in H. exists fl, delay, flag.
  split; [reflexivity|]. split; [exact Hd|]. split; [exact Hc|].
  symmetry. exact H.
Qed.

(** A flight table with neither a date column nor the three columns a
    date is assembled from reaches the merge without one. *)
Lemma prepare_flights_without_date (flights_raw fl_small : frame) :
  get flights_raw "FL_DATE" = None ->
  get flights_raw "YEAR" = None \/ get flights_raw "MONTH" = None
    \/ get flights_raw "DAY" = None ->
  prepare_flights flights_raw = Ok fl_small ->
  get fl_small "FL_DATE" = None.
Proof.
  intros Hd Hymd Hp.
  destruct (prepare_flights_inv _ _ Hp) as (fl & delay & flag & Hfl & _ & _ & ->).
  assert (Hderive : derive_date "FL_DATE" flights_raw = flights_raw).
  { unfold derive_date. rewrite Hd.
    destruct Hymd as [->|[->| ->]];
      repeat match goal with |- context [match get ?f ?n with _ => _ end] =>
        destruct (get f n) end; reflexivity. }
  rewrite Hderive in Hfl.
  assert (Hth : get (convert_time_hour flights_raw) "FL_DATE" = None).
  { unfold convert_time_hour. destruct (get flights_raw "TIME_HOUR"); [|exact Hd].
    rewrite get_set. exact Hd. }
  rewrite (add_datetimes_without_date _ _ Hth) in Hfl. injection Hfl as <-.
  apply get_project_none, canonical_airline_none; [|reflexivity].
  rewrite !get_set. exact Hth.
Qed.

(** C4 fails on the code.  With neither a date column nor year, month and
    day columns in the flight table, the run does not complete whatever
    the weather table is: when it gets as far as line 161 it raises
    [KeyError] there, because that line reads the column [FL_DATE] that
    line 159 has just found absent. *)
Theorem pipeline_without_date_raises (flights_raw weather_raw : frame) :
  get flights_raw "FL_DATE" = None ->
  get flights_raw "YEAR" = None \/ get flights_raw "MONTH" = None
    \/ get flights_raw "DAY" = None ->
  (exists e, pipeline flights_raw weather_raw = Raise e) /\
  (forall fl_small, prepare_flights flights_raw = Ok fl_small ->
     pipeline flights_raw weather_raw = Raise (KeyError "FL_DATE")).
Proof.
  intros Hd Hymd.
  assert (Hkey : forall fl_small, prepare_flights flights_raw = Ok fl_small ->
            pipeline flights_raw weather_raw = Raise (KeyError "FL_DATE")).
  { intros fl_small Hp. unfold pipeline. rewrite Hp. simpl.
    pose proof (prepare_flights_without_date _ _ Hd Hymd Hp) as Hn.
    unfold merge_step. rewrite Hn. simpl.
    unfold derive_features. rewrite Hn. cbv zeta.
    unfold getitem at 1. rewrite Hn. reflexivity. }
  split; [|exact Hkey].
  destruct (prepare_flights flights_raw) as [fl_small|e] eqn:Hp.
  - eexists. apply (Hkey fl_small). reflexivity.
  - exists e. unfold pipeline. rewrite Hp. reflexivity.
Qed.

End PipelineClaims.

Lemma pipeline_without_date_raises_witness :
  (forall lib : Pandas, prepare_flights delays_only
     = Ok [("DEP_DELAY_MIN", CInt [5; 20]); ("CANCELLED_FLAG", CInt [1; 1])]%string) /\
  (forall lib : Pandas, pipeline delays_only daily_weather = Raise (KeyError "FL_DATE")).
Proof.
  split; intros lib; [reflexivity|].
  destruct (pipeline_without_date_raises delays_only daily_weather eq_refl
              (or_introl eq_refl)) as [_ H].
  apply (H _ eq_refl).
Defined.

(** ** Weather aggregation *)

Section Groups.

Lemma lookup_below (k : Z) (g : list (Z * (fnum * nat))) :
  Forall (fun ka => k < fst ka) g -> lookup k g = None.
Proof.
  induction 1 as [|[k' a] g Hk _ IH]; simpl; [reflexivity|].
  simpl in Hk. destruct (Z.eqb_spec k k'); [lia|exact IH].
Qed.

Lemma upsert_increasing (k : Z) (v : fnum) (g : list (Z * (fnum * nat))) :
  increasing g -> increasing (upsert k v g).
Proof.
  induction g as [|[k' a] g IH]; simpl; intros Hg.
  - split; [constructor|exact I].
  - destruct Hg as [Hlt Hg].
    destruct (Z.ltb_spec k k').
    + simpl. split; [|split; assumption].
      constructor; [simpl; lia|].
      eapply Forall_impl; [|exact Hlt]. simpl. intros; lia.
    + destruct (Z.eqb_spec k k').
      * simpl. split; assumption.
      * simpl. split; [|apply IH, Hg].
        assert (Hkk : k' < k) by lia.
        clear IH Hg. induction g as [|[k2 a2] g IHg]; simpl.
        -- constructor; [simpl; lia|constructor].
        -- inversion Hlt as [|? ? H2 Hrest]; subst. simpl in H2.
           destruct (Z.ltb_spec k k2); [|destruct (Z.eqb_spec k k2)].
           ++ constructor; [simpl; lia|]. constructor; [simpl; lia|exact Hrest].
           ++ constructor; [simpl; lia|exact Hrest].
           ++ constructor; [simpl; lia|]. apply IHg, Hrest.
Qed.

Lemma lookup_upsert (k k' : Z) (v : fnum) (g : list (Z * (fnum * nat))) :
  increasing g ->
  lookup k' (upsert k v g)
  = if k' =? k then Some (observe v (acc_or_none (lookup k g))) else lookup k' g.
Proof.
  induction g as [|[k2 a2] g IH]; simpl; intros Hg.
  - destruct (k' =? k); reflexivity.
  - destruct Hg as [Hlt Hg].
    destruct (Z.ltb_spec k k2).
    + simpl. destruct (Z.eqb_spec k k2); [lia|].
      rewrite (lookup_below k g)
        by (eapply Forall_impl; [|exact Hlt]; simpl; intros; lia).
      destruct (k' =? k); reflexivity.
    + destruct (Z.eqb_spec k k2).
      * subst k2. simpl. destruct (k' =? k); reflexivity.
      * simpl. rewrite (IH Hg).
        destruct (Z.eqb_spec k' k2); [|reflexivity].
        subst k2. destruct (Z.eqb_spec k' k); [lia|reflexivity].
Qed.

Lemma upsert_keys (k : Z) (v v' : fnum) (g g' : list (Z * (fnum * nat))) :
  map fst g = map fst g' -> map fst (upsert k v g) = map fst (upsert k v' g').
Proof.
  revert g'. induction g as [|[k2 a2] g IH]; intros [|[k3 a3] g']; simpl;
    try discriminate; [reflexivity|].
  intros [= <- Hg].
  destruct (k <? k2); [simpl; congruence|].
  destruct (k =? k2); simpl; [congruence|]. f_equal. apply IH, Hg.
Qed.

Lemma fold_group_step (k : Z) (rows : list (option Z * fnum))
    (g : list (Z * (fnum * nat))) :
  increasing g ->
  increasing (fold_left group_step rows g) /\
  lookup k (fold_left group_step rows g)
  = if existsb (fun row => key_eqb (fst row) (Some k)) rows || is_some (lookup k g)
    then Some (fold_left (row_step k) rows (acc_or_none (lookup k g)))
    else None.
Proof.
  revert g. induction rows as [|[d v] rows IH]; simpl; intros g Hg.
  - split; [exact Hg|]. destruct (lookup k g); reflexivity.
  - unfold group_step at 2 4. simpl fst. simpl snd. destruct d as [kd|].
    + destruct (IH (upsert kd v g) (upsert_increasing kd v g Hg)) as [Hi Hl].
      split; [exact Hi|]. rewrite Hl, (lookup_upsert kd k v g Hg).
      unfold row_step at 3. simpl fst. simpl snd. simpl key_eqb.
      rewrite (Z.eqb_sym kd k).
      destruct (Z.eqb_spec k kd) as [->|Hne].
      * simpl. rewrite orb_true_r. reflexivity.
      * simpl. reflexivity.
    + destruct (IH g Hg) as [Hi Hl]. split; [exact Hi|].
      rewrite Hl. reflexivity.
Qed.

Lemma fold_row_step (k : Z) (dates : list (option Z)) (vals : list fnum)
    (a : fnum * nat) :
  fold_left (row_step k) (combine dates vals) a
  = fold_left (fun a v => observe v a) (values_on k dates vals) a.
Proof.
  unfold values_on. generalize (combine dates vals) as rows.
  intros rows. revert a. induction rows as [|[d v] rows IH]; simpl; intros a;
    [reflexivity|].
  unfold row_step at 2. simpl. destruct (key_eqb d (Some k)); simpl; apply IH.
Qed.

Lemma fold_observe (l : list fnum) (s : fnum) (n : nat) :
  fold_left (fun a v => observe v a) l (s, n)
  = (fold_left xadd (filter (fun x => negb (is_nan x)) l) s,
     (n + List.length (filter (fun x => negb (is_nan x)) l))%nat).
Proof.
  revert s n. induction l as [|v l IH]; simpl; intros s n.
  - f_equal. lia.
  - destruct v; simpl; rewrite IH; simpl; f_equal; lia.
Qed.

Lemma mean_of_observed (l : list fnum) :
  mean_of (fold_left (fun a v => observe v a) l no_obs) = mean_spec l.
Proof.
  unfold no_obs. rewrite fold_observe. unfold mean_of, mean_spec. simpl.
  destruct (filter (fun x => negb (is_nan x)) l); reflexivity.
Qed.

End Groups.

Section WeatherClaims.

Lemma fold_group_keys (dates : list (option Z)) (vals vals' : list fnum)
    (g g' : list (Z * (fnum * nat))) :
  List.length vals = List.length dates ->
  List.length vals' = List.length dates ->
  map fst g = map fst g' ->
  map fst (fold_left group_step (combine dates vals) g)
  = map fst (fold_left group_step (combine dates vals') g').
Proof.
  revert vals vals' g g'.
  induction dates as [|d dates IH]; intros [|v vals] [|v' vals'] g g'; simpl;
    try discriminate; [trivial|].
  intros [= Hl] [= Hl'] Hg. apply IH; [exact Hl|exact Hl'|].
  unfold group_step; simpl. destruct d; [apply upsert_keys|]; exact Hg.
Qed.

Lemma group_sums_keys (dates : list (option Z)) (vals : list fnum) :
  List.length vals = List.length dates ->
  map fst (group_sums dates vals) = group_keys dates.
Proof.
  intros Hl. unfold group_keys, group_sums.
  apply fold_group_keys; [exact Hl|apply length_map|reflexivity].
Qed.

Lemma increasing_nodup (g : list (Z * (fnum * nat))) :
  increasing g -> NoDup (map fst g).
Proof.
  induction g as [|[k a] g IH]; simpl; intros Hg; [constructor|].
  destruct Hg as [Hlt Hg]. constructor; [|apply IH, Hg].
  intros Hin. apply in_map_iff in Hin as ([k' a'] & Hk & Hin). simpl in Hk. subst k'.
  rewrite Forall_forall in Hlt. specialize (Hlt _ Hin). simpl in Hlt. lia.
Qed.

Lemma lookup_in (k : Z) (g : list (Z * (fnum * nat))) :
  In k (map fst g) <-> is_some (lookup k g) = true.
Proof.
  induction g as [|[k' a] g IH]; simpl; [split; [contradiction|discriminate]|].
  destruct (Z.eqb_spec k k').
  - split; [reflexivity|]. intros _. left. congruence.
  - rewrite <- IH. split; [intros [H|H]; [congruence|exact H] | auto].
Qed.

Lemma lookup_nth (g : list (Z * (fnum * nat))) (i : nat) (k : Z) (a : fnum * nat) :
  increasing g -> nth_error g i = Some (k, a) -> lookup k g = Some a.
Proof.
  revert i. induction g as [|[k' a'] g IH]; intros [|i]; simpl; try discriminate.
  - intros _ [= -> ->]. rewrite Z.eqb_refl. reflexivity.
  - intros [Hlt Hg] Hn.
    assert (Hin : In (k, a) g) by (eapply nth_error_In; exact Hn).
    rewrite Forall_forall in Hlt. specialize (Hlt _ Hin). simpl in Hlt.
    destruct (Z.eqb_spec k k'); [lia|]. eapply IH; eassumption.
Qed.

Lemma group_sums_increasing (dates : list (option Z)) (vals : list fnum) :
  increasing (group_sums dates vals).
Proof. apply (fold_group_step 0 _ []). exact I. Qed.

Lemma exists_date (k : Z) (dates : list (option Z)) (vals : list fnum) :
  List.length vals = List.length dates ->
  existsb (fun row : option Z * fnum => key_eqb (fst row) (Some k)) (combine dates vals)
  = true <-> In (Some k) dates.
Proof.
  revert vals. induction dates as [|d dates IH]; intros [|v vals]; simpl;
    try discriminate.
  - intros _. split; [discriminate|contradiction].
  - intros [= Hl]. rewrite orb_true_iff, (IH vals Hl).
    destruct d as [kd|]; simpl.
    + destruct (Z.eqb_spec kd k).
      * subst. split; auto.
      * split; [intros [H|H]; [discriminate|auto] | intros [H|H]; [congruence|auto]].
    + split; [intros [H|H]; [discriminate|auto] | intros [H|H]; [discriminate|auto]].
Qed.

Lemma group_keys_spec (dates : list (option Z)) :
  NoDup (group_keys dates) /\ forall k, In k (group_keys dates) <-> In (Some k) dates.
Proof.
  unfold group_keys. split.
  - apply increasing_nodup, group_sums_increasing.
  - intros k. rewrite lookup_in. unfold group_sums.
    destruct (fold_group_step k (combine dates (map (fun _ => NaN) dates)) [] I)
      as [_ ->].
    simpl. rewrite orb_false_r. rewrite <- (exists_date k dates (map (fun _ => NaN) dates))
      by apply length_map.
    destruct (existsb _ _); simpl; split; congruence.
Qed.

(** The mean of one numeric column for the group at position [i]. *)
Lemma group_mean_nth (dates : list (option Z)) (vals : list fnum) (i : nat) (k : Z) :
  List.length vals = List.length dates ->
  nth_error (group_keys dates) i = Some k ->
  nth_error (map snd (group_mean dates vals)) i
  = Some (mean_spec (values_on k dates vals)).
Proof.
  intros Hl Hk. rewrite <- (group_sums_keys dates vals Hl) in Hk.
  unfold group_mean. rewrite map_map. simpl.
  destruct (nth_error (group_sums dates vals) i) as [[k' a]|] eqn:Hn.
  - rewrite (map_nth_error _ _ _ Hn) in Hk. simpl in Hk. injection Hk as ->.
    rewrite (map_nth_error _ _ _ Hn). simpl. f_equal.
    pose proof (lookup_nth _ _ _ _ (group_sums_increasing dates vals) Hn) as Hlook.
    unfold group_sums in Hlook.
    destruct (fold_group_step k (combine dates vals) [] I) as [_ Hfold].
    rewrite Hfold in Hlook. simpl in Hlook.
    destruct (existsb _ _ || false); [|discriminate].
    injection Hlook as <-. rewrite fold_row_step. apply mean_of_observed.
  - rewrite nth_error_map, Hn in Hk. discriminate.
Qed.

Lemma get_cons (n name : string) (c : column) (fl : frame) :
  get ((n, c) :: fl) name = if String.eqb n name then Some c else get fl name.
Proof. reflexivity. Qed.

Lemma get_named (names : list string) (F : string -> column) (name : string) :
  In name names -> get (map (fun n => (n, F n)) names) name = Some (F name).
Proof.
  induction names as [|m names IH]; simpl; [contradiction|].
  destruct (String.eqb_spec m name) as [->|Hne]; [reflexivity|].
  intros [H|H]; [congruence|apply IH, H].
Qed.

Lemma numeric_col_listed (wx : frame) (name : string) (c : column) :
  get wx name = Some c -> is_numeric c = true -> In name (numeric_weather_cols wx).
Proof.
  unfold numeric_weather_cols. induction wx as [|[m c'] wx IH]; simpl; [discriminate|].
  destruct (String.eqb_spec m name) as [->|Hne].
  - intros [= ->] ->. left. reflexivity.
  - intros Hg Hc. destruct (is_numeric c'); [right|]; apply IH; assumption.
Qed.

Lemma values_length (c : column) : is_numeric c = true -> List.length (values c) = col_len c.
Proof.
  destruct c; simpl; try discriminate; unfold col_len; simpl; intros _;
    rewrite ?length_map; reflexivity.
Qed.

(** C7, as the code has it.  On a weather table with a date column and at
    least one numeric column, the aggregate has exactly one row for each
    timestamp that the date column holds (the grouping of line 136 is on
    the whole timestamp, so two times of one day make two rows), and each
    numeric column holds, in the row of a timestamp, the arithmetic mean
    of the values the column has in the raw rows of that timestamp.
    Without a numeric column or without a date column the weather side is
    the table as it is. *)
Theorem weather_aggregate_means (wx : frame) :
  (forall dates,
     wf_frame wx = true ->
     get wx "DATE" = Some (CTime dates) ->
     numeric_weather_cols wx <> [] ->
     exists keys,
       get (weather_aggregate wx) "DATE" = Some (CTime (map Some keys)) /\
       NoDup keys /\
       (forall k, In k keys <-> In (Some k) dates) /\
       forall name c, get wx name = Some c -> is_numeric c = true ->
         exists means,
           get (weather_aggregate wx) name = Some (CFloat means) /\
           List.length means = List.length keys /\
           forall i k, nth_error keys i = Some k ->
             nth_error means i = Some (mean_spec (values_on k dates (values c))))
  /\
  (numeric_weather_cols wx = [] \/ get wx "DATE" = None -> weather_aggregate wx = wx).
Proof.
  split;
    [|intros [H|H]; unfold weather_aggregate; rewrite H;
      [reflexivity | destruct (numeric_weather_cols wx); reflexivity]].
  intros dates Hwf Hdate Hnum. exists (group_keys dates).
  unfold weather_aggregate. rewrite Hdate.
  destruct (numeric_weather_cols wx) as [|n0 names] eqn:Hnames; [congruence|].
  rewrite <- Hnames. unfold aggregate.
  split; [reflexivity|].
  destruct (group_keys_spec dates) as [Hnd Hin].
  split; [exact Hnd|]. split; [exact Hin|].
  intros name c Hget Hc.
  assert (Hne : String.eqb "DATE" name = false).
  { destruct (String.eqb_spec "DATE" name) as [<-|]; [|reflexivity].
    rewrite Hdate in Hget. injection Hget as <-. discriminate. }
  assert (Hlen : List.length (values c) = List.length dates).
  { rewrite (values_length c Hc), (wf_frame_get wx name c Hwf Hget).
    rewrite <- (wf_frame_get wx "DATE" _ Hwf Hdate). apply col_len_time. }
  eexists. split.
  - rewrite get_cons, Hne.
    rewrite (get_named _ (fun n => CFloat (map snd (group_mean dates (column_values wx n)))))
      by (eapply numeric_col_listed; eassumption).
    unfold column_values. rewrite Hget. reflexivity.
  - split.
    + rewrite <- (group_sums_keys dates (values c) Hlen).
      unfold group_mean. rewrite !length_map. reflexivity.
    + intros i k Hk. apply group_mean_nth; assumption.
Qed.

End WeatherClaims.

(** ** Merge *)

Section MergeClaims.

Lemma key_eqb_eq (a b : option Z) : key_eqb a b = true <-> a = b.
Proof.
  destruct a as [x|], b as [y|]; simpl; try (split; [discriminate|discriminate]).
  - rewrite Z.eqb_eq. split; congruence.
  - split; reflexivity.
Qed.

Lemma positions_spec (k : option Z) (rk : list (option Z)) (s j : nat) :
  In j (positions k rk s) <-> (s <= j)%nat /\ nth_error rk (j - s) = Some k.
Proof.
  revert s. induction rk as [|k' rk IH]; intros s; simpl.
  - split; [contradiction|]. intros [_ H]. destruct (j - s)%nat; discriminate.
  - assert (Hrest : In j (positions k rk (S s)) <->
                    (S s <= j)%nat /\ nth_error (k' :: rk) (j - s) = Some k).
    { rewrite IH. split; intros [Hle Hn]; split; try lia.
      - replace (j - s)%nat with (S (j - S s)) by lia. exact Hn.
      - replace (j - s)%nat with (S (j - S s)) in Hn by lia. exact Hn. }
    destruct (key_eqb k k') eqn:E.
    + apply key_eqb_eq in E. subst k'. simpl. rewrite Hrest. split.
      * intros [<-|[Hle Hn]]; [|split; [lia|exact Hn]].
        split; [lia|]. rewrite Nat.sub_diag. reflexivity.
      * intros [Hle Hn]. destruct (Nat.eq_dec s j) as [->|Hne]; [left; reflexivity|].
        right. split; [lia|exact Hn].
    + rewrite Hrest. split; intros [Hle Hn]; split; try lia; try exact Hn.
      destruct (Nat.eq_dec s j) as [->|Hne]; [|lia].
      rewrite Nat.sub_diag in Hn. simpl in Hn. injection Hn as ->.
      assert (key_eqb k k = true) by (apply key_eqb_eq; reflexivity). congruence.
Qed.

Lemma positions_none (k : option Z) (rk : list (option Z)) (s : nat) :
  ~ In k rk -> positions k rk s = [].
Proof.
  intros Hk. destruct (positions k rk s) as [|j js] eqn:E; [reflexivity|].
  exfalso. apply Hk.
  assert (Hj : In j (positions k rk s)) by (rewrite E; left; reflexivity).
  apply positions_spec in Hj as [_ Hn]. eapply nth_error_In; exact Hn.
Qed.

Lemma positions_nodup (k : option Z) (rk : list (option Z)) (s : nat) :
  NoDup rk -> positions k rk s = [] \/ exists j, positions k rk s = [j].
Proof.
  revert s. induction rk as [|k' rk IH]; intros s Hnd; simpl; [left; reflexivity|].
  inversion Hnd as [|? ? Hnotin Hnd']; subst.
  destruct (key_eqb k k') eqn:E; [|apply IH, Hnd'].
  apply key_eqb_eq in E. subst k'. right. exists s.
  rewrite (positions_none k rk (S s) Hnotin). reflexivity.
Qed.

Lemma in_combine_seq {A : Type} (l : list A) (s i : nat) (a : A) :
  In (i, a) (combine (seq s (List.length l)) l) ->
  (s <= i)%nat /\ nth_error l (i - s) = Some a.
Proof.
  revert s. induction l as [|x l IH]; intros s; simpl; [contradiction|].
  intros [[= <- <-]|H].
  - split; [lia|]. rewrite Nat.sub_diag. reflexivity.
  - apply IH in H as [Hle Hn]. split; [lia|].
    replace (i - s)%nat with (S (i - S s)) by lia. exact Hn.
Qed.

(** Every row of the join pairs a left row with a right row of the same
    date, or with none when no right row has that date. *)
Lemma join_rows_spec (lk rk : list (option Z)) (i : nat) (o : option nat) :
  In (i, o) (join_rows lk rk) ->
  exists k, nth_error lk i = Some k /\
            match o with
            | Some j => nth_error rk j = Some k
            | None => ~ In k rk
            end.
Proof.
  unfold join_rows. intros H. apply in_flat_map in H as ([i' k] & Hin & Hrow).
  apply in_combine_seq in Hin as [_ Hn]. rewrite Nat.sub_0_r in Hn.
  unfold join_row in Hrow. simpl in Hrow.
  destruct (positions k rk 0) as [|j js] eqn:E.
  - destruct Hrow as [[= <- <-]|[]]. exists k. split; [exact Hn|].
    intros Hk. apply In_nth_error in Hk as [j Hj].
    assert (Hp : In j (positions k rk 0))
      by (apply positions_spec; rewrite Nat.sub_0_r; split; [lia|exact Hj]).
    rewrite E in Hp. exact Hp.
  - assert (Hrow' : In (i, o) (map (fun j0 => (i', Some j0)) (j :: js))) by exact Hrow.
    apply in_map_iff in Hrow' as (j' & [= <- <-] & Hj). rewrite <- E in Hj.
    apply positions_spec in Hj as [_ Hj]. rewrite Nat.sub_0_r in Hj.
    exists k. split; assumption.
Qed.

Lemma join_rows_nodup (lk rk : list (option Z)) :
  NoDup rk -> map fst (join_rows lk rk) = seq 0 (List.length lk).
Proof.
  intros Hnd. unfold join_rows. generalize 0%nat as s.
  induction lk as [|k lk IH]; intros s; simpl; [reflexivity|].
  rewrite map_app, IH. unfold join_row at 1. simpl.
  destruct (positions_nodup k rk 0 Hnd) as [->|[j ->]]; reflexivity.
Qed.

Lemma map_nth_seq {A : Type} (l : list A) (d : A) :
  map (fun i => nth i l d) (seq 0 (List.length l)) = l.
Proof.
  induction l as [|a l IH]; simpl; [reflexivity|].
  f_equal. rewrite <- seq_shift, map_map. exact IH.
Qed.

Lemma take_all (c : column) : take (seq 0 (col_len c)) c = c.
Proof.
  unfold col_len. destruct c as [l|l|l|l|l]; simpl; rewrite ?length_map;
    f_equal; apply map_nth_seq.
Qed.

Lemma take_length (idx : list nat) (c : column) : col_len (take idx c) = List.length idx.
Proof.
  unfold col_len. destruct c; simpl; rewrite !length_map; reflexivity.
Qed.

Lemma get_app_left (fl fr : frame) (n : string) (c : column) :
  get fl n = Some c -> get (fl ++ fr)%list n = Some c.
Proof.
  induction fl as [|[m c'] fl IH]; simpl; [discriminate|].
  destruct (String.eqb m n); [trivial|exact IH].
Qed.

Lemma get_map_columns (F : column -> column) (fl : frame) (n : string) :
  get (map (fun nc => (fst nc, F (snd nc))) fl) n = option_map F (get fl n).
Proof.
  induction fl as [|[m c'] fl IH]; simpl; [reflexivity|].
  destruct (String.eqb m n); [reflexivity|exact IH].
Qed.

Lemma forallb_is_some_none {A : Type} (idx : list (option A)) (j : nat) :
  nth_error idx j = Some None -> forallb is_some idx = false.
Proof.
  revert j. induction idx as [|o idx IH]; intros [|j]; simpl; try discriminate.
  - intros [= ->]. reflexivity.
  - intros H. rewrite (IH j H). apply andb_false_r.
Qed.

(** A row without a match is missing in every column taken from the
    right frame. *)
Lemma take_opt_unmatched (idx : list (option nat)) (c : column) (j : nat) :
  nth_error idx j = Some None ->
  exists x, nth_error (cells (take_opt idx c)) j = Some x /\ isna_cell x = true.
Proof.
  intros Hj. pose proof (forallb_is_some_none idx j Hj) as Hf.
  destruct c as [l|l|l|l|l]; simpl; rewrite ?Hf; simpl;
    rewrite ?nth_error_map, ?Hj; simpl; eexists; split; reflexivity.
Qed.

Lemma nodup_map_some {A : Type} (l : list A) : NoDup l -> NoDup (map Some l).
Proof.
  induction 1 as [|a l Hin _ IH]; simpl; constructor; [|exact IH].
  intros H. apply in_map_iff in H as (b & [= ->] & Hb). contradiction.
Qed.

Lemma aggregate_dates_nodup (wx : frame) (dates rk : list (option Z)) :
  get wx "DATE" = Some (CTime dates) ->
  numeric_weather_cols wx <> [] ->
  get (weather_aggregate wx) "DATE" = Some (CTime rk) ->
  NoDup rk.
Proof.
  intros Hd Hn. unfold weather_aggregate. rewrite Hd.
  destruct (numeric_weather_cols wx); [congruence|].
  unfold aggregate. rewrite get_cons. simpl. intros [= <-].
  apply nodup_map_some, group_keys_spec.
Qed.

Lemma in_nth_error_map {A B : Type} (f : A -> B) (l : list A) (j : nat) (b : B) :
  nth_error (map f l) j = Some b -> exists a, nth_error l j = Some a /\ f a = b.
Proof.
  rewrite nth_error_map. destruct (nth_error l j) as [a|]; simpl; [|discriminate].
  intros [= <-]. exists a. split; reflexivity.
Qed.

Lemma positions_length (k : option Z) (rk : list (option Z)) (j : nat) :
  List.length (positions k rk j) = matches k rk.
Proof.
  unfold matches. revert j. induction rk as [|k' rk IH]; intros j; simpl; [reflexivity|].
  destruct (key_eqb k k'); simpl; rewrite IH; reflexivity.
Qed.

Lemma map_fst_pairs {A B : Type} (a : A) (l : list B) :
  map fst (map (fun j => (a, Some j)) l) = repeat a (List.length l).
Proof. induction l as [|b l IH]; simpl; [|rewrite IH]; reflexivity. Qed.

(** The rows of a left join, read on the flight side. *)
Lemma join_rows_copies (lk rk : list (option Z)) :
  map fst (join_rows lk rk) = copies lk rk.
Proof.
  unfold join_rows, copies. generalize (seq 0 (List.length lk)) as idx.
  induction lk as [|k lk IH]; intros [|i idx]; simpl; try reflexivity.
  rewrite map_app, IH. f_equal.
  unfold join_row. cbn [fst snd]. rewrite <- (positions_length k rk 0).
  destruct (positions k rk 0) as [|j js]; [reflexivity|].
  rewrite map_fst_pairs. reflexivity.
Qed.

(** C2, as the code has it.  When the weather side has no date twice, as
    the per-date aggregate has not, the merged table has exactly the rows
    of the flight table, with every flight column as it was.  In every
    merged table a row whose flight date is no date of the weather side is
    missing in all the columns that come from the weather side, and a
    flight row stands once for every weather row of its date (once when
    there is none), so a weather side that holds a date twice, as the raw
    table of lines 138-141 may, repeats the flights of that date. *)
Theorem merge_left_join (fl_small wx_agg : frame) (lk rk : list (option Z)) :
  wf_frame fl_small = true ->
  get fl_small "FL_DATE" = Some (CTime lk) ->
  get wx_agg "DATE" = Some (CTime rk) ->
  exists merged,
    merge_step fl_small wx_agg = Ok merged /\
    (NoDup rk ->
       len merged = len fl_small /\
       forall n c, get fl_small n = Some c -> get merged n = Some c) /\
    (exists dates',
       get merged "FL_DATE" = Some (CTime dates') /\
       forall j k, nth_error dates' j = Some k -> ~ In k rk ->
       forall n c, In (n, c) wx_agg ->
       exists c' x,
         In (suffixed (columns fl_small) n, c') merged /\
         nth_error (cells c') j = Some x /\ isna_cell x = true) /\
    (len merged = List.length (copies lk rk) /\
     forall n c, get fl_small n = Some c ->
                 get merged n = Some (take (copies lk rk) c)) /\
    (forall wx dates,
       wx_agg = weather_aggregate wx ->
       get wx "DATE" = Some (CTime dates) ->
       numeric_weather_cols wx <> [] ->
       NoDup rk).
Proof.
  intros Hwf Hl Hr. unfold merge_step. rewrite Hl, Hr.
  eexists. split; [reflexivity|]. unfold merge_left.
  pose proof (join_rows_copies lk rk) as Hcopies.
  set (rows := join_rows lk rk) in *.
  assert (Hlen : List.length lk = len fl_small).
  { rewrite <- (wf_frame_get fl_small _ _ Hwf Hl). symmetry. apply col_len_time. }
  split; [|split; [|split]].
  - intros Hnd.
    assert (Hidx : map fst rows = seq 0 (len fl_small))
      by (unfold rows; rewrite join_rows_nodup by exact Hnd; rewrite Hlen; reflexivity).
    split.
    + destruct fl_small as [|[n0 c0] fl']; [discriminate|].
      simpl. rewrite take_length, Hidx. apply length_seq.
    + intros n c Hg. apply get_app_left. rewrite get_map_columns, Hg. simpl.
      rewrite Hidx, <- (wf_frame_get fl_small n c Hwf Hg), take_all. reflexivity.
  - eexists. split.
    + apply get_app_left. rewrite get_map_columns, Hl. reflexivity.
    + intros j k Hj Hk n c Hin.
      apply in_nth_error_map in Hj as (i & Hi & Hnth).
      apply in_nth_error_map in Hi as ([i' o] & Hrow & Hfst). simpl in Hfst. subst i'.
      assert (Ho : o = None).
      { destruct (join_rows_spec lk rk i o (nth_error_In _ _ Hrow)) as (k' & Hk' & Hm).
        rewrite (nth_error_nth _ _ NaT Hk') in Hnth. subst k'.
        destruct o as [j'|]; [|reflexivity].
        exfalso. apply Hk. eapply nth_error_In. exact Hm. }
      subst o.
      destruct (take_opt_unmatched (map snd rows) c j) as (x & Hx & Hna).
      { rewrite nth_error_map, Hrow. reflexivity. }
      exists (take_opt (map snd rows) c), x. split; [|split; assumption].
      apply in_or_app. right.
      apply (in_map (fun nc => (suffixed (columns fl_small) (fst nc),
                                take_opt (map snd rows) (snd nc))) _ _ Hin).
  - split.
    + destruct fl_small as [|[n0 c0] fl']; [discriminate|].
      simpl. rewrite take_length, Hcopies. reflexivity.
    + intros n c Hg. apply get_app_left. rewrite get_map_columns, Hg. simpl.
      rewrite Hcopies. reflexivity.
  - intros wx dates -> Hd Hn. eapply aggregate_dates_nodup; eassumption.
Qed.

End MergeClaims.

(** C2 as stated fails: a weather table without numeric columns is merged
    as it is, and a flight of a date that it holds twice appears twice. *)
Lemma merge_raw_weather_duplicates_rows :
  weather_aggregate text_weather = text_weather /\
  len one_flight = 1%nat /\
  merge_step one_flight (weather_aggregate text_weather)
  = Ok [("FL_DATE", CTime [Some (midnight 18993); Some (midnight 18993)]);
        ("DEP_DELAY_MIN", CFloat [Fin 5; Fin 5]);
        ("DATE", CTime [Some (midnight 18993); Some (midnight 18993)]);
        ("CONDITIONS", CObj [XStr "rain"; XStr "snow"])]%string.
Proof.
  split; [reflexivity|]. split; reflexivity.
Qed.

Lemma merge_left_join_witness :
  exists merged,
    merge_step two_flights (weather_aggregate daily_weather) = Ok merged /\
    len merged = len two_flights /\
    get merged "TMAX" = Some (CFloat [Fin 55; NaN]).
Proof.
  destruct (merge_left_join two_flights (weather_aggregate daily_weather)
              [Some (midnight 18993); Some (midnight 18994)]
              [Some (midnight 18993); Some (midnight 18995)]
              eq_refl eq_refl eq_refl) as (merged & Hm & Hrows & _ & _ & Hagg).
  exists merged. split; [exact Hm|]. split.
  - apply Hrows. apply (Hagg daily_weather _ eq_refl eq_refl). discriminate.
  - vm_compute in Hm. injection Hm as <-. reflexivity.
Defined.

(** C7 as stated fails: without a numeric column the weather table is kept
    as it is, two rows of one date included; and with a numeric column,
    two observations of one day at different times of day stay two rows. *)
Lemma weather_without_numbers_keeps_dates :
  get (weather_aggregate text_weather) "DATE"
  = Some (CTime [Some (midnight 18993); Some (midnight 18993)]) /\
  (forall lib : Pandas, prepare_weather text_weather = text_weather) /\
  dt_date (midnight 18993 + 12 * ns_hour) = midnight 18993 /\
  forall lib : Pandas,
    prepare_weather halfday_weather
    = [("DATE", CTime [Some (midnight 18993); Some (midnight 18993 + 12 * ns_hour)]);
       ("TMAX", CFloat [Fin 50; Fin 60])]%string.
Proof.
  split; [reflexivity|]. split; [intros lib; reflexivity|].
  split; [reflexivity|]. intros lib. reflexivity.
Qed.

Lemma weather_aggregate_means_witness :
  mean_spec [Fin 50; Fin 60] = Fin 55 /\
  exists keys,
    get (weather_aggregate daily_weather) "DATE" = Some (CTime (map Some keys)) /\
    NoDup keys /\
    (forall k, In k keys <->
       In (Some k) [Some (midnight 18993); Some (midnight 18993); Some (midnight 18995)]) /\
    forall name c, get daily_weather name = Some c -> is_numeric c = true ->
      exists means,
        get (weather_aggregate daily_weather) name = Some (CFloat means) /\
        List.length means = List.length keys /\
        forall i k, nth_error keys i = Some k ->
          nth_error means i
          = Some (mean_spec (values_on k
                   [Some (midnight 18993); Some (midnight 18993); Some (midnight 18995)]
                   (values c))).
Proof.
  split; [reflexivity|].
  apply (proj1 (weather_aggregate_means daily_weather) _ eq_refl eq_refl). discriminate.
Defined.

(** ** The merge keys in the run *)

Section MergeKeys.

Context {lib : Pandas}.

Lemma to_datetime_time (c : column) : is_time (to_datetime c).
Proof. destruct c; simpl; eexists; reflexivity. Qed.

(** After lines 62-65 (and 123-126) the date column is a datetime column
    whenever it exists. *)
Lemma derive_date_time (name : string) (fl : frame) (c : column) :
  get (derive_date name fl) name = Some c -> is_time c.
Proof.
  unfold derive_date.
  destruct (get fl name) as [c0|] eqn:Hn.
  - assert (H : get (set fl name (to_datetime c0)) name = Some c -> is_time c).
    { rewrite get_set, String.eqb_refl. intros [= <-]. apply to_datetime_time. }
    destruct (get fl "YEAR"), (get fl "MONTH"), (get fl "DAY"); exact H.
  - destruct (get fl "YEAR"), (get fl "MONTH"), (get fl "DAY");
      try (rewrite Hn; discriminate).
    rewrite get_set, String.eqb_refl. intros [= <-]. eexists; reflexivity.
Qed.

Lemma get_rename_other (fl : frame) (old new n : string) :
  String.eqb old n = false -> String.eqb new n = false ->
  get (rename fl old new) n = get fl n.
Proof.
  intros Ho Hn. induction fl as [|[m c] fl IH]; simpl; [reflexivity|].
  destruct (String.eqb_spec m old) as [->|Hm].
  - rewrite Hn, Ho. exact IH.
  - rewrite IH. reflexivity.
Qed.

Lemma get_project_some (fl : frame) (names : list string) (n : string) (c : column) :
  get (project fl names) n = Some c -> get fl n = Some c.
Proof.
  induction names as [|m names IH]; simpl; [discriminate|].
  destruct (get fl m) as [c'|] eqn:Hm; [|exact IH].
  simpl. destruct (String.eqb_spec m n) as [<-|]; [|exact IH].
  intros [= <-]. exact Hm.
Qed.

Lemma prepare_flights_date_time (flights_raw fl_small : frame) (c : column) :
  prepare_flights flights_raw = Ok fl_small ->
  get fl_small "FL_DATE" = Some c -> is_time c.
Proof.
  intros Hp.
  destruct (prepare_flights_inv _ _ Hp) as (fl1 & delay & flag & Hfl & _ & _ & ->).
  set (fl0 := convert_time_hour (derive_date "FL_DATE" flights_raw)) in Hfl.
  assert (H0 : forall c, get fl0 "FL_DATE" = Some c -> is_time c).
  { intros c0. unfold fl0, convert_time_hour.
    destruct (get (derive_date "FL_DATE" flights_raw) "TIME_HOUR");
      [rewrite get_set; simpl|]; apply derive_date_time. }
  destruct (add_datetimes_keeps time_map fl0) as (fl' & Hfl' & Hk).
  rewrite Hfl in Hfl'. injection Hfl' as <-.
  intros Hg. apply get_project_some in Hg.
  apply H0. rewrite <- (Hk "FL_DATE"%string eq_refl). revert Hg.
  unfold canonical_airline.
  destruct (has _ "CARRIER" && negb (has _ "AIRLINE"));
    [rewrite get_rename_other by reflexivity|
     destruct (has _ "OP_CARRIER" && negb (has _ "AIRLINE"));
       [rewrite get_rename_other by reflexivity|]];
    rewrite !get_set; simpl; trivial.
Qed.

Lemma prepare_weather_date_time (weather_raw : frame) (c : column) :
  get (prepare_weather weather_raw) "DATE" = Some c -> is_time c.
Proof.
  unfold prepare_weather.
  set (wx0 := derive_date "DATE" weather_raw).
  set (wx := if has wx0 "STATION" && negb (has wx0 "ORIGIN")
             then rename wx0 "STATION" "ORIGIN" else wx0).
  assert (Hwx : forall c, get wx "DATE" = Some c -> is_time c).
  { intros c0. unfold wx.
    destruct (has wx0 "STATION" && negb (has wx0 "ORIGIN"));
      [rewrite get_rename_other by reflexivity|]; apply derive_date_time. }
  unfold weather_aggregate.
  destruct (numeric_weather_cols wx) as [|n0 names]; [apply Hwx|].
  destruct (get wx "DATE") as [[x|x|x|x|x]|] eqn:Hd;
    try (rewrite Hd; exact (Hwx c)).
  unfold aggregate. rewrite get_cons. simpl.
  intros [= <-]. eexists; reflexivity.
Qed.

(** The merge of the run takes one of its two ways (lines 147 and 151)
    and does not raise. *)
Lemma merge_step_in_run (flights_raw weather_raw fl_small : frame) :
  prepare_flights flights_raw = Ok fl_small ->
  exists merged, merge_step fl_small (prepare_weather weather_raw) = Ok merged.
Proof.
  intros Hp. unfold merge_step.
  destruct (get fl_small "FL_DATE") as [c|] eqn:Hl; [|eexists; reflexivity].
  destruct (prepare_flights_date_time _ _ _ Hp Hl) as [lk ->].
  destruct (get (prepare_weather weather_raw) "DATE") as [c|] eqn:Hr;
    [|eexists; reflexivity].
  destruct (prepare_weather_date_time _ _ Hr) as [rk ->]. eexists; reflexivity.
Qed.

(** The scenario of one flight scheduled at 09:00 that leaves at 09:15 on
    a day with a maximum temperature of 70. *)
Example end_to_end :
  pipeline
    [("FL_DATE", CTime [Some march_first]); ("CRS_DEP_TIME", CInt [900]);
     ("DEP_TIME", CInt [915])]%string
    [("DATE", CTime [Some march_first]); ("TMAX", CInt [70])]%string
  = Ok [("FL_DATE", CTime [Some march_first]);
        ("DEP_DELAY_MIN", CFloat [Fin 15]);
        ("CANCELLED_FLAG", CInt [0]);
        ("SCHED_DEP_DATETIME", CTime [Some (march_first + 9 * ns_hour)]);
        ("ACTUAL_DEP_DATETIME", CTime [Some (march_first + 9 * ns_hour + 15 * ns_minute)]);
        ("DATE", CTime [Some march_first]);
        ("TMAX", CFloat [Fin 70]);
        ("YEAR_MONTH", CObj [XInt (period_month march_first)]);
        ("LONG_DELAY_FLAG", CInt [0])]%string.
Proof. reflexivity. Qed.

End MergeKeys.

(** * Further properties *)

(** ** Time reconstruction: shape of the result and the fallback *)

Section TimeShape.

Context {lib : Pandas}.

Lemma assign_length {A : Type} (mask : list bool) (out vals : list A) :
  List.length (assign mask out vals) = List.length out.
Proof.
  revert out vals. induction mask as [|b mask IH]; intros [|o out] vals; simpl;
    try reflexivity.
  destruct b; [destruct vals|]; simpl; rewrite IH; reflexivity.
Qed.

(** X1.  With both series present the call never raises, and its result
    has one entry for each entry of the date series, whatever the dtype of
    the two series and whatever the codes are. *)
Theorem hhmm_same_index (ds ts : column) :
  exists out,
    hhmm_to_datetime (Some ds) (Some ts) = Ok out /\
    List.length out = col_len ds.
Proof.
  unfold hhmm_to_datetime, try_block.
  destruct (astype_int _); [|eexists; split; [reflexivity|apply repeat_length]].
  destruct (astype_int _); [|eexists; split; [reflexivity|apply repeat_length]].
  destruct ds as [x|x|x|x|x];
    try (eexists; split; [reflexivity|apply repeat_length]).
  destruct (_ <? _)%nat; [eexists; split; [reflexivity|apply repeat_length]|].
  destruct (add_offsets _ _ _); eexists; (split; [reflexivity|]).
  - rewrite assign_length. apply repeat_length.
  - apply repeat_length.
Qed.

(** X2.  One row that the mask accepts and that does not convert is
    enough to lose the batch: when the padded code of a row passes
    [str.isdigit] although its first four characters are not all decimal
    digits, every row of the result is missing. *)
Theorem hhmm_unconvertible_row_blanks_batch (ds ts : column) (i : nat) (c : cell) :
  nth_error (cells ts) i = Some c ->
  Text.isdigit (padded c) = true ->
  Text.isdecimal (Text.slice 0 4 (padded c)) = false ->
  hhmm_to_datetime (Some ds) (Some ts) = Ok (repeat NaT (col_len ds)).
Proof.
  intros Hc Hd Hdec. unfold hhmm_to_datetime, try_block.
  assert (Hconv : forallb converts (map padded (cells ts)) = false).
  { apply (unconvertible_row _ i c Hc). unfold converts. rewrite Hd. simpl.
    destruct (undecimal_half _ Hd Hdec) as [-> | ->]; [reflexivity|].
    apply andb_false_r. }
  destruct (try_rows_fail _ Hconv) as [-> | H]; [reflexivity|].
  rewrite H. destruct (astype_int (map (Text.slice 0 2) _)); reflexivity.
Qed.

(** X3.  A row without a date has no timestamp, whatever its code is. *)
Theorem hhmm_missing_date_row (dates : list (option Z)) (ts : column) (i : nat) :
  List.length dates = col_len ts ->
  nth_error dates i = Some NaT ->
  exists out,
    hhmm_to_datetime (Some (CTime dates)) (Some ts) = Ok out /\
    nth_error out i = Some NaT.
Proof.
  intros Hlen Hd. rewrite hhmm_rows by exact Hlen.
  eexists; split; [reflexivity|].
  assert (Hi : (i < List.length dates)%nat)
    by (apply nth_error_Some; rewrite Hd; discriminate).
  destruct (batch_ok _ _).
  - destruct (nth_error (map padded (cells ts)) i) as [s|] eqn:Hs.
    + rewrite (nth_error_map2 _ _ _ _ _ _ Hd Hs). unfold row_out.
      destruct (Text.isdigit s); [|reflexivity].
      destruct (Text.to_int _); [|reflexivity].
      destruct (Text.to_int _); reflexivity.
    + apply nth_error_None in Hs. rewrite length_map in Hs.
      unfold col_len in Hlen. lia.
  - rewrite nth_error_repeat by exact Hi. reflexivity.
Qed.

Lemma add_offsets_days (ds ds' : list (option Z)) (hh mm : list Z) :
  map (option_map dt_date) ds = map (option_map dt_date) ds' ->
  add_offsets ds hh mm = add_offsets ds' hh mm.
Proof.
  revert ds' hh mm. induction ds as [|d ds IH]; intros [|d' ds'] hh mm; simpl;
    try discriminate; [reflexivity|].
  intros [= Hd Hrest]. destruct hh as [|h hh]; [reflexivity|].
  destruct mm as [|m mm]; [reflexivity|].
  rewrite (IH ds' hh mm Hrest).
  assert (Hs : stamp d h m = stamp d' h m).
  { destruct d as [t|], d' as [t'|]; simpl in *; try discriminate; [|reflexivity].
    injection Hd as ->. reflexivity. }
  rewrite Hs. reflexivity.
Qed.

(** X4.  Only the day of a date counts: two date series that agree on the
    day of every row, and on which rows are missing, give the same
    timestamps, so a time of day carried by the date column is dropped. *)
Theorem hhmm_ignores_time_of_day (dates dates' : list (option Z))
    (time_series : option column) :
  map (option_map dt_date) dates = map (option_map dt_date) dates' ->
  hhmm_to_datetime (Some (CTime dates)) time_series
  = hhmm_to_datetime (Some (CTime dates')) time_series.
Proof.
  intros Hd.
  assert (Hlen : List.length dates = List.length dates').
  { apply (f_equal (@List.length _)) in Hd. rewrite !length_map in Hd. exact Hd. }
  destruct time_series as [ts|]; simpl; rewrite !col_len_time, Hlen; [|reflexivity].
  unfold try_block. rewrite Hlen.
  destruct (astype_int _); [|reflexivity].
  destruct (astype_int _); [|reflexivity].
  match goal with |- context [add_offsets (select ?m dates) ?h ?n] =>
    rewrite (add_offsets_days (select m dates) (select m dates') h n)
  end; [reflexivity|].
  rewrite !select_map, Hd. reflexivity.
Qed.

End TimeShape.

Lemma hhmm_unconvertible_row_blanks_batch_witness :
  Text.isdigit (Text.zfill 4 superscript_two) = true /\
  forall lib : Pandas,
    hhmm_to_datetime (Some (CTime [Some march_first; Some march_first; NaT]))
      (Some (CObj [XStr "0530"; XStr "1200"; XStr superscript_two]))
    = Ok [NaT; NaT; NaT].
Proof.
  split; [reflexivity|]. intros lib.
  apply (hhmm_unconvertible_row_blanks_batch
           (CTime [Some march_first; Some march_first; NaT])
           (CObj [XStr "0530"; XStr "1200"; XStr superscript_two])
           2 (XStr superscript_two)); reflexivity.
Defined.

Lemma hhmm_missing_date_row_witness :
  Text.isdigit (Text.zfill 4 "1200") = true /\
  forall lib : Pandas,
  exists out,
    hhmm_to_datetime (Some (CTime [Some march_first; NaT])) (Some (CInt [530; 1200]))
    = Ok out /\ nth_error out 1 = Some NaT.
Proof.
  split; [reflexivity|]. intros lib.
  apply (hhmm_missing_date_row [Some march_first; NaT] (CInt [530; 1200]) 1);
    reflexivity.
Defined.

Lemma hhmm_ignores_time_of_day_witness :
  march_first / ns_day = (march_first + 7 * ns_hour) / ns_day /\
  forall lib : Pandas,
    hhmm_to_datetime (Some (CTime [Some (march_first + 7 * ns_hour)])) (Some (CInt [530]))
    = hhmm_to_datetime (Some (CTime [Some march_first])) (Some (CInt [530])).
Proof.
  split; [reflexivity|]. intros lib.
  apply (hhmm_ignores_time_of_day [Some (march_first + 7 * ns_hour)] [Some march_first]).
  reflexivity.
Defined.

(** ** Time reconstruction: the text forms of a code *)

Section CodeForms.

Context {lib : Pandas}.

Lemma uint_chars_decimal (d : Decimal.uint) :
  Text.all_chars Text.is_decimal_char (NilEmpty.string_of_uint d) = true.
Proof. induction d; simpl; trivial. Qed.

Lemma nilzero_chars_decimal (d : Decimal.uint) :
  Text.all_chars Text.is_decimal_char (NilZero.string_of_uint d) = true.
Proof.
  unfold NilZero.string_of_uint. destruct d; try reflexivity;
    apply (uint_chars_decimal (_ d)).
Qed.

(** The text of an integer: decimal digits, after a minus sign when the
    integer is negative. *)
Lemma of_int_form (z : Z) :
  exists s, Text.all_chars Text.is_decimal_char s = true /\
            Text.of_int z = if z <? 0 then String "-" s else s.
Proof.
  destruct z as [|p|p].
  - exists "0"%string. split; reflexivity.
  - exists (NilZero.string_of_uint (Pos.to_uint p)).
    split; [apply nilzero_chars_decimal|reflexivity].
  - exists (NilZero.string_of_uint (Pos.to_uint p)).
    split; [apply nilzero_chars_decimal|reflexivity].
Qed.

Lemma cut_dot_zeros_needs_dot (r : list ascii) :
  forallb no_dot r = true -> Text.cut_dot_zeros r = None.
Proof.
  unfold Text.cut_dot_zeros. destruct r as [|c r]; [reflexivity|]. simpl.
  intros H. apply andb_true_iff in H as [_ H].
  destruct (Ascii.eqb c "0"); [|reflexivity].
  induction r as [|x r IH]; simpl in *; [reflexivity|].
  apply andb_true_iff in H as [Hx H].
  destruct (Ascii.eqb x "0"); [apply IH, H|].
  unfold no_dot in Hx. destruct (Ascii.eqb x "."); [discriminate|reflexivity].
Qed.

Lemma forallb_chars (p : ascii -> bool) (s : string) :
  forallb p (list_ascii_of_string s) = Text.all_chars p s.
Proof. induction s as [|c s IH]; simpl; [|rewrite IH]; reflexivity. Qed.

(** The replacement of line 33 leaves a text without a dot as it is. *)
Lemma strip_without_dot (s : string) :
  Text.all_chars no_dot s = true -> Text.strip_dot_zeros s = s.
Proof.
  intros H. unfold Text.strip_dot_zeros.
  assert (Hr : forallb no_dot (rev (list_ascii_of_string s)) = true).
  { rewrite forallb_forall. intros x Hx. apply in_rev in Hx.
    rewrite <- forallb_chars, forallb_forall in H. apply H, Hx. }
  rewrite (cut_dot_zeros_needs_dot _ Hr).
  destruct (rev (list_ascii_of_string s)) as [|c r]; [reflexivity|].
  destruct (Ascii.eqb c Text.newline); [|reflexivity].
  simpl in Hr. apply andb_true_iff in Hr as [_ Hr].
  rewrite (cut_dot_zeros_needs_dot _ Hr). reflexivity.
Qed.

Lemma list_ascii_app (s t : string) :
  list_ascii_of_string (s ++ t) = (list_ascii_of_string s ++ list_ascii_of_string t)%list.
Proof. induction s as [|c s IH]; simpl; [|rewrite IH]; reflexivity. Qed.

(** It removes a final [.0]. *)
Lemma strip_point_zero (s : string) : Text.strip_dot_zeros (s ++ ".0") = s.
Proof.
  unfold Text.strip_dot_zeros. rewrite list_ascii_app, rev_app_distr. simpl.
  rewrite rev_involutive. apply string_of_list_ascii_of_string.
Qed.

Lemma decimal_no_dot (s : string) :
  Text.all_chars Text.is_decimal_char s = true -> Text.all_chars no_dot s = true.
Proof.
  induction s as [|c s IH]; simpl; [reflexivity|].
  intros H. apply andb_true_iff in H as [Hc Hs]. rewrite (IH Hs), andb_true_r.
  unfold no_dot. destruct (Ascii.eqb_spec c "."); [subst c; discriminate|reflexivity].
Qed.

Lemma strip_of_int (z : Z) : Text.strip_dot_zeros (Text.of_int z) = Text.of_int z.
Proof.
  apply strip_without_dot. destruct (of_int_form z) as (s & Hs & ->).
  destruct (z <? 0); simpl; apply decimal_no_dot, Hs.
Qed.

Lemma float_str_whole (z : Z) :
  Z.abs z < 10 ^ 16 ->
  float_str (Fin (inject_Z z)) = (Text.of_int z ++ ".0")%string.
Proof.
  intros Hz. apply Z.ltb_lt in Hz.
  unfold float_str, is_whole. rewrite Qred_inject_Z.
  unfold inject_Z; cbn [Qnum Qden]. rewrite Hz. reflexivity.
Qed.

Lemma rejected_row_missing (dates : list (option Z)) (ts : column) (i : nat) (c : cell) :
  List.length dates = col_len ts ->
  nth_error (cells ts) i = Some c ->
  Text.isdigit (padded c) = false ->
  exists out,
    hhmm_to_datetime (Some (CTime dates)) (Some ts) = Ok out /\
    nth_error out i = Some NaT.
Proof.
  intros Hlen Hc Hrej. rewrite hhmm_rows by exact Hlen.
  eexists; split; [reflexivity|].
  assert (Hi : (i < List.length dates)%nat).
  { rewrite Hlen. unfold col_len. apply nth_error_Some. rewrite Hc. discriminate. }
  destruct (batch_ok dates (map padded (cells ts))).
  - destruct (nth_error dates i) as [d|] eqn:Hd;
      [| apply nth_error_None in Hd; lia].
    erewrite nth_error_map2; [| exact Hd | apply map_nth_error; exact Hc].
    unfold row_out. rewrite Hrej. reflexivity.
  - rewrite nth_error_repeat by exact Hi. reflexivity.
Qed.

(** X5.  A float code holding a whole number prints with [.0], which line
    33 removes: it has the padded form of the integer code, and a float
    column of whole codes gives the timestamps of the integer column.
    The zero of such a column is the positive one: the negative zero
    prints as [-0.0], keeps its sign through the padding, and its row has
    no timestamp. *)
Theorem hhmm_whole_float_codes (date_series : option column) (codes : list Z) :
  Forall (fun z => Z.abs z < 10 ^ 16) codes ->
  map padded (cells (CFloat (map (fun z => Fin (inject_Z z)) codes)))
  = map padded (cells (CInt codes)) /\
  hhmm_to_datetime date_series (Some (CFloat (map (fun z => Fin (inject_Z z)) codes)))
  = hhmm_to_datetime date_series (Some (CInt codes)) /\
  (forall dates ts i,
     List.length dates = col_len ts ->
     nth_error (cells ts) i = Some (XFloat NZero) ->
     exists out,
       hhmm_to_datetime (Some (CTime dates)) (Some ts) = Ok out /\
       nth_error out i = Some NaT).
Proof.
  intros Hz.
  assert (Hp : map padded (cells (CFloat (map (fun z => Fin (inject_Z z)) codes)))
               = map padded (cells (CInt codes))).
  { simpl. rewrite !map_map. apply map_ext_Forall.
    eapply Forall_impl; [|exact Hz]. simpl. intros z Hlt.
    unfold padded, astype_str.
    rewrite (float_str_whole z Hlt), strip_point_zero, strip_of_int.
    reflexivity. }
  split; [exact Hp|]. split.
  - destruct date_series as [ds|]; [|reflexivity].
    unfold hhmm_to_datetime. rewrite Hp. reflexivity.
  - intros dates ts i Hlen Hc.
    apply (rejected_row_missing dates ts i (XFloat NZero) Hlen Hc). reflexivity.
Qed.

Lemma zfill_signed (s : string) (w : nat) :
  Text.isdigit (Text.zfill w (String "-" s)) = false.
Proof. reflexivity. Qed.

(** X6.  A negative integer code keeps its minus sign through the padding
    and is no digit text: its row has no timestamp. *)
Theorem hhmm_negative_code_missing (dates : list (option Z)) (ts : column)
    (i : nat) (z : Z) :
  List.length dates = col_len ts ->
  nth_error (cells ts) i = Some (XInt z) ->
  z < 0 ->
  exists out,
    hhmm_to_datetime (Some (CTime dates)) (Some ts) = Ok out /\
    nth_error out i = Some NaT.
Proof.
  intros Hlen Hc Hz. apply (rejected_row_missing dates ts i (XInt z) Hlen Hc).
  unfold padded. simpl. rewrite strip_of_int.
  destruct (of_int_form z) as (s & _ & ->).
  replace (z <? 0) with true by (symmetry; apply Z.ltb_lt; exact Hz).
  apply zfill_signed.
Qed.

Lemma long_code_same (h1 h2 m1 m2 : Z) (rest : string) (d : option Z) :
  is_digit h1 -> is_digit h2 -> is_digit m1 -> is_digit m2 ->
  Text.all_chars Text.is_digit_char rest = true ->
  converts (digits4 h1 h2 m1 m2 ++ rest) = true /\
  fits d (digits4 h1 h2 m1 m2 ++ rest) = fits d (digits4 h1 h2 m1 m2) /\
  row_out d (digits4 h1 h2 m1 m2 ++ rest) = row_out d (digits4 h1 h2 m1 m2).
Proof.
  intros D1 D2 D3 D4 Hrest.
  pose proof (digits4_isdigit h1 h2 m1 m2 D1 D2 D3 D4) as Hd.
  pose proof (digits4_hour h1 h2 m1 m2 D1 D2) as Hh.
  pose proof (digits4_minute h1 h2 m1 m2 D3 D4) as Hm.
  assert (Hd' : Text.isdigit (digits4 h1 h2 m1 m2 ++ rest) = true).
  { unfold Text.isdigit, digits4 in *. simpl in *.
    repeat match goal with
    | H : context [Text.is_digit_char ?x] |- context [Text.is_digit_char ?x] =>
        destruct (Text.is_digit_char x); simpl in *; try discriminate
    end. exact Hrest. }
  assert (Hh' : Text.slice 0 2 (digits4 h1 h2 m1 m2 ++ rest)
                = Text.slice 0 2 (digits4 h1 h2 m1 m2)) by reflexivity.
  assert (Hm' : Text.slice 2 4 (digits4 h1 h2 m1 m2 ++ rest)
                = Text.slice 2 4 (digits4 h1 h2 m1 m2)) by (destruct rest; reflexivity).
  unfold converts, fits, row_out. rewrite Hd', Hd, Hh', Hm', Hh, Hm.
  repeat split.
Qed.

(** X7.  Only the first four characters of a digit code are read: a row
    whose padded code is the decimal digits [h1 h2 m1 m2] followed by
    more digits holds, when the [try] of lines 36-40 succeeds on its
    batch, the date at hour [10*h1+h2] and minute [10*m1+m2], and the
    remaining digits play no part; otherwise every row of the batch is
    missing.  A batch of this one row succeeds for every date from
    1677-09-22 to 2262-04-07. *)
Theorem hhmm_long_code (day h1 h2 m1 m2 : Z) (rest : string) (c : cell)
    (dates : list (option Z)) (ts : column) (i : nat) :
  is_digit h1 -> is_digit h2 -> is_digit m1 -> is_digit m2 ->
  Text.all_chars Text.is_digit_char rest = true ->
  padded c = (digits4 h1 h2 m1 m2 ++ rest)%string ->
  List.length dates = col_len ts ->
  nth_error dates i = Some (Some (midnight day)) ->
  nth_error (cells ts) i = Some c ->
  exists out,
    hhmm_to_datetime (Some (CTime dates)) (Some ts) = Ok out /\
    (batch_ok dates (map padded (cells ts)) = true ->
     nth_error out i
     = Some (Some (midnight day + (10 * h1 + h2) * ns_hour + (10 * m1 + m2) * ns_minute)))
    /\
    (batch_ok dates (map padded (cells ts)) = false ->
     out = repeat NaT (List.length dates)) /\
    (List.length dates = 1%nat -> - 106751 <= day <= 106747 ->
     batch_ok dates (map padded (cells ts)) = true).
Proof.
  intros D1 D2 D3 D4 Hrest Hp Hlen Hd Hc.
  destruct (long_code_same h1 h2 m1 m2 rest (Some (midnight day)) D1 D2 D3 D4 Hrest)
    as (Hconv & Hfit & Hrow).
  destruct (hhmm_batch_row dates ts i _ c Hlen Hd Hc) as (out & Hout & Hok & Hbad).
  exists out. split; [exact Hout|]. split; [|split; [exact Hbad|]].
  - intros Hb. rewrite (Hok Hb), Hp, Hrow, digits4_row by assumption.
    unfold at_time. rewrite dt_date_midnight. reflexivity.
  - intros Hone Hday.
    apply (single_row_batch dates ts i _ c Hlen Hd Hc Hone); rewrite Hp.
    + exact Hconv.
    + rewrite Hfit, digits4_fits by assumption.
      apply day_in_range; unfold is_digit in *; lia.
Qed.

End CodeForms.

Lemma hhmm_whole_float_codes_witness :
  Z.abs 530 < 10 ^ 16 /\
  forall lib : Pandas,
    hhmm_to_datetime (Some (CTime [Some march_first; Some march_first]))
      (Some (CFloat [Fin 530; Fin 0]))
    = hhmm_to_datetime (Some (CTime [Some march_first; Some march_first]))
        (Some (CInt [530; 0])) /\
    exists out,
      hhmm_to_datetime (Some (CTime [Some march_first; Some march_first]))
        (Some (CFloat [Fin 530; NZero])) = Ok out /\
      nth_error out 1 = Some NaT.
Proof.
  split; [reflexivity|]. intros lib.
  destruct (hhmm_whole_float_codes (Some (CTime [Some march_first; Some march_first]))
              [530; 0]) as (_ & Hsame & Hneg); [repeat constructor|].
  split; [exact Hsame|].
  apply (Hneg [Some march_first; Some march_first] (CFloat [Fin 530; NZero]) 1%nat);
    reflexivity.
Defined.

Lemma hhmm_negative_code_missing_witness :
  -5 < 0 /\
  forall lib : Pandas,
  exists out,
    hhmm_to_datetime (Some (CTime [Some march_first; Some march_first]))
      (Some (CInt [530; -5])) = Ok out /\
    nth_error out 1 = Some NaT.
Proof.
  split; [reflexivity|]. intros lib.
  apply (hhmm_negative_code_missing [Some march_first; Some march_first]
           (CInt [530; -5]) 1 (-5)); reflexivity.
Defined.

Lemma hhmm_long_code_witness :
  String.length (Text.zfill 4 "12345") = 5%nat /\
  forall lib : Pandas,
  exists out,
    hhmm_to_datetime (Some (CTime [Some march_first; Some march_first]))
      (Some (CInt [530; 12345])) = Ok out /\
    nth_error out 1 = Some (Some (march_first + 12 * ns_hour + 34 * ns_minute)).
Proof.
  split; [reflexivity|]. intros lib. unfold march_first.
  destruct (hhmm_long_code 19052 1 2 3 4 "5" (XInt 12345)
              [Some (midnight 19052); Some (midnight 19052)] (CInt [530; 12345]) 1)
    as (out & Hout & Hok & _); unfold is_digit; try lia; try reflexivity.
  exists out. split; [exact Hout|]. apply Hok. reflexivity.
Defined.

(** ** Flight normaliser: the prepared table *)

Section PreparedFlights.

Context {lib : Pandas}.

Lemma columns_project (fl : frame) (names : list string) :
  columns (project fl names) = filter (has fl) names.
Proof.
  unfold columns, has. induction names as [|n names IH]; simpl; [reflexivity|].
  destruct (get fl n); simpl; rewrite IH; reflexivity.
Qed.

Lemma get_project (fl : frame) (names : list string) (n : string) :
  In n names -> get (project fl names) n = get fl n.
Proof.
  induction names as [|m names IH]; simpl; [contradiction|].
  intros Hin. destruct (String.eqb_spec m n) as [->|Hne].
  - destruct (get fl n) eqn:E; simpl; [rewrite String.eqb_refl; reflexivity|].
    apply get_project_none, E.
  - destruct Hin as [H|H]; [congruence|].
    destruct (get fl m); simpl; [|apply IH, H].
    destruct (String.eqb_spec m n); [congruence|apply IH, H].
Qed.

Lemma filter_idem {A : Type} (f : A -> bool) (l : list A) :
  filter f (filter f l) = filter f l.
Proof.
  induction l as [|a l IH]; simpl; [reflexivity|].
  destruct (f a) eqn:E; simpl; rewrite ?E, IH; reflexivity.
Qed.

Lemma filter_has_in (fl : frame) (names : list string) (n : string) :
  In n (filter (has fl) names) -> In n names.
Proof. intros H. apply filter_In in H. apply H. Qed.

(** What the steps of lines 59-111 leave in a column that they neither
    write nor rename. *)
Lemma prepared_get (flights_raw : frame) (n : string) :
  existsb (String.eqb n)
    ["FL_DATE"; "TIME_HOUR"; "SCHED_DEP_DATETIME"; "ACTUAL_DEP_DATETIME";
     "SCHED_ARR_DATETIME"; "ACTUAL_ARR_DATETIME"; "DEP_DELAY_MIN";
     "CANCELLED_FLAG"; "CARRIER"; "OP_CARRIER"; "AIRLINE"]%string = false ->
  forall fl delay flag,
    add_datetimes time_map (convert_time_hour (derive_date "FL_DATE" flights_raw)) = Ok fl ->
    get (canonical_airline
           (set (set fl "DEP_DELAY_MIN" delay) "CANCELLED_FLAG" flag)) n
    = get flights_raw n.
Proof.
  intros Hn fl delay flag Hfl. simpl in Hn.
  repeat (apply orb_false_iff in Hn as [? Hn]).
  assert (Hsame : get (convert_time_hour (derive_date "FL_DATE" flights_raw)) n
               = get flights_raw n).
  { unfold convert_time_hour, derive_date.
    repeat match goal with
    | |- context [match get ?f ?k with _ => _ end] => destruct (get f k)
    end; rewrite ?get_set;
    repeat match goal with
    | H : String.eqb n ?k = false |- context [String.eqb ?k n] =>
        rewrite (String.eqb_sym k n), H
    end; reflexivity. }
  destruct (add_datetimes_keeps time_map
              (convert_time_hour (derive_date "FL_DATE" flights_raw)))
    as (fl' & Hfl' & Hk).
  rewrite Hfl in Hfl'. injection Hfl' as <-.
  rewrite <- Hsame, <- (Hk n)
    by (simpl; repeat match goal with
                      | H : String.eqb n ?k = false |- _ => rewrite H; clear H
                      end; reflexivity).
  unfold canonical_airline.
  destruct (has _ "CARRIER" && negb (has _ "AIRLINE"));
    [|destruct (has _ "OP_CARRIER" && negb (has _ "AIRLINE"))];
    rewrite ?get_rename_other, !get_set;
    repeat match goal with
    | H : String.eqb n ?k = false |- context [String.eqb ?k n] =>
        rewrite (String.eqb_sym k n), H
    end; try reflexivity;
    match goal with
    | H : String.eqb n ?k = false |- String.eqb ?k n = false =>
        rewrite String.eqb_sym; exact H
    end.
Qed.

(** X8.  The prepared flight table holds exactly the names of the fixed
    list that it has, in the order of the list and each once; the delay
    and the cancellation flag are always among them; and the columns that
    no step writes (tail number, flight number, origin, destination,
    arrival delay, distance) are those of the raw table, unchanged. *)
Theorem prepare_flights_columns (flights_raw fl_small : frame) :
  prepare_flights flights_raw = Ok fl_small ->
  columns fl_small = filter (has fl_small) useful /\
  NoDup (columns fl_small) /\
  has fl_small "DEP_DELAY_MIN" = true /\
  has fl_small "CANCELLED_FLAG" = true /\
  forall n, In n ["TAIL_NUM"; "FL_NUM"; "ORIGIN"; "DEST"; "ARR_DELAY"; "DISTANCE"]%string ->
            get fl_small n = get flights_raw n.
Proof.
  intros Hp.
  destruct (prepare_flights_inv _ _ Hp) as (fl & delay & flag & Hfl & _ & _ & ->).
  set (fl2 := canonical_airline _).
  assert (Hhas : forall n, In n useful -> has (project fl2 (filter (has fl2) useful)) n
                                          = has fl2 n).
  { intros n Hn. unfold has at 1 3.
    destruct (get fl2 n) eqn:E.
    - rewrite get_project; [rewrite E; reflexivity|].
      apply filter_In. split; [exact Hn|]. unfold has. rewrite E. reflexivity.
    - rewrite (get_project_none _ _ _ E). reflexivity. }
  assert (Hset : forall n, In n ["DEP_DELAY_MIN"; "CANCELLED_FLAG"]%string ->
                           has fl2 n = true).
  { intros n Hn. unfold fl2, canonical_airline.
    destruct (has _ "CARRIER" && negb (has _ "AIRLINE"));
      [|destruct (has _ "OP_CARRIER" && negb (has _ "AIRLINE"))];
      unfold has; simpl in Hn; destruct Hn as [<-|[<-|[]]];
      rewrite ?get_rename_other by reflexivity; rewrite !get_set; reflexivity. }
  assert (Hpass : forall n,
            In n ["TAIL_NUM"; "FL_NUM"; "ORIGIN"; "DEST"; "ARR_DELAY"; "DISTANCE"]%string ->
            get fl2 n = get flights_raw n).
  { intros n Hn. unfold fl2. apply prepared_get; [|exact Hfl].
    simpl in Hn. repeat (destruct Hn as [<-|Hn]; [reflexivity|]). contradiction. }
  clearbody fl2. clear Hp.
  split; [|split; [|split; [|split]]].
  - rewrite columns_project.
    assert (H : forall names, incl names useful ->
              filter (has fl2) names
              = filter (has (project fl2 (filter (has fl2) useful))) names).
    { induction names as [|n names IH]; intros Hincl; cbn [filter]; [reflexivity|].
      rewrite (Hhas n) by (apply Hincl; left; reflexivity).
      rewrite IH by (intros x Hx; apply Hincl; right; exact Hx). reflexivity. }
    rewrite filter_idem. apply H, incl_refl.
  - rewrite columns_project. do 2 apply NoDup_filter.
    unfold useful.
    repeat (constructor;
            [simpl; intros H; repeat (destruct H as [H|H]; [discriminate H|]); exact H|]).
    constructor.
  - rewrite Hhas; [apply Hset|]; simpl; auto 12.
  - rewrite Hhas; [apply Hset|]; simpl; auto 12.
  - intros n Hn.
    assert (Hu : In n useful) by (simpl in Hn; unfold useful; simpl; intuition).
    pose proof (Hpass n Hn) as Hraw.
    destruct (get fl2 n) eqn:E.
    + rewrite get_project; [congruence|].
      apply filter_In. split; [exact Hu|]. unfold has. rewrite E. reflexivity.
    + rewrite (get_project_none _ _ _ E). exact Hraw.
Qed.

(** X9.  An explicit [DEP_DELAY] column decides the delay whatever the
    time columns hold: the prepared delay is that column read as numbers. *)
Theorem explicit_delay_wins (flights_raw fl_small : frame) (c : column) :
  get flights_raw "DEP_DELAY" = Some c ->
  prepare_flights flights_raw = Ok fl_small ->
  get fl_small "DEP_DELAY_MIN" = Some (to_numeric c).
Proof.
  intros Hc Hp.
  destruct (prepare_flights_inv _ _ Hp) as (fl & delay & flag & Hfl & Hdelay & _ & ->).
  assert (Hd : get fl "DEP_DELAY" = Some c).
  { destruct (add_datetimes_keeps time_map
                (convert_time_hour (derive_date "FL_DATE" flights_raw)))
      as (fl' & Hfl' & Hk).
    rewrite Hfl in Hfl'. injection Hfl' as <-.
    rewrite (Hk "DEP_DELAY"%string eq_refl), <- Hc.
    unfold convert_time_hour, derive_date.
    repeat match goal with
    | |- context [match get ?f ?k with _ => _ end] => destruct (get f k)
    end; rewrite ?get_set; reflexivity. }
  unfold DEP_DELAY_MIN in Hdelay. rewrite Hd in Hdelay. apply Ok_inj in Hdelay.
  subst delay.
  set (fl2 := canonical_airline _).
  assert (H2 : get fl2 "DEP_DELAY_MIN" = Some (to_numeric c)).
  { unfold fl2, canonical_airline.
    destruct (has _ "CARRIER" && negb (has _ "AIRLINE"));
      [|destruct (has _ "OP_CARRIER" && negb (has _ "AIRLINE"))];
      rewrite ?get_rename_other by reflexivity; rewrite !get_set; reflexivity. }
  rewrite get_project; [exact H2|].
  apply filter_In. split; [unfold useful; simpl; auto 12|].
  unfold has. rewrite H2. reflexivity.
Qed.

End PreparedFlights.

Lemma prepare_flights_columns_witness :
  get flights_with_delay "DISTANCE" = Some (CInt [733; 1089]) /\
  forall lib : Pandas,
  exists fl_small,
    prepare_flights flights_with_delay = Ok fl_small /\
    columns fl_small = ["FL_DATE"; "AIRLINE"; "DEP_DELAY_MIN"; "DISTANCE";
                        "CANCELLED_FLAG"; "SCHED_DEP_DATETIME";
                        "ACTUAL_DEP_DATETIME"]%string /\
    get fl_small "DISTANCE" = get flights_with_delay "DISTANCE".
Proof.
  split; [reflexivity|]. intros lib. eexists. split; [reflexivity|].
  split; [reflexivity|].
  match goal with |- get ?fs _ = _ =>
    destruct (prepare_flights_columns flights_with_delay fs eq_refl)
      as (_ & _ & _ & _ & Hraw)
  end.
  apply Hraw. simpl. auto 12.
Defined.

Lemma explicit_delay_wins_witness :
  get flights_with_delay "DEP_DELAY" = Some (CInt [-3; 42]) /\
  forall lib : Pandas,
  exists fl_small,
    prepare_flights flights_with_delay = Ok fl_small /\
    get fl_small "DEP_DELAY_MIN" = Some (CInt [-3; 42]).
Proof.
  split; [reflexivity|]. intros lib. eexists. split; [reflexivity|].
  apply (explicit_delay_wins flights_with_delay _ (CInt [-3; 42]) eq_refl eq_refl).
Defined.

(** ** Flight normaliser: cancellation and airline *)

Section CancellationAndAirline.

Context {lib : Pandas}.

Lemma isna_all_missing (n : nat) : isna (CTime (repeat NaT n)) = repeat true n.
Proof.
  unfold isna. simpl. induction n as [|n IH]; simpl; [|rewrite IH]; reflexivity.
Qed.

Lemma map2_andb_true (n : nat) (l : list bool) :
  List.length l = n -> map2 andb (repeat true n) l = l.
Proof.
  revert l. induction n as [|n IH]; intros [|b l]; simpl; try discriminate;
    [reflexivity|].
  intros [= H]. rewrite (IH l H). reflexivity.
Qed.

(** X10.  Without a column named after cancellation, a flight table that
    has neither of the two actual timestamps flags every flight as
    cancelled; with only the departure timestamp, the flag of a row is 1
    exactly when that timestamp is missing. *)
Theorem cancelled_without_actual_times (fl : frame) :
  wf_frame fl = true ->
  find_cancel (columns fl) = None ->
  get fl "ACTUAL_ARR_DATETIME" = None ->
  (get fl "ACTUAL_DEP_DATETIME" = None ->
     CANCELLED_FLAG fl = Ok (repeat 1 (len fl))) /\
  (forall dep, get fl "ACTUAL_DEP_DATETIME" = Some dep ->
     CANCELLED_FLAG fl = Ok (map of_bool (isna dep))).
Proof.
  intros Hwf Hnone Harr. unfold CANCELLED_FLAG, actual_or_missing.
  rewrite Hnone, Harr, isna_all_missing. split.
  - intros ->. rewrite isna_all_missing.
    rewrite map2_andb_true by apply repeat_length.
    f_equal. induction (len fl) as [|n IH]; simpl; [|rewrite IH]; reflexivity.
  - intros dep Hdep. rewrite Hdep. f_equal. f_equal.
    assert (Hl : List.length (isna dep) = len fl).
    { rewrite isna_length. eapply wf_frame_get; eassumption. }
    clear -Hl. revert Hl. generalize (len fl) as n. generalize (isna dep) as l.
    induction l as [|b l IH]; intros [|n]; simpl; try discriminate; [reflexivity|].
    intros [= H]. rewrite (IH n H), andb_true_r. reflexivity.
Qed.

Lemma get_rename_new (fl : frame) (old new : string) :
  get fl new = None -> get (rename fl old new) new = get fl old.
Proof.
  induction fl as [|[m c] fl IH]; simpl; [reflexivity|].
  destruct (String.eqb_spec m new) as [->|Hne]; [discriminate|].
  intros Hg. destruct (String.eqb_spec m old) as [->|Ho].
  - rewrite String.eqb_refl. reflexivity.
  - destruct (String.eqb_spec m new); [congruence|]. apply IH, Hg.
Qed.

Lemma get_rename_old (fl : frame) (old new : string) :
  String.eqb new old = false -> get (rename fl old new) old = None.
Proof.
  intros Hn. induction fl as [|[m c] fl IH]; simpl; [reflexivity|].
  destruct (String.eqb_spec m old) as [->|Ho].
  - rewrite Hn. exact IH.
  - destruct (String.eqb_spec m old); [congruence|exact IH].
Qed.

(** X11.  The airline column: an existing [AIRLINE] column stops any
    renaming; otherwise [CARRIER] becomes [AIRLINE] and [OP_CARRIER] stays
    as it is; and [OP_CARRIER] becomes [AIRLINE] only when there is no
    [CARRIER] either. *)
Theorem canonical_airline_priority (fl : frame) :
  (has fl "AIRLINE" = true -> canonical_airline fl = fl) /\
  (forall c, get fl "AIRLINE" = None -> get fl "CARRIER" = Some c ->
     get (canonical_airline fl) "AIRLINE" = Some c /\
     get (canonical_airline fl) "CARRIER" = None /\
     get (canonical_airline fl) "OP_CARRIER" = get fl "OP_CARRIER") /\
  (forall c, get fl "AIRLINE" = None -> get fl "CARRIER" = None ->
     get fl "OP_CARRIER" = Some c ->
     get (canonical_airline fl) "AIRLINE" = Some c /\
     get (canonical_airline fl) "OP_CARRIER" = None).
Proof.
  unfold canonical_airline, has. split; [|split].
  - intros H. destruct (get fl "AIRLINE"); [|discriminate].
    rewrite !andb_false_r. reflexivity.
  - intros c Ha Hc. rewrite Ha, Hc. simpl.
    rewrite (get_rename_new _ _ _ Ha), Hc, get_rename_old by reflexivity.
    rewrite get_rename_other by reflexivity. auto.
  - intros c Ha Hc Ho. rewrite Ha, Hc, Ho. simpl.
    rewrite (get_rename_new _ _ _ Ha), Ho, get_rename_old by reflexivity. auto.
Qed.

End CancellationAndAirline.

Lemma cancelled_without_actual_times_witness :
  len delays_only = 2%nat /\
  forall lib : Pandas, CANCELLED_FLAG delays_only = Ok [1; 1].
Proof.
  split; [reflexivity|]. intros lib.
  destruct (cancelled_without_actual_times delays_only eq_refl eq_refl eq_refl)
    as [H _].
  apply (H eq_refl).
Defined.

(** ** Merge: matched rows and the weather table without dates *)

Section MergeMore.

Context {lib : Pandas}.

Lemma nth_error_seq (s n i : nat) :
  (i < n)%nat -> nth_error (seq s n) i = Some (s + i)%nat.
Proof.
  revert s i. induction n as [|n IH]; intros s [|i] Hi; simpl; try lia.
  - f_equal. lia.
  - rewrite IH by lia. f_equal. lia.
Qed.

(** With no date twice on the right, row [i] of the join is left row [i]
    with the right row of its date. *)
Lemma join_rows_matched (lk rk : list (option Z)) (i j : nat) (k : option Z) :
  NoDup rk ->
  nth_error lk i = Some k ->
  nth_error rk j = Some k ->
  nth_error (join_rows lk rk) i = Some (i, Some j).
Proof.
  intros Hnd Hi Hj.
  assert (Hlt : (i < List.length lk)%nat)
    by (apply nth_error_Some; rewrite Hi; discriminate).
  pose proof (join_rows_nodup lk rk Hnd) as Hfst.
  destruct (nth_error (join_rows lk rk) i) as [[i' o]|] eqn:Hrow.
  - assert (Hi' : nth_error (map fst (join_rows lk rk)) i = Some i')
      by (rewrite nth_error_map, Hrow; reflexivity).
    rewrite Hfst, nth_error_seq in Hi' by exact Hlt. injection Hi' as <-. simpl.
    destruct (join_rows_spec lk rk _ o (nth_error_In _ _ Hrow)) as (k' & Hk' & Hm).
    simpl in Hk'. rewrite Hi in Hk'. injection Hk' as <-.
    destruct o as [j'|].
    + do 3 f_equal. rewrite <- Hj in Hm.
      apply (proj1 (NoDup_nth_error rk) Hnd); [|exact Hm].
      apply nth_error_Some. rewrite Hm, Hj. discriminate.
    + exfalso. apply Hm. eapply nth_error_In. exact Hj.
  - apply nth_error_None in Hrow.
    assert (Hl : List.length (map fst (join_rows lk rk)) = List.length lk)
      by (rewrite Hfst; apply length_seq).
    rewrite length_map in Hl. lia.
Qed.

Lemma take_opt_matched (idx : list (option nat)) (c : column) (i j : nat) (y : cell) :
  nth_error idx i = Some (Some j) ->
  nth_error (cells c) j = Some y ->
  nth_error (cells (take_opt idx c)) i = Some y \/
  nth_error (cells (take_opt idx c)) i = Some (as_float y).
Proof.
  intros Hi Hy.
  destruct c as [l|l|l|l|l]; simpl in *;
    try destruct (forallb is_some idx); simpl;
    rewrite ?nth_error_map, ?Hi in *; simpl;
    try (destruct (nth_error l j) as [v|] eqn:Hv; [|discriminate];
         injection Hy as <-;
         rewrite ?(nth_error_nth _ _ _ Hv);
         rewrite ?(nth_error_nth _ _ _ (map_nth_error _ _ _ Hv));
         auto).
Qed.

(** X12.  With no date twice on the weather side, a flight row whose date
    is the date of a weather row holds, in every column that comes from
    the weather side, the entry of that weather row (an integer entry as
    a float when the column had to make room for missing values). *)
Theorem merge_matched_rows (fl_small wx_agg : frame) (lk rk : list (option Z))
    (i j : nat) (k : option Z) (n : string) (c : column) (y : cell) :
  get fl_small "FL_DATE" = Some (CTime lk) ->
  get wx_agg "DATE" = Some (CTime rk) ->
  NoDup rk ->
  nth_error lk i = Some k ->
  nth_error rk j = Some k ->
  In (n, c) wx_agg ->
  nth_error (cells c) j = Some y ->
  exists merged c',
    merge_step fl_small wx_agg = Ok merged /\
    In (suffixed (columns fl_small) n, c') merged /\
    (nth_error (cells c') i = Some y \/ nth_error (cells c') i = Some (as_float y)).
Proof.
  intros Hl Hr Hnd Hi Hj Hin Hy. unfold merge_step. rewrite Hl, Hr.
  eexists. exists (take_opt (map snd (join_rows lk rk)) c).
  split; [reflexivity|]. split.
  - unfold merge_left. apply in_or_app. right.
    apply (in_map (fun nc => (suffixed (columns fl_small) (fst nc),
                              take_opt (map snd (join_rows lk rk)) (snd nc))) _ _ Hin).
  - apply (take_opt_matched _ c i j y); [|exact Hy].
    rewrite nth_error_map, (join_rows_matched lk rk i j k Hnd Hi Hj). reflexivity.
Qed.

(** X13.  A weather table with no date column and without all of year,
    month and day takes no part in the run: the merged table is the
    prepared flight table. *)
Theorem weather_without_date_ignored (weather_raw fl_small : frame) :
  get weather_raw "DATE" = None ->
  get weather_raw "YEAR" = None \/ get weather_raw "MONTH" = None
    \/ get weather_raw "DAY" = None ->
  merge_step fl_small (prepare_weather weather_raw) = Ok fl_small.
Proof.
  intros Hd Hymd.
  assert (Hderive : derive_date "DATE" weather_raw = weather_raw).
  { unfold derive_date. rewrite Hd.
    destruct Hymd as [->|[->| ->]];
      repeat match goal with |- context [match get ?f ?n with _ => _ end] =>
        destruct (get f n) end; reflexivity. }
  assert (Hnone : get (prepare_weather weather_raw) "DATE" = None).
  { unfold prepare_weather. rewrite Hderive.
    set (wx := if has weather_raw "STATION" && negb (has weather_raw "ORIGIN")
               then rename weather_raw "STATION" "ORIGIN" else weather_raw).
    assert (Hwx : get wx "DATE" = None).
    { unfold wx. destruct (has weather_raw "STATION" && negb (has weather_raw "ORIGIN"));
        [apply get_rename_none; [exact Hd|reflexivity] | exact Hd]. }
    unfold weather_aggregate. rewrite Hwx.
    destruct (numeric_weather_cols wx); exact Hwx. }
  unfold merge_step. rewrite Hnone.
  destruct (get fl_small "FL_DATE") as [[x|x|x|x|x]|]; reflexivity.
Qed.

End MergeMore.

Lemma merge_matched_rows_witness :
  exists merged c',
    merge_step two_flights (weather_aggregate daily_weather) = Ok merged /\
    In ("TMAX"%string, c') merged /\
    (nth_error (cells c') 0 = Some (XFloat (Fin 55)) \/
     nth_error (cells c') 0 = Some (as_float (XFloat (Fin 55)))).
Proof.
  apply (merge_matched_rows two_flights (weather_aggregate daily_weather)
           [Some (midnight 18993); Some (midnight 18994)]
           [Some (midnight 18993); Some (midnight 18995)]
           0 0 (Some (midnight 18993)) "TMAX" (CFloat [Fin 55; Fin 70])
           (XFloat (Fin 55))); try reflexivity.
  - repeat constructor; simpl; intuition discriminate.
  - simpl. right. left. reflexivity.
Defined.

Lemma weather_without_date_ignored_witness :
  get undated_weather "TMAX" = Some (CInt [50; 60]) /\
  forall lib : Pandas,
    merge_step two_flights (prepare_weather undated_weather) = Ok two_flights.
Proof.
  split; [reflexivity|]. intros lib.
  apply (weather_without_date_ignored undated_weather two_flights eq_refl
           (or_introl eq_refl)).
Defined.

(** ** The whole run: one row per flight *)

Section RowCount.

Context {lib : Pandas}.

Lemma all_len_get (k : nat) (fl : frame) (n : string) (c : column) :
  all_len k fl = true -> get fl n = Some c -> col_len c = k.
Proof.
  unfold all_len. induction fl as [|[m c'] fl IH]; simpl; [discriminate|].
  intros H. apply andb_true_iff in H as [Hc H].
  destruct (String.eqb m n); [intros [= <-]; apply Nat.eqb_eq, Hc | apply IH, H].
Qed.

Lemma all_len_set (k : nat) (fl : frame) (n : string) (c : column) :
  all_len k fl = true -> col_len c = k -> all_len k (set fl n c) = true.
Proof.
  unfold all_len. intros H Hc. induction fl as [|[m c'] fl IH]; simpl in *.
  - rewrite Hc, Nat.eqb_refl. reflexivity.
  - apply andb_true_iff in H as [Hc' H].
    destruct (String.eqb m n); simpl.
    + rewrite Hc, Nat.eqb_refl. exact H.
    + rewrite Hc', (IH H). reflexivity.
Qed.

Lemma all_len_rename (k : nat) (fl : frame) (old new : string) :
  all_len k (rename fl old new) = all_len k fl.
Proof.
  unfold all_len, rename. induction fl as [|[m c] fl IH]; simpl; [|rewrite IH]; reflexivity.
Qed.

Lemma all_len_project (k : nat) (fl : frame) (names : list string) :
  all_len k fl = true -> all_len k (project fl names) = true.
Proof.
  intros H. induction names as [|n names IH]; simpl; [reflexivity|].
  destruct (get fl n) eqn:E; [|exact IH].
  unfold all_len in *. simpl. rewrite (all_len_get k fl n c H E), Nat.eqb_refl. exact IH.
Qed.

Lemma wf_all_len (fl : frame) : wf_frame fl = all_len (len fl) fl.
Proof. reflexivity. Qed.

(** A frame with a column keeps to the length of all its columns. *)
Lemma all_len_len (k : nat) (fl : frame) (n : string) (c : column) :
  all_len k fl = true -> get fl n = Some c -> len fl = k.
Proof.
  destruct fl as [|[m c'] fl]; simpl; [discriminate|].
  unfold all_len. simpl. intros H _. apply andb_true_iff in H as [H _].
  apply Nat.eqb_eq, H.
Qed.

Lemma col_len_to_datetime (c : column) : col_len (to_datetime c) = col_len c.
Proof.
  destruct c; unfold col_len; simpl; rewrite ?length_map; reflexivity.
Qed.

Lemma col_len_to_numeric (c : column) : col_len (to_numeric c) = col_len c.
Proof.
  destruct c; unfold col_len; simpl; rewrite ?length_map; reflexivity.
Qed.

Lemma assemble_length (y m d : list cell) (k : nat) :
  List.length y = k -> List.length m = k -> List.length d = k ->
  List.length (assemble y m d) = k.
Proof.
  revert y m d. induction k as [|k IH]; intros [|y1 y] [|m1 m] [|d1 d]; simpl;
    try discriminate; [reflexivity|].
  intros [= Hy] [= Hm] [= Hd]. f_equal. apply IH; assumption.
Qed.

Lemma all_len_derive_date (k : nat) (name : string) (fl : frame) :
  all_len k fl = true -> all_len k (derive_date name fl) = true.
Proof.
  intros H. unfold derive_date.
  destruct (get fl "YEAR") as [y|] eqn:Hy, (get fl "MONTH") as [m|] eqn:Hm,
    (get fl "DAY") as [d|] eqn:Hd, (get fl name) as [c|] eqn:Hc;
    try exact H;
    try (apply all_len_set; [exact H|];
         rewrite col_len_to_datetime; eapply all_len_get; eassumption).
  apply all_len_set; [exact H|]. rewrite col_len_time.
  apply assemble_length; eapply (all_len_get k fl); eassumption.
Qed.

Lemma hhmm_length (ds ts : column) (out : list (option Z)) :
  hhmm_to_datetime (Some ds) (Some ts) = Ok out -> List.length out = col_len ds.
Proof.
  unfold hhmm_to_datetime, try_block. intros H.
  destruct (astype_int _); [|apply Ok_inj in H; subst; apply repeat_length].
  destruct (astype_int _); [|apply Ok_inj in H; subst; apply repeat_length].
  destruct ds as [x|x|x|x|x];
    try (apply Ok_inj in H; subst; apply repeat_length).
  destruct (_ <? _)%nat; [apply Ok_inj in H; subst; apply repeat_length|].
  destruct (add_offsets _ _ _); apply Ok_inj in H; subst.
  - rewrite assign_length. apply repeat_length.
  - apply repeat_length.
Qed.

Lemma all_len_add_datetimes (k : nat) (tm : list (string * string)) (fl fl' : frame) :
  all_len k fl = true -> add_datetimes tm fl = Ok fl' -> all_len k fl' = true.
Proof.
  revert fl. induction tm as [|[tcol outcol] tm IH]; intros fl H; simpl.
  - intros Hfl. apply Ok_inj in Hfl. subst fl'. exact H.
  - destruct (has fl tcol && has fl "FL_DATE") eqn:Hc; [|apply IH, H].
    apply andb_true_iff in Hc as [Ht Hd]. unfold has in Ht, Hd.
    destruct (get fl tcol) as [ts|]; [|discriminate].
    destruct (get fl "FL_DATE") as [ds|] eqn:Hds; [|discriminate].
    destruct (hhmm_to_datetime (Some ds) (Some ts)) as [out|e] eqn:Hout; cbn [bind];
      [|intros Hr; exfalso; exact (Raise_not_Ok _ _ Hr)].
    apply IH, all_len_set; [exact H|].
    rewrite col_len_time, (hhmm_length _ _ _ Hout).
    eapply all_len_get; eassumption.
Qed.

Lemma map2_length_eq {A B C : Type} (f : A -> B -> C) (l1 : list A) (l2 : list B) (k : nat) :
  List.length l1 = k -> List.length l2 = k -> List.length (map2 f l1 l2) = k.
Proof.
  intros H1 H2. rewrite map2_length; congruence.
Qed.

Lemma dep_delay_length (k : nat) (fl : frame) (delay : column) :
  all_len k fl = true -> len fl = k ->
  DEP_DELAY_MIN fl = Ok delay -> col_len delay = k.
Proof.
  intros H Hk. unfold DEP_DELAY_MIN.
  destruct (get fl "DEP_DELAY") as [c|] eqn:Hc.
  - intros Hd. apply Ok_inj in Hd. subst delay. rewrite col_len_to_numeric.
    eapply all_len_get; eassumption.
  - destruct (get fl "ACTUAL_DEP_DATETIME") as [a|] eqn:Ha;
      [destruct (get fl "SCHED_DEP_DATETIME") as [s|] eqn:Hs|].
    + pose proof (all_len_get k fl _ a H Ha) as La.
      pose proof (all_len_get k fl _ s H Hs) as Ls.
      unfold delay_from_datetimes.
      destruct a as [x|x|x|x|x], s as [y|y|y|y|y];
        try (intros Hr; exfalso; exact (Raise_not_Ok _ _ Hr)).
      intros Hd. apply Ok_inj in Hd. subst delay.
      rewrite col_len_time in La, Ls. unfold col_len. simpl. rewrite length_map.
      apply map2_length_eq; assumption.
    + intros Hd. apply Ok_inj in Hd. subst delay. unfold col_len. simpl.
      rewrite length_map, repeat_length. exact Hk.
    + intros Hd. apply Ok_inj in Hd. subst delay. unfold col_len. simpl.
      rewrite length_map, repeat_length. exact Hk.
Qed.

Lemma traverse_length {A B : Type} (f : A -> result B) (l : list A) (out : list B) :
  traverse f l = Ok out -> List.length out = List.length l.
Proof.
  revert out. induction l as [|a l IH]; simpl; intros out H.
  - apply Ok_inj in H. subst. reflexivity.
  - destruct (f a) as [b|e]; cbn [bind] in H; [|exfalso; exact (Raise_not_Ok _ _ H)].
    destruct (traverse f l) as [bs|e]; cbn [bind] in H;
      [|exfalso; exact (Raise_not_Ok _ _ H)].
    apply Ok_inj in H. subst. simpl. f_equal. apply IH. reflexivity.
Qed.

Lemma cancelled_flag_length (k : nat) (fl : frame) (flag : list Z) :
  all_len k fl = true -> len fl = k ->
  CANCELLED_FLAG fl = Ok flag -> List.length flag = k.
Proof.
  intros H Hk. unfold CANCELLED_FLAG.
  destruct (find_cancel (columns fl)) as [name|] eqn:Hf.
  - destruct (find_cancel_get fl name Hf) as [c Hc].
    unfold getitem. rewrite Hc. cbn [bind].
    pose proof (all_len_get k fl _ c H Hc) as Lc. unfold col_len in Lc.
    destruct c as [x|x|x|x|x]; simpl in *; rewrite ?length_map in Lc; intros Hr;
      try (apply Ok_inj in Hr; subst flag; rewrite ?length_map; exact Lc);
      apply traverse_length in Hr; rewrite Hr, ?length_map; exact Lc.
  - intros Hr. apply Ok_inj in Hr. subst flag. rewrite length_map.
    assert (Hwf : wf_frame fl = true) by (rewrite wf_all_len, Hk; exact H).
    apply map2_length_eq;
      rewrite isna_length, actual_or_missing_length by exact Hwf; exact Hk.
Qed.


Lemma len_set (k : nat) (fl : frame) (n : string) (c : column) :
  len fl = k -> col_len c = k -> len (set fl n c) = k.
Proof.
  destruct fl as [|[m c'] fl]; simpl; [trivial|].
  destruct (String.eqb m n); simpl; trivial.
Qed.

Lemma len_rename (fl : frame) (old new : string) : len (rename fl old new) = len fl.
Proof. destruct fl as [|[m c] fl]; reflexivity. Qed.

Lemma all_len_nonempty (k : nat) (fl : frame) :
  all_len k fl = true -> fl <> [] -> len fl = k.
Proof.
  destruct fl as [|[m c] fl]; [congruence|].
  unfold all_len. simpl. intros H _. apply andb_true_iff in H as [H _].
  apply Nat.eqb_eq, H.
Qed.

Lemma len_derive_date (k : nat) (name : string) (fl : frame) :
  all_len k fl = true -> len fl = k -> len (derive_date name fl) = k.
Proof.
  intros H Hk. unfold derive_date.
  destruct (get fl "YEAR") as [y|] eqn:Hy, (get fl "MONTH") as [m|] eqn:Hm,
    (get fl "DAY") as [d|] eqn:Hd, (get fl name) as [c|] eqn:Hc;
    try exact Hk;
    try (apply len_set; [exact Hk|];
         rewrite col_len_to_datetime; eapply all_len_get; eassumption).
  apply len_set; [exact Hk|]. rewrite col_len_time.
  apply assemble_length; eapply (all_len_get k fl); eassumption.
Qed.

Lemma len_add_datetimes (k : nat) (tm : list (string * string)) (fl fl' : frame) :
  all_len k fl = true -> len fl = k -> add_datetimes tm fl = Ok fl' -> len fl' = k.
Proof.
  revert fl. induction tm as [|[tcol outcol] tm IH]; intros fl H Hk; simpl.
  - intros Hfl. apply Ok_inj in Hfl. subst fl'. exact Hk.
  - destruct (has fl tcol && has fl "FL_DATE") eqn:Hc; [|apply IH; assumption].
    apply andb_true_iff in Hc as [Ht Hd]. unfold has in Ht, Hd.
    destruct (get fl tcol) as [ts|]; [|discriminate].
    destruct (get fl "FL_DATE") as [ds|] eqn:Hds; [|discriminate].
    destruct (hhmm_to_datetime (Some ds) (Some ts)) as [out|e] eqn:Hout; cbn [bind];
      [|intros Hr; exfalso; exact (Raise_not_Ok _ _ Hr)].
    assert (Hout' : col_len (CTime out) = k).
    { rewrite col_len_time, (hhmm_length _ _ _ Hout). eapply all_len_get; eassumption. }
    apply IH; [apply all_len_set; assumption | apply len_set; assumption].
Qed.

(** The prepared flight table has the rows of the raw table: every column
    is as long as the raw table. *)
Lemma prepare_flights_rows (flights_raw fl_small : frame) :
  wf_frame flights_raw = true ->
  prepare_flights flights_raw = Ok fl_small ->
  all_len (len flights_raw) fl_small = true /\ len fl_small = len flights_raw.
Proof.
  intros Hwf Hp. rewrite wf_all_len in Hwf.
  set (k := len flights_raw) in *.
  destruct (prepare_flights_inv _ _ Hp) as (fl & delay & flag & Hfl & Hd & Hc & ->).
  pose proof (all_len_derive_date k "FL_DATE" _ Hwf) as A1.
  pose proof (len_derive_date k "FL_DATE" _ Hwf eq_refl) as L1.
  assert (A2 : all_len k (convert_time_hour (derive_date "FL_DATE" flights_raw)) = true
               /\ len (convert_time_hour (derive_date "FL_DATE" flights_raw)) = k).
  { unfold convert_time_hour.
    destruct (get (derive_date "FL_DATE" flights_raw) "TIME_HOUR") as [c|] eqn:E;
      [|split; assumption].
    assert (Lc : col_len (to_datetime c) = k)
      by (rewrite col_len_to_datetime; eapply all_len_get; eassumption).
    split; [apply all_len_set | apply len_set]; assumption. }
  destruct A2 as [A2 L2].
  pose proof (all_len_add_datetimes k _ _ _ A2 Hfl) as A3.
  pose proof (len_add_datetimes k _ _ _ A2 L2 Hfl) as L3.
  pose proof (dep_delay_length k fl delay A3 L3 Hd) as Ld.
  pose proof (all_len_set k fl "DEP_DELAY_MIN" delay A3 Ld) as A4.
  pose proof (len_set k fl "DEP_DELAY_MIN" delay L3 Ld) as L4.
  pose proof (cancelled_flag_length k _ flag A4 L4 Hc) as Lf.
  assert (Lf' : col_len (CInt flag) = k)
    by (unfold col_len; simpl; rewrite length_map; exact Lf).
  pose proof (all_len_set k _ "CANCELLED_FLAG" (CInt flag) A4 Lf') as A5.
  set (fl1 := set (set fl "DEP_DELAY_MIN" delay) "CANCELLED_FLAG" (CInt flag)) in *.
  assert (A6 : all_len k (canonical_airline fl1) = true).
  { unfold canonical_airline.
    destruct (has fl1 "CARRIER" && negb (has fl1 "AIRLINE"));
      [|destruct (has fl1 "OP_CARRIER" && negb (has fl1 "AIRLINE"))];
      rewrite ?all_len_rename; exact A5. }
  assert (H6 : has (canonical_airline fl1) "DEP_DELAY_MIN" = true).
  { unfold has, canonical_airline.
    destruct (has fl1 "CARRIER" && negb (has fl1 "AIRLINE"));
      [|destruct (has fl1 "OP_CARRIER" && negb (has fl1 "AIRLINE"))];
      rewrite ?get_rename_other by reflexivity; unfold fl1; rewrite !get_set;
      reflexivity. }
  set (fl2 := canonical_airline fl1) in *. clearbody fl2.
  pose proof (all_len_project k fl2 (filter (has fl2) useful) A6) as A7.
  split; [exact A7|]. apply all_len_nonempty; [exact A7|].
  intros Hnil.
  assert (Hg : get (project fl2 (filter (has fl2) useful)) "DEP_DELAY_MIN"
               = get fl2 "DEP_DELAY_MIN").
  { apply get_project, filter_In. split; [unfold useful; simpl; auto 12|exact H6]. }
  rewrite Hnil in Hg. unfold has in H6. simpl in Hg.
  destruct (get fl2 "DEP_DELAY_MIN"); discriminate.
Qed.


Lemma take_opt_length (idx : list (option nat)) (c : column) :
  col_len (take_opt idx c) = List.length idx.
Proof.
  unfold col_len. destruct c as [x|x|x|x|x]; simpl;
    try destruct (forallb is_some idx); simpl; rewrite ?length_map; reflexivity.
Qed.

Lemma all_len_map_columns (k : nat) (F : string -> string) (G : column -> column)
    (fl : frame) :
  (forall c, col_len (G c) = k) ->
  all_len k (map (fun nc => (F (fst nc), G (snd nc))) fl) = true.
Proof.
  intros HG. unfold all_len. induction fl as [|[m c] fl IH]; simpl; [reflexivity|].
  rewrite HG, Nat.eqb_refl. exact IH.
Qed.

Lemma all_len_app (k : nat) (fl fr : frame) :
  all_len k fl = true -> all_len k fr = true -> all_len k (fl ++ fr)%list = true.
Proof.
  unfold all_len. intros H1 H2. rewrite forallb_app, H1, H2. reflexivity.
Qed.

(** The merged table has the rows of the flight table when the weather
    side has no date twice. *)
Lemma merge_step_rows (k : nat) (fl_small wx_agg merged : frame) :
  all_len k fl_small = true -> len fl_small = k ->
  (forall rk, get wx_agg "DATE" = Some (CTime rk) -> NoDup rk) ->
  merge_step fl_small wx_agg = Ok merged ->
  all_len k merged = true /\ len merged = k.
Proof.
  intros A L Hnd. unfold merge_step.
  destruct (get fl_small "FL_DATE") as [[x|x|x|lk|x]|] eqn:Hl;
    destruct (get wx_agg "DATE") as [[y|y|y|rk|y]|] eqn:Hr;
    intros Hm; try (exfalso; exact (Raise_not_Ok _ _ Hm));
    apply Ok_inj in Hm; subst merged; try (split; assumption).
  pose proof (join_rows_nodup lk rk (Hnd rk eq_refl)) as Hidx.
  assert (Hlk : List.length lk = k)
    by (rewrite <- col_len_time; eapply all_len_get; eassumption).
  assert (Hrows : List.length (join_rows lk rk) = k).
  { rewrite <- (length_map fst), Hidx, length_seq. exact Hlk. }
  assert (Hall : all_len k (merge_left fl_small wx_agg lk rk) = true).
  { unfold merge_left. apply all_len_app.
    - apply (all_len_map_columns k (fun n => n)). intros c.
      rewrite take_length, length_map. exact Hrows.
    - apply (all_len_map_columns k). intros c.
      rewrite take_opt_length, length_map. exact Hrows. }
  split; [exact Hall|]. apply all_len_nonempty; [exact Hall|].
  unfold merge_left. destruct fl_small as [|nc fl']; [discriminate|]. discriminate.
Qed.

Lemma derive_features_rows (k : nat) (merged m' : frame) :
  all_len k merged = true -> len merged = k ->
  derive_features merged = Ok m' ->
  all_len k m' = true /\ len m' = k.
Proof.
  intros A L. unfold derive_features.
  set (m0 := match get merged "FL_DATE" with
             | Some c => set merged "FL_DATE" (to_datetime c)
             | None => merged
             end).
  assert (S0 : all_len k m0 = true /\ len m0 = k).
  { unfold m0. destruct (get merged "FL_DATE") as [c|] eqn:E; [|split; assumption].
    assert (Lc : col_len (to_datetime c) = k)
      by (rewrite col_len_to_datetime; eapply all_len_get; eassumption).
    split; [apply all_len_set | apply len_set]; assumption. }
  destruct S0 as [A0 L0]. clearbody m0.
  unfold getitem at 1.
  destruct (get m0 "FL_DATE") as [d|] eqn:Hd; cbn [bind];
    [|intros Hr; exfalso; exact (Raise_not_Ok _ _ Hr)].
  destruct (to_period_M d) as [ym|e] eqn:Hym; cbn [bind];
    [|intros Hr; exfalso; exact (Raise_not_Ok _ _ Hr)].
  assert (Lym : col_len ym = k).
  { pose proof (all_len_get k m0 _ d A0 Hd) as Ld.
    unfold to_period_M in Hym. destruct d as [x|x|x|x|x];
      try (exfalso; exact (Raise_not_Ok _ _ Hym)).
    apply Ok_inj in Hym. subst ym. rewrite col_len_time in Ld.
    unfold col_len. simpl. rewrite length_map. exact Ld. }
  pose proof (all_len_set k m0 "YEAR_MONTH" ym A0 Lym) as A1.
  pose proof (len_set k m0 "YEAR_MONTH" ym L0 Lym) as L1.
  set (m1 := set m0 "YEAR_MONTH" ym) in *. clearbody m1.
  unfold getitem at 1.
  destruct (get m1 "DEP_DELAY_MIN") as [delay|] eqn:Hdel; cbn [bind];
    [|intros Hr; exfalso; exact (Raise_not_Ok _ _ Hr)].
  assert (Ldel : col_len (to_numeric delay) = k)
    by (rewrite col_len_to_numeric; eapply all_len_get; eassumption).
  pose proof (all_len_set k m1 "DEP_DELAY_MIN" _ A1 Ldel) as A2.
  pose proof (len_set k m1 "DEP_DELAY_MIN" _ L1 Ldel) as L2.
  set (m2 := set m1 "DEP_DELAY_MIN" (to_numeric delay)) in *.
  unfold getitem.
  destruct (get m2 "DEP_DELAY_MIN") as [delay2|] eqn:Hdel2; cbn [bind];
    [|intros Hr; exfalso; exact (Raise_not_Ok _ _ Hr)].
  intros Hr. apply Ok_inj in Hr. subst m'.
  assert (Lflag : col_len (CInt (LONG_DELAY_FLAG delay2)) = k).
  { unfold col_len, LONG_DELAY_FLAG. simpl. rewrite !length_map.
    apply (all_len_get k m2 _ delay2 A2 Hdel2). }
  split; [apply all_len_set | apply len_set]; assumption.
Qed.

Lemma numeric_cols_nil (fl : frame) :
  numeric_weather_cols fl = [] -> has_numeric fl = false.
Proof.
  unfold numeric_weather_cols, has_numeric.
  induction fl as [|[m c] fl IH]; simpl; [reflexivity|].
  destruct (is_numeric c); simpl; [discriminate|exact IH].
Qed.

Lemma has_numeric_in (fl : frame) (n : string) (c : column) :
  In (n, c) fl -> is_numeric c = true -> has_numeric fl = true.
Proof.
  intros Hin Hc. unfold has_numeric. apply existsb_exists.
  exists (n, c). split; assumption.
Qed.

Lemma in_set_other (fl : frame) (n name : string) (c c' : column) :
  In (n, c) fl -> String.eqb n name = false -> In (n, c) (set fl name c').
Proof.
  intros Hin Hne. induction fl as [|[m x] fl IH]; simpl in *; [contradiction|].
  destruct (String.eqb m name) eqn:E.
  - destruct Hin as [[= -> ->]|Hin]; [congruence|right; exact Hin].
  - destruct Hin as [Hin|Hin]; [left; exact Hin|right; apply IH, Hin].
Qed.

Lemma has_numeric_rename (fl : frame) (old new : string) :
  has_numeric (rename fl old new) = has_numeric fl.
Proof.
  unfold has_numeric, rename.
  induction fl as [|[m c] fl IH]; simpl; [|rewrite IH]; reflexivity.
Qed.

(** A weather table with a numeric column besides the date is merged
    through its aggregate, which has no date twice. *)
Lemma prepare_weather_dates_nodup (weather_raw : frame) (n : string) (c : column)
    (rk : list (option Z)) :
  In (n, c) weather_raw -> String.eqb n "DATE" = false -> is_numeric c = true ->
  get (prepare_weather weather_raw) "DATE" = Some (CTime rk) -> NoDup rk.
Proof.
  intros Hin Hne Hc. unfold prepare_weather.
  set (wx0 := derive_date "DATE" weather_raw).
  assert (H0 : has_numeric wx0 = true).
  { unfold wx0, derive_date.
    destruct (get weather_raw "YEAR"), (get weather_raw "MONTH"),
      (get weather_raw "DAY"), (get weather_raw "DATE");
      try (eapply has_numeric_in; [apply in_set_other|]; eassumption);
      eapply has_numeric_in; eassumption. }
  set (wx := if has wx0 "STATION" && negb (has wx0 "ORIGIN")
             then rename wx0 "STATION" "ORIGIN" else wx0).
  assert (Hnum : numeric_weather_cols wx <> []).
  { intros Hnil. apply numeric_cols_nil in Hnil. unfold wx in Hnil.
    destruct (has wx0 "STATION" && negb (has wx0 "ORIGIN"));
      rewrite ?has_numeric_rename in Hnil; congruence. }
  assert (Hdate : forall c0, get wx "DATE" = Some c0 -> is_time c0).
  { intros c0. unfold wx.
    destruct (has wx0 "STATION" && negb (has wx0 "ORIGIN"));
      [rewrite get_rename_other by reflexivity|]; apply derive_date_time. }
  clearbody wx. intros Hagg.
  destruct (get wx "DATE") as [c0|] eqn:Hd.
  - destruct (Hdate c0 eq_refl) as [dates ->].
    exact (aggregate_dates_nodup wx dates rk Hd Hnum Hagg).
  - unfold weather_aggregate in Hagg. rewrite Hd in Hagg.
    destruct (numeric_weather_cols wx); congruence.
Qed.

(** X15.  One row per flight: when the raw flight table has columns of one
    length and the weather table has a numeric column besides its date,
    a run that completes gives a table with exactly the rows of the raw
    flight table, every column of that length. *)
Theorem pipeline_one_row_per_flight (flights_raw weather_raw m : frame)
    (n : string) (c : column) :
  wf_frame flights_raw = true ->
  In (n, c) weather_raw -> String.eqb n "DATE" = false -> is_numeric c = true ->
  pipeline flights_raw weather_raw = Ok m ->
  len m = len flights_raw /\ wf_frame m = true.
Proof.
  intros Hwf Hin Hne Hc. unfold pipeline.
  destruct (prepare_flights flights_raw) as [fl_small|e] eqn:Hp; cbn [bind];
    [|intros Hr; exfalso; exact (Raise_not_Ok _ _ Hr)].
  destruct (merge_step fl_small (prepare_weather weather_raw)) as [merged|e] eqn:Hm;
    cbn [bind]; [|intros Hr; exfalso; exact (Raise_not_Ok _ _ Hr)].
  intros Hd.
  destruct (prepare_flights_rows _ _ Hwf Hp) as [A1 L1].
  destruct (merge_step_rows _ _ _ _ A1 L1
              (fun rk => prepare_weather_dates_nodup weather_raw n c rk Hin Hne Hc) Hm)
    as [A2 L2].
  destruct (derive_features_rows _ _ _ A2 L2 Hd) as [A3 L3].
  split; [exact L3|]. rewrite wf_all_len, L3. exact A3.
Qed.

End RowCount.

Lemma pipeline_one_row_per_flight_witness :
  len flights_with_delay = 2%nat /\
  forall lib : Pandas,
  exists m,
    pipeline flights_with_delay daily_weather = Ok m /\
    len m = len flights_with_delay /\ wf_frame m = true.
Proof.
  split; [reflexivity|]. intros lib. eexists. split; [reflexivity|].
  apply (pipeline_one_row_per_flight flights_with_delay daily_weather _
           "TMAX" (CInt [50; 60; 70]) eq_refl); try reflexivity.
  simpl. right. left. reflexivity.
Defined.

(** ** The whole run: the flight columns come out as prepared *)

Section FlightColumnsKept.

Context {lib : Pandas}.

Lemma get_project_in (fl : frame) (names : list string) (n : string) (c : column) :
  get (project fl names) n = Some c -> In n names.
Proof.
  induction names as [|m names IH]; simpl; [discriminate|].
  destruct (get fl m) as [c'|]; [|intros H; right; exact (IH H)].
  simpl. destruct (String.eqb_spec m n) as [->|]; [left; reflexivity|].
  intros H; right; exact (IH H).
Qed.

Lemma to_numeric_idem (c : column) : to_numeric (to_numeric c) = to_numeric c.
Proof. destruct c; reflexivity. Qed.

(** The delay column of line 86-91 is numeric already. *)
Lemma dep_delay_numeric (fl : frame) (delay : column) :
  DEP_DELAY_MIN fl = Ok delay -> to_numeric delay = delay.
Proof.
  unfold DEP_DELAY_MIN. destruct (get fl "DEP_DELAY") as [c|].
  - intros H. apply Ok_inj in H. subst delay. apply to_numeric_idem.
  - destruct (get fl "ACTUAL_DEP_DATETIME") as [a|];
      [destruct (get fl "SCHED_DEP_DATETIME") as [s|]|].
    + unfold delay_from_datetimes.
      destruct a, s; intros H; try (exfalso; exact (Raise_not_Ok _ _ H));
        apply Ok_inj in H; subst delay; reflexivity.
    + intros H. apply Ok_inj in H. subst delay. reflexivity.
    + intros H. apply Ok_inj in H. subst delay. reflexivity.
Qed.

Lemma prepared_delay_numeric (flights_raw fl_small : frame) (c : column) :
  prepare_flights flights_raw = Ok fl_small ->
  get fl_small "DEP_DELAY_MIN" = Some c -> to_numeric c = c.
Proof.
  intros Hp.
  destruct (prepare_flights_inv _ _ Hp) as (fl & delay & flag & _ & Hd & _ & ->).
  intros Hg. apply get_project_some in Hg.
  assert (Hc : c = delay).
  { revert Hg. unfold canonical_airline.
    destruct (has _ "CARRIER" && negb (has _ "AIRLINE"));
      [|destruct (has _ "OP_CARRIER" && negb (has _ "AIRLINE"))];
      rewrite ?get_rename_other by reflexivity; rewrite !get_set; simpl; congruence. }
  subst c. exact (dep_delay_numeric fl delay Hd).
Qed.

(** A left join on a weather side with no date twice leaves the flight
    columns as they are. *)
Lemma merge_step_keeps (fl_small wx_agg merged : frame) :
  wf_frame fl_small = true ->
  (forall rk, get wx_agg "DATE" = Some (CTime rk) -> NoDup rk) ->
  merge_step fl_small wx_agg = Ok merged ->
  forall n c, get fl_small n = Some c -> get merged n = Some c.
Proof.
  intros Hwf Hnd. unfold merge_step.
  destruct (get fl_small "FL_DATE") as [[x|x|x|lk|x]|] eqn:Hl;
    destruct (get wx_agg "DATE") as [[y|y|y|rk|y]|] eqn:Hr;
    intros Hm; try (exfalso; exact (Raise_not_Ok _ _ Hm));
    apply Ok_inj in Hm; subst merged; try (intros n c Hg; exact Hg).
  intros n c Hg. unfold merge_left. apply get_app_left.
  rewrite get_map_columns, Hg. simpl.
  rewrite (join_rows_nodup lk rk (Hnd rk eq_refl)).
  rewrite <- col_len_time, (wf_frame_get fl_small _ _ Hwf Hl),
    <- (wf_frame_get fl_small n c Hwf Hg), take_all. reflexivity.
Qed.

(** Lines 157-163 write four columns; the two they write again get what
    they held when these were a datetime and a numeric column already. *)
Lemma derive_features_keeps (merged m : frame) (n : string) (c : column) :
  derive_features merged = Ok m ->
  get merged n = Some c ->
  String.eqb "YEAR_MONTH" n = false -> String.eqb "LONG_DELAY_FLAG" n = false ->
  (String.eqb "FL_DATE" n = true -> to_datetime c = c) ->
  (String.eqb "DEP_DELAY_MIN" n = true -> to_numeric c = c) ->
  get m n = Some c.
Proof.
  intros Hd Hg Hym Hlf Hdate Hdel. revert Hd. unfold derive_features.
  set (m0 := match get merged "FL_DATE" with
             | Some c => set merged "FL_DATE" (to_datetime c)
             | None => merged
             end).
  assert (G0 : get m0 n = Some c).
  { unfold m0. destruct (get merged "FL_DATE") as [d|] eqn:E; [|exact Hg].
    rewrite get_set. destruct (String.eqb_spec "FL_DATE" n) as [<-|]; [|exact Hg].
    rewrite E in Hg. injection Hg as ->. rewrite (Hdate eq_refl). reflexivity. }
  clearbody m0. unfold getitem at 1.
  destruct (get m0 "FL_DATE") as [d|]; cbn [bind];
    [|intros Hr; exfalso; exact (Raise_not_Ok _ _ Hr)].
  destruct (to_period_M d) as [ym|e]; cbn [bind];
    [|intros Hr; exfalso; exact (Raise_not_Ok _ _ Hr)].
  assert (G1 : get (set m0 "YEAR_MONTH" ym) n = Some c)
    by (rewrite get_set, Hym; exact G0).
  set (m1 := set m0 "YEAR_MONTH" ym) in *. clearbody m1.
  unfold getitem at 1.
  destruct (get m1 "DEP_DELAY_MIN") as [delay|] eqn:E1; cbn [bind];
    [|intros Hr; exfalso; exact (Raise_not_Ok _ _ Hr)].
  assert (G2 : get (set m1 "DEP_DELAY_MIN" (to_numeric delay)) n = Some c).
  { rewrite get_set. destruct (String.eqb_spec "DEP_DELAY_MIN" n) as [<-|]; [|exact G1].
    rewrite E1 in G1. injection G1 as ->. rewrite (Hdel eq_refl). reflexivity. }
  set (m2 := set m1 "DEP_DELAY_MIN" (to_numeric delay)) in *. clearbody m2.
  unfold getitem.
  destruct (get m2 "DEP_DELAY_MIN") as [delay2|]; cbn [bind];
    [|intros Hr; exfalso; exact (Raise_not_Ok _ _ Hr)].
  intros Hr. apply Ok_inj in Hr. subst m. rewrite get_set, Hlf. exact G2.
Qed.

(** X16.  The flight columns come out as prepared: when the weather table
    has a numeric column besides its date, every column of the prepared
    flight table stands in the table of a completed run under its name
    and with the entries it had, so that the conversions of lines 158-162
    and the join change none of them. *)
Theorem pipeline_keeps_flight_columns (flights_raw weather_raw fl_small m : frame)
    (n0 : string) (c0 : column) :
  wf_frame flights_raw = true ->
  In (n0, c0) weather_raw -> String.eqb n0 "DATE" = false -> is_numeric c0 = true ->
  prepare_flights flights_raw = Ok fl_small ->
  pipeline flights_raw weather_raw = Ok m ->
  forall n c, get fl_small n = Some c -> get m n = Some c.
Proof.
  intros Hwf Hin Hne Hc Hp. unfold pipeline. rewrite Hp. cbn [bind].
  destruct (merge_step fl_small (prepare_weather weather_raw)) as [merged|e] eqn:Hm;
    cbn [bind]; [|intros Hr; exfalso; exact (Raise_not_Ok _ _ Hr)].
  intros Hd n c Hg.
  destruct (prepare_flights_rows _ _ Hwf Hp) as [A1 L1].
  assert (Hwf1 : wf_frame fl_small = true) by (rewrite wf_all_len, L1; exact A1).
  pose proof (merge_step_keeps _ _ _ Hwf1
                (fun rk => prepare_weather_dates_nodup weather_raw n0 c0 rk Hin Hne Hc) Hm
                n c Hg) as Hmg.
  assert (Hu : In n useful).
  { destruct (prepare_flights_inv _ _ Hp) as (fl & delay & flag & _ & _ & _ & E).
    rewrite E in Hg. apply get_project_in, filter_In in Hg. apply Hg. }
  apply (derive_features_keeps merged m n c Hd Hmg).
  - unfold useful in Hu. simpl in Hu.
    repeat (destruct Hu as [<-|Hu]; [reflexivity|]). contradiction.
  - unfold useful in Hu. simpl in Hu.
    repeat (destruct Hu as [<-|Hu]; [reflexivity|]). contradiction.
  - intros E. apply String.eqb_eq in E. subst n.
    destruct (prepare_flights_date_time _ _ c Hp Hg) as [l ->]. reflexivity.
  - intros E. apply String.eqb_eq in E. subst n.
    exact (prepared_delay_numeric _ _ c Hp Hg).
Qed.

End FlightColumnsKept.

Lemma pipeline_keeps_flight_columns_witness :
  len flights_with_delay = 2%nat /\
  forall lib : Pandas,
  exists fl_small m,
    prepare_flights flights_with_delay = Ok fl_small /\
    pipeline flights_with_delay daily_weather = Ok m /\
    forall n c, get fl_small n = Some c -> get m n = Some c.
Proof.
  split; [reflexivity|]. intros lib. eexists. eexists.
  split; [reflexivity|]. split; [reflexivity|].
  apply (pipeline_keeps_flight_columns flights_with_delay daily_weather _ _
           "TMAX" (CInt [50; 60; 70]) eq_refl); try reflexivity.
  simpl. right. left. reflexivity.
Defined.

(** ** Weather normaliser: the station *)

Section Station.

Context {lib : Pandas}.

Lemma in_set_inv (fl : frame) (n name : string) (c c' : column) :
  In (n, c) (set fl name c') -> String.eqb n name = false -> In (n, c) fl.
Proof.
  intros Hin Hne. induction fl as [|[m x] fl IH]; simpl in *.
  - destruct Hin as [[= <- <-]|[]]. rewrite String.eqb_refl in Hne. discriminate.
  - destruct (String.eqb m name) eqn:E.
    + destruct Hin as [[= <- <-]|Hin]; [congruence|right; exact Hin].
    + destruct Hin as [Hin|Hin]; [left; exact Hin|right; apply IH, Hin].
Qed.

Lemma in_derive_date_inv (fl : frame) (name n : string) (c : column) :
  In (n, c) (derive_date name fl) -> String.eqb n name = false -> In (n, c) fl.
Proof.
  unfold derive_date.
  destruct (get fl "YEAR"), (get fl "MONTH"), (get fl "DAY"), (get fl name);
    try (apply in_set_inv); trivial.
Qed.

Lemma in_has (fl : frame) (n : string) (c : column) : In (n, c) fl -> has fl n = true.
Proof.
  unfold has. induction fl as [|[m x] fl IH]; simpl; [contradiction|].
  intros [[= -> ->]|Hin]; [rewrite String.eqb_refl; reflexivity|].
  destruct (String.eqb m n); [reflexivity|apply IH, Hin].
Qed.

Lemma numeric_cols_in (fl : frame) (n : string) :
  In n (numeric_weather_cols fl) -> exists c, In (n, c) fl /\ is_numeric c = true.
Proof.
  unfold numeric_weather_cols. intros Hin.
  apply in_map_iff in Hin as ([m c] & <- & Hf). apply filter_In in Hf as [Hin Hc].
  exists c. split; assumption.
Qed.

Lemma numeric_cols_rename (fl : frame) (old new : string) :
  (forall c, In (old, c) fl -> is_numeric c = false) ->
  numeric_weather_cols (rename fl old new) = numeric_weather_cols fl.
Proof.
  unfold numeric_weather_cols, rename. intros Hold.
  induction fl as [|[m c] fl IH]; simpl; [reflexivity|].
  assert (IH' := IH (fun c' H => Hold c' (or_intror H))).
  destruct (is_numeric c) eqn:Hc; simpl; rewrite IH'; [|reflexivity].
  destruct (String.eqb_spec m old) as [->|]; [|reflexivity].
  rewrite (Hold c (or_introl eq_refl)) in Hc. discriminate.
Qed.

Lemma get_named_none (F : string -> column) (names : list string) (k : string) :
  ~ In k names -> get (map (fun n => (n, F n)) names) k = None.
Proof.
  induction names as [|n names IH]; simpl; [reflexivity|].
  intros Hk. destruct (String.eqb_spec n k) as [->|]; [exfalso; apply Hk; left; reflexivity|].
  apply IH. intros H. apply Hk. right. exact H.
Qed.

(** X17.  The station is ignored: on a weather table that has a date after
    lines 123-126 and a numeric column besides it, and whose station
    column is not numeric, renaming the station to [ORIGIN] (lines
    129-131) changes nothing in the table that is merged, which holds no
    station column under either name it could have got. *)
Theorem station_rename_without_effect (weather_raw : frame) (n : string) (c : column) :
  has (derive_date "DATE" weather_raw) "DATE" = true ->
  In (n, c) weather_raw -> String.eqb n "DATE" = false -> is_numeric c = true ->
  (forall s, In ("STATION"%string, s) weather_raw -> is_numeric s = false) ->
  prepare_weather weather_raw = weather_aggregate (derive_date "DATE" weather_raw) /\
  has (prepare_weather weather_raw) "STATION" = false /\
  (has weather_raw "ORIGIN" = false -> has (prepare_weather weather_raw) "ORIGIN" = false).
Proof.
  intros Hdate Hin Hne Hc Hst. unfold prepare_weather.
  set (wx0 := derive_date "DATE" weather_raw) in *.
  assert (F1 : forall s, In ("STATION"%string, s) wx0 -> is_numeric s = false).
  { intros s Hs. apply Hst. exact (in_derive_date_inv _ _ _ _ Hs eq_refl). }
  assert (F2 : exists n1 names, numeric_weather_cols wx0 = n1 :: names).
  { destruct (numeric_weather_cols wx0) as [|n1 names] eqn:E; [|eauto].
    apply numeric_cols_nil in E.
    assert (H0 : has_numeric wx0 = true).
    { unfold wx0, derive_date.
      destruct (get weather_raw "YEAR"), (get weather_raw "MONTH"),
        (get weather_raw "DAY"), (get weather_raw "DATE");
        try (eapply has_numeric_in; [apply in_set_other|]; eassumption);
        eapply has_numeric_in; eassumption. }
    congruence. }
  destruct F2 as (n1 & names & Hnames).
  assert (F3 : exists dates, get wx0 "DATE" = Some (CTime dates)).
  { unfold has in Hdate. destruct (get wx0 "DATE") as [d|] eqn:E; [|discriminate].
    destruct (derive_date_time "DATE" weather_raw d E) as [dates ->]. eauto. }
  destruct F3 as (dates & Hd).
  assert (Hno : forall k, get wx0 k = None -> String.eqb k "DATE" = false ->
                          get (weather_aggregate wx0) k = None).
  { intros k Hk Hkd. unfold weather_aggregate. rewrite Hnames, Hd, <- Hnames.
    unfold aggregate. cbn [get]. rewrite String.eqb_sym, Hkd.
    apply get_named_none. intros Hkin.
    apply numeric_cols_in in Hkin as (x & Hx & _). apply in_has in Hx.
    unfold has in Hx. rewrite Hk in Hx. discriminate. }
  assert (Hstation : get (weather_aggregate wx0) "STATION" = None).
  { unfold weather_aggregate. rewrite Hnames, Hd, <- Hnames.
    unfold aggregate. cbn [get]. change (String.eqb "DATE" "STATION") with false.
    cbv iota. apply get_named_none. intros Hkin.
    apply numeric_cols_in in Hkin as (x & Hx & Hnum).
    rewrite (F1 x Hx) in Hnum. discriminate. }
  assert (Heq : (if has wx0 "STATION" && negb (has wx0 "ORIGIN")
                 then weather_aggregate (rename wx0 "STATION" "ORIGIN")
                 else weather_aggregate wx0) = weather_aggregate wx0).
  { destruct (has wx0 "STATION" && negb (has wx0 "ORIGIN")) eqn:Hcond; [|reflexivity].
    apply andb_true_iff in Hcond as [_ Ho]. apply negb_true_iff in Ho.
    unfold weather_aggregate.
    rewrite (numeric_cols_rename wx0 "STATION" "ORIGIN" F1),
      (get_rename_other wx0 "STATION" "ORIGIN" "DATE" eq_refl eq_refl), Hnames, Hd,
      <- Hnames.
    unfold aggregate. f_equal. apply map_ext_in. intros k Hk.
    apply numeric_cols_in in Hk as (x & Hx & Hnum).
    unfold column_values. rewrite get_rename_other; [reflexivity| |].
    - destruct (String.eqb_spec "STATION" k) as [<-|]; [|reflexivity].
      rewrite (F1 x Hx) in Hnum. discriminate.
    - destruct (String.eqb_spec "ORIGIN" k) as [<-|]; [|reflexivity].
      apply in_has in Hx. congruence. }
  assert (Hprep : weather_aggregate
                    (if has wx0 "STATION" && negb (has wx0 "ORIGIN")
                     then rename wx0 "STATION" "ORIGIN" else wx0)
                  = weather_aggregate wx0).
  { revert Heq. destruct (has wx0 "STATION" && negb (has wx0 "ORIGIN"));
      intros Heq; [exact Heq|reflexivity]. }
  rewrite Hprep. split; [reflexivity|]. split.
  - unfold has. rewrite Hstation. reflexivity.
  - intros Ho. unfold has. rewrite Hno; [reflexivity| |reflexivity].
    destruct (get wx0 "ORIGIN") as [o|] eqn:E; [|reflexivity].
    assert (Hino : In ("ORIGIN"%string, o) wx0).
    { clear - E. induction wx0 as [|[m x] fl IH]; simpl in *; [discriminate|].
      destruct (String.eqb_spec m "ORIGIN") as [->|]; [left; congruence|right; apply IH, E]. }
    apply in_derive_date_inv in Hino; [|reflexivity].
    apply in_has in Hino. congruence.
Qed.

End Station.

Lemma station_rename_without_effect_witness :
  has station_weather "STATION" = true /\
  forall lib : Pandas,
    prepare_weather station_weather
    = weather_aggregate (derive_date "DATE" station_weather) /\
    has (prepare_weather station_weather) "STATION" = false /\
    (has station_weather "ORIGIN" = false ->
     has (prepare_weather station_weather) "ORIGIN" = false).
Proof.
  split; [reflexivity|]. intros lib.
  apply (station_rename_without_effect station_weather "TMAX" (CInt [50; 60]));
    try reflexivity.
  - simpl. right. right. left. reflexivity.
  - simpl. intros s [H|[H|[H|[]]]]; inversion H. reflexivity.
Defined.
